(** * ParaYield: yield derivation and portfolio backtest engines

    A shallow embedding of
      - [src/modules/backtest/backtest.service.ts]   (module [Backtest],
        and module [Binary64] for the Sharpe ratio),
      - [src/modules/backtest/backtest.controller.ts] (the request DTO rules),
      - [src/modules/apy/apy-calculator.service.ts]  (modules [Apy],
        [ApyService] and, for its controller, [ApyController]),
    followed by the properties of the specification that are settled on it
    and by further properties of the same code.

    Numbers.  A JavaScript [number] is modelled by a real number: [+ - * /]
    are the field operations of [R], [Math.sqrt] is [sqrt], and [Math.pow]
    is [Rpower] on a positive base.  Rounding of binary64 arithmetic, [NaN]
    and the infinities are outside this model; where JavaScript would
    produce one of them (a division by zero, a negative base under a
    fractional exponent) the modelled value carries no meaning and no
    theorem below relies on it.  The guard of the Sharpe ratio is
    decided by rounding, and a drained portfolio divides by zero: the part
    of the service that the Sharpe ratio depends on is modelled a second
    time over binary64 floats, in module [Binary64], and what is proved of
    the Sharpe ratio is proved there.  Dates are epoch milliseconds in
    [Z].
    Strings are [string]; JavaScript compares them by code unit, which is
    [String.le] on the byte strings used here. *)

From Stdlib Require Import Reals Lra Lia ZArith Ascii String.
From Stdlib Require Floats.
From stdpp Require Import base list sorting gmap strings.

(* ===================================================================== *)
(** ** The number model *)
(* ===================================================================== *)

Module JsNum.
Local Open Scope R_scope.

#[global] Instance R_inhabited : Inhabited R := populate 0.
#[global] Instance Rlt_decision : RelDecision Rlt := Rlt_dec.
#[global] Instance Rle_decision : RelDecision Rle := Rle_dec.
#[global] Instance Req_decision : EqDecision R := Req_dec_T.

(** [x < y], [x <= y], [x > y] and [x === y] on numbers. *)
Definition Rltb (x y : R) : bool := bool_decide (x < y).
Definition Rleb (x y : R) : bool := bool_decide (x <= y).
Definition Rgtb (x y : R) : bool := Rltb y x.
Definition Reqb (x y : R) : bool := bool_decide (x = y).

(** [a || b] on numbers: [a] when it is truthy (not zero), else [b]. *)
Definition jsOr (a b : R) : R := if Reqb a 0 then b else a.

(** [a ?? b] on an optional number. *)
Definition nullish (a : option R) (b : R) : R := default b a.

(** Truncation toward zero, as used by the remainder operator. *)
Definition Rtrunc (x : R) : Z :=
  if Rleb 0 x then Int_part x else (- Int_part (- x))%Z.

(** [a % b] for [b] not zero. *)
Definition fmod (a b : R) : R := a - b * IZR (Rtrunc (a / b)).

(** [parseFloat(x.toFixed(4))]: the nearest multiple of 1/10000, a tie
    going away from zero. *)
Definition toFixed4 (x : R) : R :=
  if Rltb x 0
  then - (IZR (Int_part (- x * 10000 + / 2)) / 10000)
  else IZR (Int_part (x * 10000 + / 2)) / 10000.

(** [Math.pow(x, y)].  A positive base gives the real power; a base that
    is not positive is defined for an integral exponent. *)
Definition Math_pow (x y : R) : R :=
  if Rltb 0 x then Rpower x y
  else if Reqb y (IZR (Int_part y)) then powerRZ x (Int_part y)
  else 0.

(** [Math.min(...l)] and [Math.max(...l)] of a non-empty array. *)
Definition Math_min_list (l : list R) : R :=
  match l with [] => 0 | x :: l' => foldr Rmin x l' end.
Definition Math_max_list (l : list R) : R :=
  match l with [] => 0 | x :: l' => foldr Rmax x l' end.

(** [l.reduce((s, v) => s + f(v), 0)]. *)
Definition sumBy {A} (f : A → R) (l : list A) : R :=
  fold_left (λ s a, s + f a) l 0.

#[global] Arguments Rltb : simpl never.
#[global] Arguments Rleb : simpl never.
#[global] Arguments Reqb : simpl never.
#[global] Arguments toFixed4 : simpl never.
#[global] Arguments fmod : simpl never.
#[global] Arguments Math_pow : simpl never.
End JsNum.
Import JsNum.

(* ===================================================================== *)
(** ** Strings and dates of the JavaScript runtime *)
(* ===================================================================== *)

Module JsDate.
Local Open Scope Z_scope.

Definition msPerDay : Z := 1000 * 60 * 60 * 24.

(** The calendar day (days since 1970-01-01, UTC) of a timestamp. *)
Definition dayOf (ms : Z) : Z := ms / msPerDay.

Definition digit (d : Z) : ascii :=
  ascii_of_N (Z.to_N (d mod 10) + 48).

Definition pad2 (n : Z) : string :=
  String (digit (n / 10)) (String (digit n) EmptyString).

Definition pad4 (n : Z) : string :=
  String (digit (n / 1000)) (String (digit (n / 100)) (pad2 n)).

(** Proleptic Gregorian date of a day number: (year, month, day). *)
Definition civilFromDays (days : Z) : Z * Z * Z :=
  let z := days + 719468 in
  let era := z / 146097 in
  let doe := z - era * 146097 in
  let yoe := (doe - doe / 1460 + doe / 36524 - doe / 146096) / 365 in
  let doy := doe - (365 * yoe + yoe / 4 - yoe / 100) in
  let mp := (5 * doy + 2) / 153 in
  let d := doy - (153 * mp + 2) / 5 + 1 in
  let m := if mp <? 10 then mp + 3 else mp - 9 in
  let y := yoe + era * 400 + (if m <=? 2 then 1 else 0) in
  (y, m, d).

(** [new Date(ms).toISOString().slice(0, 10)], for the years 0000 to
    9999 (JavaScript prints other years with a sign and six digits). *)
Definition isoDate (ms : Z) : string :=
  let '(y, m, d) := civilFromDays (dayOf ms) in
  (pad4 y +:+ "-" +:+ pad2 m +:+ "-" +:+ pad2 d)%string.
End JsDate.

Module JsString.
(** [s.toLowerCase()] on the ASCII letters. *)
Definition lowerAscii (c : ascii) : ascii :=
  let n := N_of_ascii c in
  if ((65 <=? n) && (n <=? 90))%N then ascii_of_N (n + 32) else c.

Fixpoint toLowerCase (s : string) : string :=
  match s with
  | EmptyString => EmptyString
  | String c s' => String (lowerAscii c) (toLowerCase s')
  end.

(** [s.slice(0, n)]. *)
Definition slice0 (n : nat) (s : string) : string := String.substring 0 n s.

(** The elements of [new Set(l)], in insertion order. *)
Fixpoint uniq (l : list string) : list string :=
  match l with
  | [] => []
  | x :: l' => x :: filter (λ y, y ≠ x) (uniq l')
  end.
End JsString.
Import JsDate JsString.


(* ===================================================================== *)
(** ** Data of the pools client and of the backtest request *)
(* ===================================================================== *)

Module PoolsClient.
(** [PoolHistoryRecord], one row of the external [/pools/history]. *)
Record PoolHistoryRecord := {
  protocol : string;
  network : string;
  poolType : string;
  assetSymbol : string;
  supplyApy : option R;
  rewardApy : option R;
  totalApy : option R;
  dataTimestamp : string;
}.

(** What [fetchPoolHistory] does for one request: it throws, or it
    answers with a body whose [data] may be missing. *)
Inductive FetchResponse :=
| FetchThrows
| FetchAnswers (data : option (list PoolHistoryRecord)).
End PoolsClient.

Module Dto.
Record BacktestAllocation := {
  protocol : string;
  assetSymbol : string;
  percentage : R;
  poolType : option string;
}.

(** [RunBacktestDto].  [fromDate] and [toDate] are [new Date(from)] and
    [new Date(to)] in epoch milliseconds. *)
Record RunBacktestDto := {
  initialAmountUsd : R;
  fromDate : Z;
  toDate : Z;
  allocations : list BacktestAllocation;
  rebalanceIntervalDays : option R;
  includeIL : option bool;
  xcmFeeUsd : option R;
}.
End Dto.

(* ===================================================================== *)
(** ** backtest.service.ts *)
(* ===================================================================== *)

Module Backtest.
Import PoolsClient.
Local Open Scope R_scope.

(** [DailyApyMap]: "YYYY-MM-DD" to APY percent. *)
Abbreviation DailyApyMap := (gmap string R).

Record AllocState := {
  protocol : string;
  assetSymbol : string;
  poolType : string;
  percentage : R;
  valueUsd : R;
  apyHistory : DailyApyMap;
  firstPrice : option R;
  apySamples : list R;
  ilLossUsd : R;
}.

Record TimeSeriesPoint := {
  date : string;
  totalValueUsd : R;
  dailyReturnPct : R;
}.

Definition RISK_FREE_RATE : R := 0.05.

(** *** Helpers *)

Definition effectiveApy (rec : PoolHistoryRecord) : R :=
  match totalApy rec with
  | Some t => t
  | None => nullish (supplyApy rec) 0 + nullish (rewardApy rec) 0
  end.

Definition buildApyMap (records : list PoolHistoryRecord) : DailyApyMap :=
  fold_left
    (λ map rec, <[ slice0 10 (dataTimestamp rec) := effectiveApy rec ]> map)
    records ∅.

(** [Object.keys(map)]. *)
Definition keys (map : DailyApyMap) : list string := (map_to_list map).*1.

Definition getApyForDay
    (map : DailyApyMap) (dateStr : string) (allDays : list string) : R :=
  match map !! dateStr with
  | Some v => v
  | None =>
      let mapKeys := merge_sort String.le (keys map) in
      match mapKeys with
      | [] => 0
      | first :: _ =>
          let past := filter (λ k, String.le k dateStr) mapKeys in
          match last past with
          | Some k => map !!! k
          | None => map !!! first
          end
      end
  end.

(** The [while (cursor <= end)] loop; [fuel] bounds its iterations. *)
Fixpoint buildDayList_loop (fuel : nat) (cursor end_ : Z) : list string :=
  match fuel with
  | O => []
  | S fuel' =>
      if (cursor <=? end_)%Z
      then isoDate cursor :: buildDayList_loop fuel' (cursor + msPerDay) end_
      else []
  end.

Definition buildDayList (start end_ : Z) : list string :=
  buildDayList_loop (Z.to_nat ((end_ - start) / msPerDay + 1)) start end_.

Definition countCrossChainHops (states : list AllocState) : R :=
  let networks := uniq (map protocol states) in
  Rmax 0 (INR (length networks) - 1).

Definition calculateIL (priceRatio : R) : R :=
  if Rleb priceRatio 0 then 0
  else 2 * sqrt priceRatio / (1 + priceRatio) - 1.

Definition estimatePriceRatio (days : nat) (apySamples : list R) : R :=
  if (length apySamples <? 2)%nat then 1
  else
    let mean := sumBy id apySamples / INR (length apySamples) in
    let variance :=
      sumBy (λ v, Math_pow (v - mean) 2) apySamples / INR (length apySamples) in
    let stdDev := sqrt variance in
    let drift := Rmin 0.3 (stdDev / 100 * 0.3) in
    1 + drift.

(** [calcSharpe] in exact arithmetic.  At run time the test
    [stdDev === 0] is decided by the rounding of the two sums, which this
    reading does not have: [Binary64.calcSharpe] is the function as the
    runtime computes it, and nothing below is stated of this one. *)
Definition calcSharpe (dailyReturns : list R) : R :=
  if (length dailyReturns <? 2)%nat then 0
  else
    let rfDaily := RISK_FREE_RATE / 365 in
    let mean := sumBy id dailyReturns / INR (length dailyReturns) in
    let variance :=
      sumBy (λ r, Math_pow (r - mean) 2) dailyReturns
      / (INR (length dailyReturns) - 1) in
    let stdDev := sqrt variance in
    if Reqb stdDev 0 then 0
    else (mean - rfDaily) / stdDev * sqrt 365.

(** The [for (i = 0; i < series.length; i += step)] loop.  A point of
    the series is an object; it is carried with its position, which is
    what [!==] on two points of the series compares. *)
Fixpoint strideLoop {A} (fuel : nat) (series : list A) (i step : nat)
    : list (nat * A) :=
  match fuel with
  | O => []
  | S fuel' =>
      match series !! i with
      | Some p => (i, p) :: strideLoop fuel' series (i + step) step
      | None => []
      end
  end.

(** [Math.ceil(n / m)] for [m > 0]. *)
Definition ceilDiv (n m : nat) : nat := ((n + m - 1) / m)%nat.

Definition downsampleTimeSeries {A} (series : list A) (maxPoints : nat)
    : list A :=
  if (length series <=? maxPoints)%nat then series
  else
    let step := ceilDiv (length series) maxPoints in
    let result := strideLoop (length series) series 0 step in
    let lastIx := (length series - 1)%nat in
    match last result, series !! lastIx with
    | Some (j, _), Some p =>
        if (j =? lastIx)%nat then result.*2 else result.*2 ++ [p]
    | _, _ => result.*2
    end.
(** *** The day loop of [runBacktest] *)

(** The variables the loop carries from one day to the next. *)
Record LoopState := {
  allocStates : list AllocState;
  timeSeries : list TimeSeriesPoint;
  peakValue : R;
  maxDrawdown : R;
  xcmFeesPaidUsd : R;
  rebalanceCount : nat;
  prevTotalValue : R;
}.

Definition set_valueUsd (state : AllocState) (v : R) : AllocState :=
  {| protocol := protocol state; assetSymbol := assetSymbol state;
     poolType := poolType state; percentage := percentage state;
     valueUsd := v;
     apyHistory := apyHistory state; firstPrice := firstPrice state;
     apySamples := apySamples state; ilLossUsd := ilLossUsd state |}.

Definition push_apySample (state : AllocState) (apy : R) : AllocState :=
  {| protocol := protocol state; assetSymbol := assetSymbol state;
     poolType := poolType state; percentage := percentage state;
     valueUsd := valueUsd state;
     apyHistory := apyHistory state; firstPrice := firstPrice state;
     apySamples := apySamples state ++ [apy]; ilLossUsd := ilLossUsd state |}.

Definition set_ilLossUsd (state : AllocState) (l : R) : AllocState :=
  {| protocol := protocol state; assetSymbol := assetSymbol state;
     poolType := poolType state; percentage := percentage state;
     valueUsd := valueUsd state;
     apyHistory := apyHistory state; firstPrice := firstPrice state;
     apySamples := apySamples state; ilLossUsd := l |}.

(** "Apply daily APY growth", the body of the inner loop. *)
Definition applyGrowth (i : nat) (dateStr : string) (days : list string)
    (state : AllocState) : AllocState :=
  let apy := getApyForDay (apyHistory state) dateStr days in
  let state := push_apySample state apy in
  if (0 <? i)%nat
  then
    let dailyRate := apy / 100 / 365 in
    set_valueUsd state (valueUsd state * (1 + dailyRate))
  else state.

Definition isRebalanceDay (rebalanceIntervalDays : R) (i : nat) : bool :=
  Rgtb rebalanceIntervalDays 0
  && (0 <? i)%nat
  && Reqb (fmod (INR i) rebalanceIntervalDays) 0.

(** "Re-distribute according to original percentages". *)
Definition redistribute (totalAfterFees : R) (states : list AllocState)
    : list AllocState :=
  map (λ state, set_valueUsd state (totalAfterFees * (percentage state / 100)))
      states.

(** One iteration of [for (let i = 0; i < days.length; i++)].  The daily
    return divides by the total of the day before; when that total is 0
    the runtime records an infinity or [NaN] ([Binary64.dayStep]), and the
    return recorded here carries no meaning. *)
Definition dayStep (rebalanceIntervalDays xcmFeeUsd : R) (days : list string)
    (i : nat) (dateStr : string) (st : LoopState) : LoopState :=
  let grown := map (applyGrowth i dateStr days) (allocStates st) in
  let totalBefore := sumBy valueUsd grown in
  let crossChainCount := countCrossChainHops grown in
  let feesThisRebalance := xcmFeeUsd * crossChainCount in
  let totalAfterFees := totalBefore - feesThisRebalance in
  let rebalance := isRebalanceDay rebalanceIntervalDays i in
  let states := if rebalance then redistribute totalAfterFees grown else grown in
  let totalValue := sumBy valueUsd states in
  let dailyReturn :=
    if (i =? 0)%nat then 0
    else (totalValue - prevTotalValue st) / prevTotalValue st * 100 in
  let peak := if Rgtb totalValue (peakValue st) then totalValue else peakValue st in
  let drawdown := (peak - totalValue) / peak * 100 in
  {| allocStates := states;
     timeSeries :=
       timeSeries st ++
       [ {| date := dateStr;
            totalValueUsd := toFixed4 totalValue;
            dailyReturnPct := toFixed4 dailyReturn |} ];
     peakValue := peak;
     maxDrawdown :=
       if Rgtb drawdown (maxDrawdown st) then drawdown else maxDrawdown st;
     xcmFeesPaidUsd :=
       if rebalance then xcmFeesPaidUsd st + feesThisRebalance
       else xcmFeesPaidUsd st;
     rebalanceCount :=
       if rebalance then S (rebalanceCount st) else rebalanceCount st;
     prevTotalValue := totalValue |}.

(** The loop from index [i] over the days that remain. *)
Fixpoint dayLoop (rebalanceIntervalDays xcmFeeUsd : R) (days : list string)
    (i : nat) (rest : list string) (st : LoopState) : LoopState :=
  match rest with
  | [] => st
  | dateStr :: rest' =>
      dayLoop rebalanceIntervalDays xcmFeeUsd days (S i) rest'
        (dayStep rebalanceIntervalDays xcmFeeUsd days i dateStr st)
  end.

(** *** Set-up: fetch per protocol, one state per allocation *)

Definition fetchRecords (resp : FetchResponse) : list PoolHistoryRecord :=
  match resp with
  | FetchThrows => []
  | FetchAnswers data => default [] data
  end.

Definition buildCache (fetchPoolHistory : string → FetchResponse)
    (protocolsNeeded : list string) : gmap string (list PoolHistoryRecord) :=
  fold_left
    (λ cache proto, <[ proto := fetchRecords (fetchPoolHistory proto) ]> cache)
    protocolsNeeded ∅.

Definition initAllocState (initialAmountUsd : R)
    (protocolHistoryCache : gmap string (list PoolHistoryRecord))
    (alloc : Dto.BacktestAllocation) : AllocState :=
  let rawRecords :=
    filter
      (λ r, toLowerCase (PoolsClient.assetSymbol r)
            = toLowerCase (Dto.assetSymbol alloc))
      (default [] (protocolHistoryCache !! Dto.protocol alloc)) in
  {| protocol := Dto.protocol alloc;
     assetSymbol := Dto.assetSymbol alloc;
     poolType := default "unknown"%string (Dto.poolType alloc);
     percentage := Dto.percentage alloc;
     valueUsd := initialAmountUsd * (Dto.percentage alloc / 100);
     apyHistory := buildApyMap rawRecords;
     firstPrice := None;
     apySamples := [];
     ilLossUsd := 0 |}.

Definition initLoopState (initialAmountUsd : R) (states : list AllocState)
    : LoopState :=
  {| allocStates := states;
     timeSeries := [];
     peakValue := initialAmountUsd;
     maxDrawdown := 0;
     xcmFeesPaidUsd := 0;
     rebalanceCount := 0;
     prevTotalValue := initialAmountUsd |}.

(** *** Impermanent loss, applied after the loop *)

Definition applyIL (state : AllocState) : AllocState :=
  if bool_decide (poolType state = "dex"%string)
     || bool_decide (poolType state = "farming"%string)
  then
    let estimatedPriceRatio :=
      estimatePriceRatio (length (apySamples state)) (apySamples state) in
    let il := calculateIL estimatedPriceRatio in
    let ilLoss := valueUsd state * Rabs il in
    set_valueUsd (set_ilLossUsd state (toFixed4 ilLoss)) (valueUsd state - ilLoss)
  else state.

(** *** The result *)

Module Result.
Record Summary := {
  initialAmountUsd : R;
  finalAmountUsd : R;
  totalReturnUsd : R;
  totalReturnPercent : R;
  annualizedApyPercent : R;
  maxDrawdownPercent : R;
  sharpeRatio : R;
  durationDays : Z;
  from : Z;
  to : Z;
  rebalancedCount : nat;
  xcmFeesPaidUsd : R;
  ilIncluded : bool;
}.

Record Breakdown := {
  protocol : string;
  assetSymbol : string;
  poolType : string;
  allocationPercent : R;
  allocatedUsd : R;
  avgApyPercent : R;
  minApyPercent : R;
  maxApyPercent : R;
  ilLossUsd : R;
  finalUsd : R;
  returnUsd : R;
  returnPercent : R;
  dataPointsUsed : nat;
  hasHistoricalData : bool;
}.

Record BacktestResult := {
  summary : Summary;
  breakdown : list Breakdown;
  timeSeries : list TimeSeriesPoint;
}.
End Result.

(** What a [BadRequestException] of the service or of the validation
    pipe says. *)
Inductive BadRequest :=
| AllocationsMustSumTo100 (total : R)
| FromMustBeBeforeTo
| DtoValidationFailed.

Inductive Outcome :=
| Rejected (why : BadRequest)
| Returned (result : Result.BacktestResult).

(** A call of [runBacktest]: the protocols whose history was requested
    from the external server, in order, and how the call ended. *)
Record Run := {
  fetched : list string;
  outcome : Outcome;
}.

Definition breakdownOf (initialAmountUsd : R) (state : AllocState)
    : Result.Breakdown :=
  let allocatedUsd := initialAmountUsd * (percentage state / 100) in
  let returnUsd := valueUsd state - allocatedUsd in
  let returnPct := returnUsd / allocatedUsd * 100 in
  let n := length (apySamples state) in
  let avgApy := if (0 <? n)%nat then sumBy id (apySamples state) / INR n else 0 in
  let minApy := if (0 <? n)%nat then Math_min_list (apySamples state) else 0 in
  let maxApy := if (0 <? n)%nat then Math_max_list (apySamples state) else 0 in
  {| Result.protocol := protocol state;
     Result.assetSymbol := assetSymbol state;
     Result.poolType := poolType state;
     Result.allocationPercent := percentage state;
     Result.allocatedUsd := toFixed4 allocatedUsd;
     Result.avgApyPercent := toFixed4 avgApy;
     Result.minApyPercent := toFixed4 minApy;
     Result.maxApyPercent := toFixed4 maxApy;
     Result.ilLossUsd := ilLossUsd state;
     Result.finalUsd := toFixed4 (valueUsd state);
     Result.returnUsd := toFixed4 returnUsd;
     Result.returnPercent := toFixed4 returnPct;
     Result.dataPointsUsed := n;
     Result.hasHistoricalData := (0 <? length (keys (apyHistory state)))%nat |}.

(** The destructured request, with the defaults of the service. *)
Definition rebalanceIntervalDaysOf (dto : Dto.RunBacktestDto) : R :=
  nullish (Dto.rebalanceIntervalDays dto) 0.
Definition xcmFeeUsdOf (dto : Dto.RunBacktestDto) : R :=
  nullish (Dto.xcmFeeUsd dto) 0.5.
Definition includeILOf (dto : Dto.RunBacktestDto) : bool :=
  default false (Dto.includeIL dto).

(** [days], the calendar days of the run. *)
Definition daysOf (dto : Dto.RunBacktestDto) : list string :=
  buildDayList (Dto.fromDate dto) (Dto.toDate dto).

(** The loop variables when the day loop starts. *)
Definition setup (dto : Dto.RunBacktestDto)
    (fetchPoolHistory : string → FetchResponse) : LoopState :=
  let initialAmountUsd := Dto.initialAmountUsd dto in
  let protocolsNeeded := uniq (map Dto.protocol (Dto.allocations dto)) in
  let protocolHistoryCache := buildCache fetchPoolHistory protocolsNeeded in
  let allocStates :=
    map (initAllocState initialAmountUsd protocolHistoryCache)
        (Dto.allocations dto) in
  initLoopState initialAmountUsd allocStates.

(** The loop variables when the day loop has ended. *)
Definition simulate (dto : Dto.RunBacktestDto)
    (fetchPoolHistory : string → FetchResponse) : LoopState :=
  dayLoop (rebalanceIntervalDaysOf dto) (xcmFeeUsdOf dto) (daysOf dto)
    0 (daysOf dto) (setup dto fetchPoolHistory).

(** "Final metrics", "Build breakdown" and the returned object. *)
Definition report (dto : Dto.RunBacktestDto) (loop : LoopState)
    : Result.BacktestResult :=
  let initialAmountUsd := Dto.initialAmountUsd dto in
  let includeIL := includeILOf dto in
  let days := daysOf dto in
  let durationDays := (Z.of_nat (length days) - 1)%Z in
  let allocStates :=
    if includeIL then map applyIL (allocStates loop) else allocStates loop in
  let finalTotalUsd := sumBy valueUsd allocStates in
  let totalReturnUsd := finalTotalUsd - initialAmountUsd in
  let totalReturnPct := totalReturnUsd / initialAmountUsd * 100 in
  let annualizedApy :=
    if (0 <? durationDays)%Z
    then (Math_pow (finalTotalUsd / initialAmountUsd) (365 / IZR durationDays) - 1) * 100
    else 0 in
  let dailyReturns :=
    map (λ t, dailyReturnPct t / 100) (drop 1 (timeSeries loop)) in
  let sharpeRatio := calcSharpe dailyReturns in
  {| Result.summary :=
       {| Result.initialAmountUsd := initialAmountUsd;
          Result.finalAmountUsd := toFixed4 finalTotalUsd;
          Result.totalReturnUsd := toFixed4 totalReturnUsd;
          Result.totalReturnPercent := toFixed4 totalReturnPct;
          Result.annualizedApyPercent := toFixed4 annualizedApy;
          Result.maxDrawdownPercent := toFixed4 (- maxDrawdown loop);
          Result.sharpeRatio := toFixed4 sharpeRatio;
          Result.durationDays := durationDays;
          Result.from := Dto.fromDate dto;
          Result.to := Dto.toDate dto;
          Result.rebalancedCount := rebalanceCount loop;
          Result.xcmFeesPaidUsd := toFixed4 (xcmFeesPaidUsd loop);
          Result.ilIncluded := includeIL |};
     Result.breakdown := map (breakdownOf initialAmountUsd) allocStates;
     Result.timeSeries := downsampleTimeSeries (timeSeries loop) 500 |}.

(** [BacktestService.runBacktest]. *)
Definition runBacktest (dto : Dto.RunBacktestDto)
    (fetchPoolHistory : string → FetchResponse) : Run :=
  let total := sumBy Dto.percentage (Dto.allocations dto) in
  if (Rgtb total 100.01 || Rltb total 99.99) && Rgtb (Rabs (total - 100)) 0.01
  then {| fetched := []; outcome := Rejected (AllocationsMustSumTo100 total) |}
  else if (Dto.fromDate dto >=? Dto.toDate dto)%Z
  then {| fetched := []; outcome := Rejected FromMustBeBeforeTo |}
  else
    {| fetched := uniq (map Dto.protocol (Dto.allocations dto));
       outcome := Returned (report dto (simulate dto fetchPoolHistory)) |}.
End Backtest.

(* ===================================================================== *)
(** ** backtest.controller.ts: the request rules and the endpoint *)
(* ===================================================================== *)

Module BacktestController.
Import Backtest.
Local Open Scope R_scope.

(** [@Min(0.01) @Max(100) percentage]. *)
Definition validAllocation (a : Dto.BacktestAllocation) : bool :=
  Rleb 0.01 (Dto.percentage a) && Rleb (Dto.percentage a) 100.

Definition validOptional (lo : R) (x : option R) : bool :=
  match x with None => true | Some v => Rleb lo v end.

(** The class-validator rules of [RunBacktestDto], checked by the global
    [ValidationPipe] before the handler runs. *)
Definition validDto (dto : Dto.RunBacktestDto) : bool :=
  Rleb 1 (Dto.initialAmountUsd dto)
  && (1 <=? length (Dto.allocations dto))%nat
  && forallb validAllocation (Dto.allocations dto)
  && validOptional 0 (Dto.rebalanceIntervalDays dto)
  && validOptional 0 (Dto.xcmFeeUsd dto).

(** [POST /backtest/run]. *)
Definition runBacktest (dto : Dto.RunBacktestDto)
    (fetchPoolHistory : string → PoolsClient.FetchResponse) : Run :=
  if validDto dto then Backtest.runBacktest dto fetchPoolHistory
  else {| fetched := []; outcome := Rejected DtoValidationFailed |}.
End BacktestController.

(* ===================================================================== *)
(** ** backtest.service.ts in binary64: the daily returns and the Sharpe
       ratio *)
(* ===================================================================== *)

(** Whether [stdDev === 0] holds in [calcSharpe], and what a division by
    a total of 0 records, is decided by the binary64 arithmetic of the
    runtime.  This module is the part of [runBacktest] that the Sharpe
    ratio depends on, with every number a binary64 [float] and every
    operation the IEEE 754 one: the request rules, the day loop as far as
    the recorded daily returns depend on it, [calcSharpe], and the
    rounding of the reported figure.  A decimal literal denotes the
    double nearest to it, as in JavaScript. *)
Module Binary64.
Import PrimFloat SpecFloat FloatOps.
Local Open Scope float_scope.
Local Set Warnings "-inexact-float".

(** *** Numbers of the runtime *)

(** A count or an index as a number. *)
Definition ofNat (n : nat) : float :=
  of_uint63 (Uint63Axioms.of_Z (Z.of_nat n)).

(** [l.reduce((s, v) => s + f(v), 0)]. *)
Definition sumBy {A} (f : A → float) (l : list A) : float :=
  fold_left (λ s a, s + f a) l 0.

(** [Math.pow(x, 2)], which the runtime evaluates as [x * x]. *)
Definition Math_pow2 (x : float) : float := x * x.

(** [Math.max(a, b)]. *)
Definition Math_max (a b : float) : float :=
  if is_nan a || is_nan b then nan
  else if a <? b then b
  else if b <? a then a
  else if get_sign a then b else a.

(** [a % b]: the remainder of the truncated division, which is exact. *)
Definition fmod (a b : float) : float :=
  match Prim2SF a, Prim2SF b with
  | S754_nan, _ | _, S754_nan => nan
  | S754_infinity _, _ | _, S754_zero _ => nan
  | _, S754_infinity _ => a
  | S754_zero _, _ => a
  | S754_finite sa ma ea, S754_finite _ mb eb =>
      let e := Z.min ea eb in
      let r := Z.rem (Z.pos ma * 2 ^ (ea - e)) (Z.pos mb * 2 ^ (eb - e)) in
      match r with
      | Z.pos p => SF2Prim (S754_finite sa p e)
      | _ => SF2Prim (S754_zero sa)
      end
  end.

(** The double nearest to [n / 10000], a tie going to the even mantissa:
    what [parseFloat] makes of the digits of [n] with four of them after
    the point. *)
Definition parseFixed4 (n : positive) : float :=
  let e0 := (Z.log2 (Z.pos n) - Z.log2 10000 - 53)%Z in
  let num := if (0 <=? e0)%Z then Z.pos n else (Z.pos n * 2 ^ (- e0))%Z in
  let den := if (0 <=? e0)%Z then (10000 * 2 ^ e0)%Z else 10000%Z in
  let '(den, e) :=
    if (2 ^ 53 <=? num / den)%Z then (2 * den, e0 + 1)%Z else (den, e0) in
  let m := (num / den)%Z in
  let r := (num mod den)%Z in
  let m :=
    if (den <? 2 * r)%Z || ((2 * r =? den)%Z && Z.odd m) then (m + 1)%Z else m in
  SF2Prim (S754_finite false (Z.to_pos m) e).

(** [parseFloat(x.toFixed(4))].  [toFixed] prints the integer [n] nearest
    to [|x| * 10000], the larger one at a tie, with the sign of a negative
    [x]; from 1e21 on, and for [NaN] and the infinities, it prints [x]
    itself. *)
Definition toFixed4 (x : float) : float :=
  match Prim2SF x with
  | S754_finite s m e =>
      if 1e21 <=? abs x then x
      else
        let a := (Z.pos m * 10000)%Z in
        let n :=
          if (0 <=? e)%Z then (a * 2 ^ e)%Z
          else ((2 * a + 2 ^ (- e)) / (2 * 2 ^ (- e)))%Z in
        let r := match n with Z.pos p => parseFixed4 p | _ => 0 end in
        if s then - r else r
  | S754_zero _ => 0
  | _ => x
  end.

(** The real number that a finite double is. *)
Definition toReal (x : float) : R :=
  match Prim2SF x with
  | S754_finite s m e =>
      ((if s then -1 else 1) * IZR (Z.pos m) * powerRZ 2 e)%R
  | _ => 0%R
  end.

(** *** Helpers *)

Abbreviation DailyApyMap := (gmap string float).

(** The fields of [AllocState] that the loop reads or writes on the way
    to the daily returns. *)
Record AllocState := {
  protocol : string;
  percentage : float;
  valueUsd : float;
  apyHistory : DailyApyMap;
}.

Record TimeSeriesPoint := {
  date : string;
  totalValueUsd : float;
  dailyReturnPct : float;
}.

Definition RISK_FREE_RATE : float := 0.05.

Definition keys (map : DailyApyMap) : list string := (map_to_list map).*1.

Definition getApyForDay
    (map : DailyApyMap) (dateStr : string) (allDays : list string) : float :=
  match map !! dateStr with
  | Some v => v
  | None =>
      let mapKeys := merge_sort String.le (keys map) in
      match mapKeys with
      | [] => 0
      | first :: _ =>
          let past := filter (λ k, String.le k dateStr) mapKeys in
          match last past with
          | Some k => default 0 (map !! k)
          | None => default 0 (map !! first)
          end
      end
  end.

Definition countCrossChainHops (states : list AllocState) : float :=
  let networks := uniq (map protocol states) in
  Math_max 0 (ofNat (length networks) - 1).

Definition calcSharpe (dailyReturns : list float) : float :=
  if (length dailyReturns <? 2)%nat then 0
  else
    let rfDaily := RISK_FREE_RATE / 365 in
    let mean := sumBy (λ r, r) dailyReturns / ofNat (length dailyReturns) in
    let variance :=
      sumBy (λ r, Math_pow2 (r - mean)) dailyReturns
      / (ofNat (length dailyReturns) - 1) in
    let stdDev := sqrt variance in
    if stdDev =? 0 then 0
    else (mean - rfDaily) / stdDev * sqrt 365.

(** *** The day loop of [runBacktest] *)

(** The variables of the loop that the daily returns depend on. *)
Record LoopState := {
  allocStates : list AllocState;
  timeSeries : list TimeSeriesPoint;
  prevTotalValue : float;
}.

Definition set_valueUsd (state : AllocState) (v : float) : AllocState :=
  {| protocol := protocol state; percentage := percentage state;
     valueUsd := v; apyHistory := apyHistory state |}.

Definition applyGrowth (i : nat) (dateStr : string) (days : list string)
    (state : AllocState) : AllocState :=
  let apy := getApyForDay (apyHistory state) dateStr days in
  if (0 <? i)%nat
  then
    let dailyRate := apy / 100 / 365 in
    set_valueUsd state (valueUsd state * (1 + dailyRate))
  else state.

Definition isRebalanceDay (rebalanceIntervalDays : float) (i : nat) : bool :=
  (0 <? rebalanceIntervalDays)
  && (0 <? i)%nat
  && (fmod (ofNat i) rebalanceIntervalDays =? 0).

Definition redistribute (totalAfterFees : float) (states : list AllocState)
    : list AllocState :=
  map (λ state, set_valueUsd state (totalAfterFees * (percentage state / 100)))
      states.

(** One iteration of [for (let i = 0; i < days.length; i++)]. *)
Definition dayStep (rebalanceIntervalDays xcmFeeUsd : float)
    (days : list string) (i : nat) (dateStr : string) (st : LoopState)
    : LoopState :=
  let grown := map (applyGrowth i dateStr days) (allocStates st) in
  let totalBefore := sumBy valueUsd grown in
  let crossChainCount := countCrossChainHops grown in
  let feesThisRebalance := xcmFeeUsd * crossChainCount in
  let totalAfterFees := totalBefore - feesThisRebalance in
  let rebalance := isRebalanceDay rebalanceIntervalDays i in
  let states := if rebalance then redistribute totalAfterFees grown else grown in
  let totalValue := sumBy valueUsd states in
  let dailyReturn :=
    if (i =? 0)%nat then 0
    else (totalValue - prevTotalValue st) / prevTotalValue st * 100 in
  {| allocStates := states;
     timeSeries :=
       timeSeries st ++
       [ {| date := dateStr;
            totalValueUsd := toFixed4 totalValue;
            dailyReturnPct := toFixed4 dailyReturn |} ];
     prevTotalValue := totalValue |}.

Fixpoint dayLoop (rebalanceIntervalDays xcmFeeUsd : float)
    (days : list string) (i : nat) (rest : list string) (st : LoopState)
    : LoopState :=
  match rest with
  | [] => st
  | dateStr :: rest' =>
      dayLoop rebalanceIntervalDays xcmFeeUsd days (S i) rest'
        (dayStep rebalanceIntervalDays xcmFeeUsd days i dateStr st)
  end.

(** *** The request and the answer *)

(** An allocation of the request, with the [DailyApyMap] that
    [buildApyMap] made of the records fetched for it. *)
Record Allocation := {
  allocProtocol : string;
  allocPercentage : float;
  allocHistory : DailyApyMap;
}.

(** The destructured request, the defaults of the service filled in. *)
Record Request := {
  initialAmountUsd : float;
  fromDate : Z;
  toDate : Z;
  allocations : list Allocation;
  rebalanceIntervalDays : float;
  xcmFeeUsd : float;
}.

(** What the answer holds of the daily returns: the series before it is
    downsampled, and the Sharpe ratio of the summary. *)
Record Answer := {
  series : list TimeSeriesPoint;
  sharpeRatio : float;
}.

(** [@IsNumber() @Min(0.01) @Max(100) percentage]. *)
Definition validAllocation (a : Allocation) : bool :=
  is_finite (allocPercentage a)
  && (0.01 <=? allocPercentage a) && (allocPercentage a <=? 100).

(** The class-validator rules of [RunBacktestDto] on its numbers. *)
Definition validDto (req : Request) : bool :=
  is_finite (initialAmountUsd req) && (1 <=? initialAmountUsd req)
  && (1 <=? length (allocations req))%nat
  && forallb validAllocation (allocations req)
  && is_finite (rebalanceIntervalDays req) && (0 <=? rebalanceIntervalDays req)
  && is_finite (xcmFeeUsd req) && (0 <=? xcmFeeUsd req).

Definition initAllocState (initialAmountUsd : float) (alloc : Allocation)
    : AllocState :=
  {| protocol := allocProtocol alloc;
     percentage := allocPercentage alloc;
     valueUsd := initialAmountUsd * (allocPercentage alloc / 100);
     apyHistory := allocHistory alloc |}.

(** The loop variables when the day loop has ended. *)
Definition simulate (req : Request) : LoopState :=
  let days := Backtest.buildDayList (fromDate req) (toDate req) in
  dayLoop (rebalanceIntervalDays req) (xcmFeeUsd req) days 0 days
    {| allocStates :=
         map (initAllocState (initialAmountUsd req)) (allocations req);
       timeSeries := [];
       prevTotalValue := initialAmountUsd req |}.

(** [timeSeries.slice(1).map((t) => t.dailyReturnPct / 100)]. *)
Definition dailyReturnsOf (timeSeries : list TimeSeriesPoint) : list float :=
  map (λ t, dailyReturnPct t / 100) (drop 1 timeSeries).

(** [BacktestService.runBacktest]; [None] is a [BadRequestException]. *)
Definition runBacktest (req : Request) : option Answer :=
  let total := sumBy allocPercentage (allocations req) in
  if ((100.01 <? total) || (total <? 99.99)) && (0.01 <? abs (total - 100))
  then None
  else if (fromDate req >=? toDate req)%Z then None
  else
    let loop := simulate req in
    let sharpeRatio := calcSharpe (dailyReturnsOf (timeSeries loop)) in
    Some {| series := timeSeries loop;
            sharpeRatio := toFixed4 sharpeRatio |}.
End Binary64.

(* ===================================================================== *)
(** ** apy-calculator.service.ts *)
(* ===================================================================== *)

Module Apy.
Local Open Scope R_scope.

Module Snapshot.
(** A document of the [apy_snapshots] collection. *)
Record ApySnapshot := {
  asset : string;
  timestamp : Z;
  blockNumber : Z;
  stakingApyPercent : R;
  farmingAprPercent : R;
  totalApyPercent : R;
  apy7d : R;
  apy30d : R;
  exchangeRateHuman : R;
  baseTokenPriceUsd : R;
  chain : string;
  granularity : string;
  createdAt : Z;
}.
End Snapshot.
Abbreviation ApySnapshot := Snapshot.ApySnapshot.

(** A stored exchange-rate observation (the fields the service reads). *)
Record VTokenExchangeRate := {
  tokenSymbol : string;
  blockNumber : Z;
  timestamp : Z;
  exchangeRateHuman : R;
  chain : string;
}.

Definition BIFROST_CHAIN : string := "bifrost-polkadot".

(** *** The repositories *)

Definition byTimestampAsc (a b : VTokenExchangeRate) : Prop :=
  (timestamp a ≤ timestamp b)%Z.
Definition byTimestampDesc (a b : VTokenExchangeRate) : Prop :=
  (timestamp b ≤ timestamp a)%Z.
Definition byBlockDesc (a b : VTokenExchangeRate) : Prop :=
  (blockNumber b ≤ blockNumber a)%Z.

#[global] Instance byTimestampAsc_dec : RelDecision byTimestampAsc.
Proof. intros a b. unfold byTimestampAsc. apply _. Defined.
#[global] Instance byTimestampDesc_dec : RelDecision byTimestampDesc.
Proof. intros a b. unfold byTimestampDesc. apply _. Defined.
#[global] Instance byBlockDesc_dec : RelDecision byBlockDesc.
Proof. intros a b. unfold byBlockDesc. apply _. Defined.

(** [findOne({ where: { tokenSymbol }, order: { blockNumber: 'DESC' } })]. *)
Definition findLatest (rates : list VTokenExchangeRate) (symbol : string)
    : option VTokenExchangeRate :=
  head (merge_sort byBlockDesc (filter (λ r, tokenSymbol r = symbol) rates)).

(** [findOne({ where: { tokenSymbol, timestamp: { $lte: t } },
               order: { timestamp: 'DESC' } })]. *)
Definition findAtOrBefore (rates : list VTokenExchangeRate) (symbol : string)
    (t : Z) : option VTokenExchangeRate :=
  head (merge_sort byTimestampDesc
          (filter (λ r, tokenSymbol r = symbol ∧ (timestamp r ≤ t)%Z) rates)).

(** [find({ where: { tokenSymbol }, order: { timestamp: 'ASC' } })]. *)
Definition findAllAsc (rates : list VTokenExchangeRate) (symbol : string)
    : list VTokenExchangeRate :=
  merge_sort byTimestampAsc (filter (λ r, tokenSymbol r = symbol) rates).

(** The filter of an [updateOne]. *)
Inductive UpdateFilter :=
| ByBlock (asset : string) (blockNumber : Z) (granularity : string)
| ByTimestamp (asset : string) (timestamp : Z) (granularity : string).

Definition matches (f : UpdateFilter) (doc : ApySnapshot) : bool :=
  match f with
  | ByBlock a b g =>
      bool_decide (Snapshot.asset doc = a)
      && bool_decide (Snapshot.blockNumber doc = b)
      && bool_decide (Snapshot.granularity doc = g)
  | ByTimestamp a t g =>
      bool_decide (Snapshot.asset doc = a)
      && bool_decide (Snapshot.timestamp doc = t)
      && bool_decide (Snapshot.granularity doc = g)
  end.

(** [{ updateOne: { filter, update: { $set }, upsert: true } }]; the
    [$set] names every field of the document. *)
Record UpdateOp := {
  opFilter : UpdateFilter;
  opSet : ApySnapshot;
}.

(** [updateOne(filter, { $set }, { upsert: true })]: the first document
    that matches is overwritten; when none matches, one is inserted. *)
Fixpoint updateOne (op : UpdateOp) (repo : list ApySnapshot) : list ApySnapshot :=
  match repo with
  | [] => [opSet op]
  | doc :: repo' =>
      if matches (opFilter op) doc then opSet op :: repo'
      else doc :: updateOne op repo'
  end.

Definition bulkWrite (ops : list UpdateOp) (repo : list ApySnapshot)
    : list ApySnapshot :=
  fold_left (λ repo op, updateOne op repo) ops repo.

(** *** computeApyForAsset *)

(** The figures [computeApyForAsset] derives before it writes. *)
Record Figures := {
  fig_apy7d : R;
  fig_apy30d : R;
  fig_stakingApyPercent : R;
  fig_farmingAprPercent : R;
  fig_totalApyPercent : R;
}.

Definition computeFigures (rates : list VTokenExchangeRate)
    (symbol : string) (latest : VTokenExchangeRate) : Figures :=
  let sevenDaysAgo := (timestamp latest - 7 * 24 * 60 * 60 * 1000)%Z in
  let rate7d := findAtOrBefore rates symbol sevenDaysAgo in
  let thirtyDaysAgo := (timestamp latest - 30 * 24 * 60 * 60 * 1000)%Z in
  let rate30d := findAtOrBefore rates symbol thirtyDaysAgo in
  let currentRate := exchangeRateHuman latest in
  let apy7d :=
    match rate7d with
    | Some rate7d =>
        if Rgtb (exchangeRateHuman rate7d) 0
           && Rgtb currentRate (exchangeRateHuman rate7d)
        then
          let daysDiff :=
            IZR (timestamp latest - timestamp rate7d) / (1000 * 60 * 60 * 24) in
          let periodReturn := currentRate / exchangeRateHuman rate7d - 1 in
          Math_pow (1 + periodReturn) (365 / daysDiff) - 1
        else 0
    | None => 0
    end in
  let apy30d :=
    match rate30d with
    | Some rate30d =>
        if Rgtb (exchangeRateHuman rate30d) 0
           && Rgtb currentRate (exchangeRateHuman rate30d)
        then
          let daysDiff :=
            IZR (timestamp latest - timestamp rate30d) / (1000 * 60 * 60 * 24) in
          let periodReturn := currentRate / exchangeRateHuman rate30d - 1 in
          Math_pow (1 + periodReturn) (365 / daysDiff) - 1
        else 0
    | None => 0
    end in
  let stakingApyPercent := jsOr apy7d apy30d * 100 in
  let farmingAprPercent := 0 in
  let stakingApy := stakingApyPercent / 100 in
  let farmingApr := farmingAprPercent / 100 in
  let totalApy := (1 + stakingApy) * (1 + farmingApr) - 1 in
  let totalApyPercent := totalApy * 100 in
  {| fig_apy7d := apy7d; fig_apy30d := apy30d;
     fig_stakingApyPercent := stakingApyPercent;
     fig_farmingAprPercent := farmingAprPercent;
     fig_totalApyPercent := totalApyPercent |}.

(** The [updateOne] that [computeApyForAsset] issues once [latest] is
    known; [price] is what [getTokenPrice] answered and [now] is
    [new Date()]. *)
Definition snapshotOp (rates : list VTokenExchangeRate) (symbol : string)
    (latest : VTokenExchangeRate) (price : R) (now : Z) : UpdateOp :=
  let f := computeFigures rates symbol latest in
  {| opFilter := ByBlock symbol (blockNumber latest) "hourly";
     opSet :=
       {| Snapshot.asset := symbol;
          Snapshot.timestamp := timestamp latest;
          Snapshot.blockNumber := blockNumber latest;
          Snapshot.stakingApyPercent := toFixed4 (fig_stakingApyPercent f);
          Snapshot.farmingAprPercent := toFixed4 (fig_farmingAprPercent f);
          Snapshot.totalApyPercent := toFixed4 (fig_totalApyPercent f);
          Snapshot.apy7d := toFixed4 (fig_apy7d f * 100);
          Snapshot.apy30d := toFixed4 (fig_apy30d f * 100);
          Snapshot.exchangeRateHuman := exchangeRateHuman latest;
          Snapshot.baseTokenPriceUsd := price;
          Snapshot.chain := BIFROST_CHAIN;
          Snapshot.granularity := "hourly";
          Snapshot.createdAt := now |} |}.

Definition computeApyForAsset (rates : list VTokenExchangeRate)
    (symbol : string) (price : R) (now : Z) (apyRepo : list ApySnapshot)
    : list ApySnapshot :=
  match findLatest rates symbol with
  | None => apyRepo
  | Some latest => updateOne (snapshotOp rates symbol latest price now) apyRepo
  end.

(** *** backfillApyHistory *)

(** [dailyMap.set(dateStr, r)] on a [Map]: a key that is present keeps
    its place and takes the new value, a new key goes last. *)
Fixpoint mapSet (key : string) (r : VTokenExchangeRate)
    (m : list (string * VTokenExchangeRate))
    : list (string * VTokenExchangeRate) :=
  match m with
  | [] => [(key, r)]
  | (k, v) :: m' =>
      if decide (k = key) then (k, r) :: m' else (k, v) :: mapSet key r m'
  end.

(** [dailyRates]: the values of [dailyMap] once every rate was set under
    its date, [r.timestamp.toISOString().split('T')[0]]. *)
Definition dailyRatesOf (allRates : list VTokenExchangeRate)
    : list VTokenExchangeRate :=
  (fold_left (λ dailyMap r, mapSet (isoDate (timestamp r)) r dailyMap)
             allRates []).*2.

(** The figures of one iteration of the backfill loop. *)
Definition backfillFigures (allRates : list VTokenExchangeRate)
    (current : VTokenExchangeRate) : Figures :=
  let currentRate := exchangeRateHuman current in
  let sevenDaysAgoTime := (timestamp current - 7 * 24 * 60 * 60 * 1000)%Z in
  let rate7d := last (filter (λ r, (timestamp r ≤ sevenDaysAgoTime)%Z) allRates) in
  let thirtyDaysAgoTime := (timestamp current - 30 * 24 * 60 * 60 * 1000)%Z in
  let rate30d := last (filter (λ r, (timestamp r ≤ thirtyDaysAgoTime)%Z) allRates) in
  let apy7d :=
    match rate7d with
    | Some rate7d =>
        if Rgtb (exchangeRateHuman rate7d) 0
           && Rgtb currentRate (exchangeRateHuman rate7d)
        then
          let daysDiff :=
            IZR (timestamp current - timestamp rate7d) / (1000 * 60 * 60 * 24) in
          let periodReturn := currentRate / exchangeRateHuman rate7d - 1 in
          Math_pow (1 + periodReturn) (365 / daysDiff) - 1
        else 0
    | None => 0
    end in
  let apy30d :=
    match rate30d with
    | Some rate30d =>
        if Rgtb (exchangeRateHuman rate30d) 0
           && Rgtb currentRate (exchangeRateHuman rate30d)
        then
          let daysDiff :=
            IZR (timestamp current - timestamp rate30d) / (1000 * 60 * 60 * 24) in
          let periodReturn := currentRate / exchangeRateHuman rate30d - 1 in
          Math_pow (1 + periodReturn) (365 / daysDiff) - 1
        else 0
    | None => 0
    end in
  let stakingApyPercent := jsOr apy7d apy30d * 100 in
  let farmingAprPercent := 0 in
  let stakingApy := stakingApyPercent / 100 in
  let farmingApr := farmingAprPercent / 100 in
  let totalApy := (1 + stakingApy) * (1 + farmingApr) - 1 in
  let totalApyPercent := totalApy * 100 in
  {| fig_apy7d := apy7d; fig_apy30d := apy30d;
     fig_stakingApyPercent := stakingApyPercent;
     fig_farmingAprPercent := farmingAprPercent;
     fig_totalApyPercent := totalApyPercent |}.

(** What one iteration pushes on [bulkOps], if anything. *)
Definition backfillOp (allRates : list VTokenExchangeRate) (symbol : string)
    (price : R) (now : Z) (current : VTokenExchangeRate) : option UpdateOp :=
  let f := backfillFigures allRates current in
  if Rgtb (fig_stakingApyPercent f) 0
  then
    Some
      {| opFilter := ByTimestamp symbol (timestamp current) "hourly";
         opSet :=
           {| Snapshot.asset := symbol;
              Snapshot.timestamp := timestamp current;
              Snapshot.blockNumber := blockNumber current;
              Snapshot.stakingApyPercent := toFixed4 (fig_stakingApyPercent f);
              Snapshot.farmingAprPercent := toFixed4 (fig_farmingAprPercent f);
              Snapshot.totalApyPercent := toFixed4 (fig_totalApyPercent f);
              Snapshot.apy7d := toFixed4 (fig_apy7d f * 100);
              Snapshot.apy30d := toFixed4 (fig_apy30d f * 100);
              Snapshot.exchangeRateHuman := exchangeRateHuman current;
              Snapshot.baseTokenPriceUsd := price;
              Snapshot.chain := chain current;
              Snapshot.granularity := "hourly";
              Snapshot.createdAt := now |} |}
  else None.

Definition backfillOps (rates : list VTokenExchangeRate) (symbol : string)
    (price : R) (now : Z) : list UpdateOp :=
  let allRates := findAllAsc rates symbol in
  let dailyRates := dailyRatesOf allRates in
  omap (backfillOp allRates symbol price now) dailyRates.

(** [backfillApyHistory]: the count it returns and the repository it
    leaves. *)
Definition backfillApyHistory (rates : list VTokenExchangeRate)
    (symbol : string) (price : R) (now : Z) (apyRepo : list ApySnapshot)
    : nat * list ApySnapshot :=
  let bulkOps := backfillOps rates symbol price now in
  (length bulkOps,
   if (0 <? length bulkOps)%nat then bulkWrite bulkOps apyRepo else apyRepo).
End Apy.

(* ===================================================================== *)
(** ** apy-calculator.service.ts: the history it serves and the prices *)
(* ===================================================================== *)

Module ApyService.
Import Apy.
Local Open Scope R_scope.

(** [granularity: 'hourly' | 'daily']. *)
Inductive Granularity :=
| hourly
| daily.

Definition bySnapshotAsc (a b : ApySnapshot) : Prop :=
  (Snapshot.timestamp a ≤ Snapshot.timestamp b)%Z.

#[global] Instance bySnapshotAsc_dec : RelDecision bySnapshotAsc.
Proof. intros a b. unfold bySnapshotAsc. apply _. Defined.

(** [apyRepo.find({ where: { asset, granularity: 'hourly',
                             timestamp: { $gte: from, $lte: to } },
                    order: { timestamp: 'ASC' } })]. *)
Definition findInRange (apyRepo : list ApySnapshot) (asset : string)
    (from to : Z) : list ApySnapshot :=
  merge_sort bySnapshotAsc
    (filter (λ s, Snapshot.asset s = asset
                  ∧ Snapshot.granularity s = "hourly"%string
                  ∧ (from ≤ Snapshot.timestamp s)%Z
                  ∧ (Snapshot.timestamp s ≤ to)%Z)
            apyRepo).

(** [dailyMap.set(dateStr, s)] on a [Map] of snapshots. *)
Fixpoint dailySet (key : string) (s : ApySnapshot)
    (m : list (string * ApySnapshot)) : list (string * ApySnapshot) :=
  match m with
  | [] => [(key, s)]
  | (k, v) :: m' =>
      if decide (k = key) then (k, s) :: m' else (k, v) :: dailySet key s m'
  end.

Module Point.
(** An entry of the history the service answers with. *)
Record HistoryPoint := {
  timestamp : Z;
  blockNumber : Z;
  stakingApy : R;
  farmingApr : R;
  totalApy : R;
  apy7d : R;
  apy30d : R;
  exchangeRate : R;
  baseTokenPriceUsd : R;
}.
End Point.
Abbreviation HistoryPoint := Point.HistoryPoint.

Definition pointOf (s : ApySnapshot) : HistoryPoint :=
  {| Point.timestamp := Snapshot.timestamp s;
     Point.blockNumber := Snapshot.blockNumber s;
     Point.stakingApy := Snapshot.stakingApyPercent s;
     Point.farmingApr := Snapshot.farmingAprPercent s;
     Point.totalApy := Snapshot.totalApyPercent s;
     Point.apy7d := Snapshot.apy7d s;
     Point.apy30d := Snapshot.apy30d s;
     Point.exchangeRate := Snapshot.exchangeRateHuman s;
     Point.baseTokenPriceUsd := Snapshot.baseTokenPriceUsd s |}.

(** The snapshots [getApyHistory] answers from. *)
Definition filteredSnapshots (apyRepo : list ApySnapshot) (asset : string)
    (from to : Z) (granularity : Granularity) : list ApySnapshot :=
  let snapshots := findInRange apyRepo asset from to in
  match granularity with
  | daily =>
      (fold_left
         (λ dailyMap s, dailySet (isoDate (Snapshot.timestamp s)) s dailyMap)
         snapshots []).*2
  | hourly => snapshots
  end.

Definition getApyHistory (apyRepo : list ApySnapshot) (asset : string)
    (from to : Z) (granularity : Granularity) : list HistoryPoint :=
  map pointOf (filteredSnapshots apyRepo asset from to granularity).

(** *** getTokenPrice *)

Definition PRICE_CACHE_TTL_MS : Z := 5 * 60 * 1000.

Module Price.
(** A document of the [token_prices] collection. *)
Record TokenPrice := {
  symbol : string;
  priceUsd : R;
  timestamp : Z;
  source : string;
  createdAt : Z;
}.
End Price.
Abbreviation TokenPrice := Price.TokenPrice.

(** An entry of [priceCache]. *)
Record Cached := {
  price : R;
  fetchedAt : Z;
}.

(** The price cache of the service and the price collection. *)
Record PriceState := {
  priceCache : gmap string Cached;
  priceRepo : list TokenPrice;
}.

(** What an HTTP request of [getTokenPrice] does: it throws, or it
    answers with a body in which the price may be missing. *)
Inductive HttpAnswer :=
| HttpThrows
| HttpAnswers (price : option R).

(** What one call of [getTokenPrice] meets outside the service: the two
    price servers, and the clock at the cache test, when the price is
    cached, for the hour of the stored document and for its
    [createdAt]. *)
Record World := {
  defillama : string → HttpAnswer;
  coingecko : string → HttpAnswer;
  nowTested : Z;
  nowCached : Z;
  nowStored : Z;
  nowCreated : Z;
}.

(** [priceRepo.updateOne({ symbol, timestamp },
       { $set: { symbol, priceUsd, source, createdAt } }, { upsert: true })]. *)
Fixpoint upsertPrice (symbol : string) (timestamp : Z) (priceUsd : R)
    (source : string) (createdAt : Z) (repo : list TokenPrice)
    : list TokenPrice :=
  match repo with
  | [] =>
      [ {| Price.symbol := symbol; Price.priceUsd := priceUsd;
           Price.timestamp := timestamp; Price.source := source;
           Price.createdAt := createdAt |} ]
  | doc :: repo' =>
      if bool_decide (Price.symbol doc = symbol)
         && bool_decide (Price.timestamp doc = timestamp)
      then {| Price.symbol := symbol; Price.priceUsd := priceUsd;
              Price.timestamp := Price.timestamp doc; Price.source := source;
              Price.createdAt := createdAt |} :: repo'
      else doc :: upsertPrice symbol timestamp priceUsd source createdAt repo'
  end.

Definition byPriceDesc (a b : TokenPrice) : Prop :=
  (Price.timestamp b ≤ Price.timestamp a)%Z.

#[global] Instance byPriceDesc_dec : RelDecision byPriceDesc.
Proof. intros a b. unfold byPriceDesc. apply _. Defined.

(** [priceRepo.findOne({ where: { symbol }, order: { timestamp: 'DESC' } })]. *)
Definition findLastPrice (repo : list TokenPrice) (symbol : string)
    : option TokenPrice :=
  head (merge_sort byPriceDesc (filter (λ d, Price.symbol d = symbol) repo)).

(** The price an answer carries, [... ?.price ?? 0]; a request that
    throws leaves its [try] block without one. *)
Definition priceIn (answer : HttpAnswer) : option R :=
  match answer with
  | HttpThrows => None
  | HttpAnswers price => Some (nullish price 0)
  end.

(** [getTokenPrice]: the price it returns and the state it leaves.  A
    request that throws is caught by its [try] block; the price
    collection itself is taken to answer. *)
Definition getTokenPrice (w : World) (coingeckoId : string) (st : PriceState)
    : R * PriceState :=
  let fresh :=
    match priceCache st !! coingeckoId with
    | Some cached =>
        if (nowTested w - fetchedAt cached <? PRICE_CACHE_TTL_MS)%Z
        then Some (price cached) else None
    | None => None
    end in
  match fresh with
  | Some cachedPrice => (cachedPrice, st)
  | None =>
      let fromDefillama :=
        match priceIn (defillama w coingeckoId) with
        | Some price => if Rgtb price 0 then Some price else None
        | None => None
        end in
      match fromDefillama with
      | Some price =>
          (price,
           {| priceCache :=
                <[ coingeckoId := {| price := price; fetchedAt := nowCached w |} ]>
                  (priceCache st);
              priceRepo :=
                upsertPrice coingeckoId (nowStored w / 3600000 * 3600000)%Z
                  price "defillama" (nowCreated w) (priceRepo st) |})
      | None =>
          let fromCoingecko :=
            match priceIn (coingecko w coingeckoId) with
            | Some price => if Rgtb price 0 then Some price else None
            | None => None
            end in
          match fromCoingecko with
          | Some price =>
              (price,
               {| priceCache :=
                    <[ coingeckoId :=
                         {| price := price; fetchedAt := nowCached w |} ]>
                      (priceCache st);
                  priceRepo := priceRepo st |})
          | None =>
              (match findLastPrice (priceRepo st) coingeckoId with
               | Some lastPrice => Price.priceUsd lastPrice
               | None => 0
               end,
               st)
          end
      end
  end.
End ApyService.

(* ===================================================================== *)
(** ** The APY controller *)
(* ===================================================================== *)

Module ApyController.
Import Apy ApyService.
Local Open Scope R_scope.


End ApyController.

(* ===================================================================== *)
(** ** Vocabulary of the specification *)
(* ===================================================================== *)

Module Spec.
Import Backtest.
Local Open Scope R_scope.

(** [k] is the latest date of [map] at or before [d]. *)
Definition latestPast (map : gmap string R) (d k : string) : Prop :=
  is_Some (map !! k) ∧ String.le k d ∧
  ∀ k', is_Some (map !! k') → String.le k' d → String.le k' k.

(** [k] is the earliest date of [map]. *)
Definition earliestKey (map : gmap string R) (k : string) : Prop :=
  is_Some (map !! k) ∧ ∀ k', is_Some (map !! k') → String.le k k'.

(** The loop variables of a run once its first [k] days are done. *)
Definition afterDays (dto : Dto.RunBacktestDto)
    (fetchPoolHistory : string → PoolsClient.FetchResponse) (k : nat)
    : LoopState :=
  dayLoop (rebalanceIntervalDaysOf dto) (xcmFeeUsdOf dto) (daysOf dto)
    0 (take k (daysOf dto)) (setup dto fetchPoolHistory).

(** The allocation states of day [k] once the growth of that day is
    applied and before any rebalancing. *)
Definition grownOn (dto : Dto.RunBacktestDto)
    (fetchPoolHistory : string → PoolsClient.FetchResponse)
    (k : nat) (dateStr : string) : list AllocState :=
  map (applyGrowth k dateStr (daysOf dto))
      (allocStates (afterDays dto fetchPoolHistory k)).

(** The drawdown, in percent, that day [k] of a run records: the loop
    variables after that day hold its total and the peak so far. *)
Definition drawdownOn (dto : Dto.RunBacktestDto)
    (fetchPoolHistory : string → PoolsClient.FetchResponse) (k : nat) : R :=
  let st := afterDays dto fetchPoolHistory (S k) in
  (peakValue st - prevTotalValue st) / peakValue st * 100.

(** Every resolved yield of the run is 0. *)
Definition zeroYield (dto : Dto.RunBacktestDto)
    (fetch : string → PoolsClient.FetchResponse) : Prop :=
  ∀ s d, s ∈ allocStates (setup dto fetch) → d ∈ daysOf dto →
         getApyForDay (apyHistory s) d (daysOf dto) = 0.

(** What one rebalance of the run costs. *)
Definition rebalanceFee (dto : Dto.RunBacktestDto) : R :=
  xcmFeeUsdOf dto
  * Rmax 0 (INR (length (uniq (map Dto.protocol (Dto.allocations dto)))) - 1).




(** The annualized figure of the window that ends at [current] and
    starts at the reference observation [ref]. *)
Definition annualized (current ref : Apy.VTokenExchangeRate) : R :=
  let periodReturn :=
    Apy.exchangeRateHuman current / Apy.exchangeRateHuman ref - 1 in
  let actualDaysBetween :=
    IZR (Apy.timestamp current - Apy.timestamp ref) / IZR msPerDay in
  Rpower (1 + periodReturn) (365 / actualDaysBetween) - 1.

(** What a window contributes, given its reference observation if any. *)
Definition windowFigure (current : Apy.VTokenExchangeRate)
    (ref : option Apy.VTokenExchangeRate) : R :=
  match ref with
  | Some ref =>
      if decide (0 < Apy.exchangeRateHuman ref
                 ∧ Apy.exchangeRateHuman ref < Apy.exchangeRateHuman current)
      then annualized current ref
      else 0
  | None => 0
  end.

(** The sample standard deviation of [samples], the division by n - 1. *)
Definition sampleStdDev (samples : list R) : R :=
  let n := INR (length samples) in
  let mean := sumBy id samples / n in
  sqrt (sumBy (λ r, (r - mean) * (r - mean)) samples / (n - 1)).

(** The unique key of a snapshot document. *)
Definition snapshotKey (doc : Apy.ApySnapshot) : string * Z * string :=
  (Apy.Snapshot.asset doc, Apy.Snapshot.timestamp doc,
   Apy.Snapshot.granularity doc).

(** [doc] with another [chain]. *)
Definition withChain (doc : Apy.ApySnapshot) (c : string) : Apy.ApySnapshot :=
  {| Apy.Snapshot.asset := Apy.Snapshot.asset doc;
     Apy.Snapshot.timestamp := Apy.Snapshot.timestamp doc;
     Apy.Snapshot.blockNumber := Apy.Snapshot.blockNumber doc;
     Apy.Snapshot.stakingApyPercent := Apy.Snapshot.stakingApyPercent doc;
     Apy.Snapshot.farmingAprPercent := Apy.Snapshot.farmingAprPercent doc;
     Apy.Snapshot.totalApyPercent := Apy.Snapshot.totalApyPercent doc;
     Apy.Snapshot.apy7d := Apy.Snapshot.apy7d doc;
     Apy.Snapshot.apy30d := Apy.Snapshot.apy30d doc;
     Apy.Snapshot.exchangeRateHuman := Apy.Snapshot.exchangeRateHuman doc;
     Apy.Snapshot.baseTokenPriceUsd := Apy.Snapshot.baseTokenPriceUsd doc;
     Apy.Snapshot.chain := c;
     Apy.Snapshot.granularity := Apy.Snapshot.granularity doc;
     Apy.Snapshot.createdAt := Apy.Snapshot.createdAt doc |}.

(** An operation whose filter is the key of the document it sets. *)
Definition keyedByTimestamp (op : Apy.UpdateOp) : Prop :=
  Apy.opFilter op
  = Apy.ByTimestamp (Apy.Snapshot.asset (Apy.opSet op))
      (Apy.Snapshot.timestamp (Apy.opSet op))
      (Apy.Snapshot.granularity (Apy.opSet op)).
End Spec.

(* ===================================================================== *)
(** ** Concrete requests and histories *)
(* ===================================================================== *)

Module Inputs.
Local Open Scope R_scope.

(** 100 USD, split evenly over two protocols, 1970-01-01 to 1970-01-02,
    rebalanced every day at the default fee. *)
Definition feeDto : Dto.RunBacktestDto :=
  {| Dto.initialAmountUsd := 100;
     Dto.fromDate := 0;
     Dto.toDate := 86400000;
     Dto.allocations :=
       [ {| Dto.protocol := "bifrost"; Dto.assetSymbol := "vDOT";
            Dto.percentage := 50; Dto.poolType := None |};
         {| Dto.protocol := "hydration"; Dto.assetSymbol := "HOLLAR";
            Dto.percentage := 50; Dto.poolType := None |} ];
     Dto.rebalanceIntervalDays := Some 1;
     Dto.includeIL := None;
     Dto.xcmFeeUsd := None |}.

(** The same request with percentages that sum to 90. *)
Definition shortDto : Dto.RunBacktestDto :=
  {| Dto.initialAmountUsd := 100;
     Dto.fromDate := 0;
     Dto.toDate := 86400000;
     Dto.allocations :=
       [ {| Dto.protocol := "bifrost"; Dto.assetSymbol := "vDOT";
            Dto.percentage := 50; Dto.poolType := None |};
         {| Dto.protocol := "hydration"; Dto.assetSymbol := "HOLLAR";
            Dto.percentage := 40; Dto.poolType := None |} ];
     Dto.rebalanceIntervalDays := Some 1;
     Dto.includeIL := None;
     Dto.xcmFeeUsd := None |}.

(** 2020-01-01 to 2022-09-26: one thousand calendar days. *)
Definition thousandDaysDto : Dto.RunBacktestDto :=
  {| Dto.initialAmountUsd := 10000;
     Dto.fromDate := 1577836800000;
     Dto.toDate := 1664150400000;
     Dto.allocations :=
       [ {| Dto.protocol := "bifrost"; Dto.assetSymbol := "vDOT";
            Dto.percentage := 100; Dto.poolType := None |} ];
     Dto.rebalanceIntervalDays := None;
     Dto.includeIL := None;
     Dto.xcmFeeUsd := None |}.

(** An external server that fails every request. *)
Definition noHistory : string → PoolsClient.FetchResponse :=
  λ _, PoolsClient.FetchThrows.

Definition firstRate : Apy.VTokenExchangeRate :=
  {| Apy.tokenSymbol := "vDOT"; Apy.blockNumber := 100; Apy.timestamp := 0;
     Apy.exchangeRateHuman := 1; Apy.chain := Apy.BIFROST_CHAIN |}.

(** Eight days later the rate has grown by one percent. *)
Definition laterRate : Apy.VTokenExchangeRate :=
  {| Apy.tokenSymbol := "vDOT"; Apy.blockNumber := 200;
     Apy.timestamp := 691200000;
     Apy.exchangeRateHuman := 1.01; Apy.chain := Apy.BIFROST_CHAIN |}.
End Inputs.

(* ===================================================================== *)
(** ** More concrete inputs *)
(* ===================================================================== *)

Module Samples.
Local Open Scope R_scope.

(** An external server that answers without any data. *)
Definition emptyHistory : string → PoolsClient.FetchResponse :=
  λ _, PoolsClient.FetchAnswers None.


(** A DEX allocation worth 100 USD whose yield moved from 10% to 20%. *)
Definition dexState : Backtest.AllocState :=
  {| Backtest.protocol := "hydration"; Backtest.assetSymbol := "HOLLAR";
     Backtest.poolType := "dex"; Backtest.percentage := 100;
     Backtest.valueUsd := 100; Backtest.apyHistory := ∅;
     Backtest.firstPrice := None; Backtest.apySamples := [10; 20];
     Backtest.ilLossUsd := 0 |}.

(** An hourly vDOT snapshot at time [t] with a staking yield of [apy]. *)
Definition snapshotAt (t : Z) (apy : R) : Apy.ApySnapshot :=
  {| Apy.Snapshot.asset := "vDOT"; Apy.Snapshot.timestamp := t;
     Apy.Snapshot.blockNumber := t / 6000;
     Apy.Snapshot.stakingApyPercent := apy;
     Apy.Snapshot.farmingAprPercent := 0;
     Apy.Snapshot.totalApyPercent := apy;
     Apy.Snapshot.apy7d := apy; Apy.Snapshot.apy30d := 0;
     Apy.Snapshot.exchangeRateHuman := 1; Apy.Snapshot.baseTokenPriceUsd := 7;
     Apy.Snapshot.chain := Apy.BIFROST_CHAIN;
     Apy.Snapshot.granularity := "hourly"; Apy.Snapshot.createdAt := t |}.

(** Two snapshots on 1970-01-01, at 01:00 and 23:00, and one on
    1970-01-02 at 01:00, stored out of order. *)
Definition threeSnapshots : list Apy.ApySnapshot :=
  [ snapshotAt 82800000 11; snapshotAt 90000000 12; snapshotAt 3600000 10 ].

(** A service that has no price yet. *)
Definition noPrices : ApyService.PriceState :=
  {| ApyService.priceCache := ∅; ApyService.priceRepo := [] |}.

(** A service that cached 7 USD for DOT at time 1000. *)
Definition onePrice : ApyService.PriceState :=
  {| ApyService.priceCache :=
       {[ "polkadot"%string :=
            {| ApyService.price := 7; ApyService.fetchedAt := 1000 |} ]};
     ApyService.priceRepo := [] |}.

(** DeFiLlama answers 7 USD at time 1000; CoinGecko is down. *)
Definition llamaAnswers : ApyService.World :=
  {| ApyService.defillama := λ _, ApyService.HttpAnswers (Some 7);
     ApyService.coingecko := λ _, ApyService.HttpThrows;
     ApyService.nowTested := 1000; ApyService.nowCached := 1000;
     ApyService.nowStored := 1000; ApyService.nowCreated := 1000 |}.

(** One minute later both servers are down. *)
Definition serversDown : ApyService.World :=
  {| ApyService.defillama := λ _, ApyService.HttpThrows;
     ApyService.coingecko := λ _, ApyService.HttpThrows;
     ApyService.nowTested := 61000; ApyService.nowCached := 61000;
     ApyService.nowStored := 61000; ApyService.nowCreated := 61000 |}.
End Samples.

(* ===================================================================== *)
(** ** Concrete requests in binary64 *)
(* ===================================================================== *)

Module Binary64Inputs.
Import PrimFloat.
Local Open Scope float_scope.

(** [Inputs.thousandDaysDto] against [Samples.steadyHistory]: 10000 USD in
    one allocation, 2020-01-01 to 2022-09-26, never rebalanced, the
    history one record of 10% dated 2020-01-01. *)
Definition thousandDays : Binary64.Request :=
  {| Binary64.initialAmountUsd := 10000;
     Binary64.fromDate := 1577836800000;
     Binary64.toDate := 1664150400000;
     Binary64.allocations :=
       [ {| Binary64.allocProtocol := "bifrost";
            Binary64.allocPercentage := 100;
            Binary64.allocHistory := {[ "2020-01-01"%string := 10 ]} |} ];
     Binary64.rebalanceIntervalDays := 0;
     Binary64.xcmFeeUsd := 0.5 |}.

(** 1 USD split evenly over two protocols without history, 1970-01-01 to
    1970-01-04, rebalanced every day at a fee of 1 USD. *)
Definition drained : Binary64.Request :=
  {| Binary64.initialAmountUsd := 1;
     Binary64.fromDate := 0;
     Binary64.toDate := 259200000;
     Binary64.allocations :=
       [ {| Binary64.allocProtocol := "bifrost";
            Binary64.allocPercentage := 50;
            Binary64.allocHistory := ∅ |};
         {| Binary64.allocProtocol := "hydration";
            Binary64.allocPercentage := 50;
            Binary64.allocHistory := ∅ |} ];
     Binary64.rebalanceIntervalDays := 1;
     Binary64.xcmFeeUsd := 1 |}.
End Binary64Inputs.

(* ===================================================================== *)
(** ** Properties *)
(* ===================================================================== *)

Section JsNum_facts.
Local Open Scope R_scope.

Lemma Rltb_true (x y : R) : Rltb x y = true ↔ x < y.
Proof. unfold Rltb. apply bool_decide_eq_true. Qed.
Lemma Rltb_false (x y : R) : Rltb x y = false ↔ y <= x.
Proof. unfold Rltb. rewrite bool_decide_eq_false. split; lra. Qed.
Lemma Rleb_true (x y : R) : Rleb x y = true ↔ x <= y.
Proof. unfold Rleb. apply bool_decide_eq_true. Qed.
Lemma Rleb_false (x y : R) : Rleb x y = false ↔ y < x.
Proof. unfold Rleb. rewrite bool_decide_eq_false. split; lra. Qed.
Lemma Rgtb_true (x y : R) : Rgtb x y = true ↔ y < x.
Proof. apply Rltb_true. Qed.
Lemma Rgtb_false (x y : R) : Rgtb x y = false ↔ x <= y.
Proof. apply Rltb_false. Qed.
Lemma Reqb_true (x y : R) : Reqb x y = true ↔ x = y.
Proof. unfold Reqb. apply bool_decide_eq_true. Qed.
Lemma Reqb_false (x y : R) : Reqb x y = false ↔ x ≠ y.
Proof. unfold Reqb. apply bool_decide_eq_false. Qed.

Lemma Int_part_IZR (z : Z) : Int_part (IZR z) = z.
Proof. symmetry. apply Int_part_spec. lra. Qed.

Lemma Int_part_bounds (x : R) : IZR (Int_part x) <= x < IZR (Int_part x) + 1.
Proof. destruct (base_Int_part x). lra. Qed.

(** A non-negative number is a multiple of a positive one exactly when
    the remainder is zero. *)
Lemma fmod_zero_iff (a b : R) :
  0 <= a → 0 < b → fmod a b = 0 ↔ ∃ m : Z, a = IZR m * b.
Proof.
  intros Ha Hb. unfold fmod, Rtrunc.
  assert (0 <= a / b) as Hq.
  { apply Rmult_le_pos; [done|]. left. by apply Rinv_0_lt_compat. }
  apply Rleb_true in Hq as ->. split.
  - intros H. exists (Int_part (a / b)). lra.
  - intros [m ->]. replace (IZR m * b / b) with (IZR m) by (field; lra).
    rewrite Int_part_IZR. lra.
Qed.
End JsNum_facts.

Section toFixed4_facts.
Local Open Scope R_scope.

Lemma Int_part_nonneg (y : R) : 0 <= y → (0 <= Int_part y)%Z.
Proof.
  intros Hy. destruct (Int_part_bounds y) as [_ Hub].
  apply Z.lt_succ_r, lt_IZR. rewrite succ_IZR. lra.
Qed.

Lemma toFixed4_nonpos (x : R) : x <= 0 → toFixed4 x <= 0.
Proof.
  intros Hx. unfold toFixed4. destruct (Rltb x 0) eqn:Hlt.
  - assert (0 <= Int_part (- x * 10000 + / 2))%Z as H
      by (apply Int_part_nonneg; lra).
    apply IZR_le in H. lra.
  - apply Rltb_false in Hlt. assert (x = 0) as -> by lra.
    replace (0 * 10000 + / 2) with (/ 2) by lra.
    replace (Int_part (/ 2)) with 0%Z; [lra|].
    apply Int_part_spec. lra.
Qed.

(** A number with at most four decimals is printed as it is. *)
Lemma toFixed4_decimal (n : Z) : toFixed4 (IZR n / 10000) = IZR n / 10000.
Proof.
  unfold toFixed4. destruct (Rltb _ 0) eqn:Hlt.
  - replace (- (IZR n / 10000) * 10000 + / 2) with (IZR (- n) + / 2)
      by (rewrite opp_IZR; field).
    replace (Int_part (IZR (- n) + / 2)) with (- n)%Z.
    + rewrite opp_IZR. lra.
    + apply Int_part_spec. lra.
  - replace (IZR n / 10000 * 10000 + / 2) with (IZR n + / 2) by field.
    replace (Int_part (IZR n + / 2)) with n; [done|].
    apply Int_part_spec. lra.
Qed.

Lemma toFixed4_0 : toFixed4 0 = 0.
Proof. replace 0 with (IZR 0 / 10000) by lra. rewrite toFixed4_decimal. lra. Qed.
End toFixed4_facts.

Section day_list.
Import Backtest.
Local Open Scope Z_scope.

(** The iterations the [while] loop makes from [cursor]. *)
Lemma iterations_step (cursor end_ : Z) :
  cursor <= end_ →
  Z.to_nat ((end_ - cursor) / msPerDay + 1)
  = S (Z.to_nat ((end_ - (cursor + msPerDay)) / msPerDay + 1)).
Proof.
  intros Hle.
  replace (end_ - (cursor + msPerDay)) with ((end_ - cursor) + (-1) * msPerDay) by lia.
  rewrite Z.div_add by done.
  assert (0 <= (end_ - cursor) / msPerDay) by (apply Z.div_pos; [lia|done]).
  lia.
Qed.

(** The loop of [buildDayList] ends because its condition fails, never
    because the fuel ran out: more fuel gives the same days. *)
Lemma buildDayList_fuel (extra : nat) (start end_ : Z) :
  buildDayList_loop (Z.to_nat ((end_ - start) / msPerDay + 1) + extra) start end_
  = buildDayList start end_.
Proof.
  unfold buildDayList.
  remember (Z.to_nat ((end_ - start) / msPerDay + 1)) as n eqn:Hn.
  revert start Hn. induction n as [|n IH]; intros start Hn.
  - destruct extra as [|extra]; [done|]. simpl.
    destruct (start <=? end_) eqn:Hle; [|done].
    apply Z.leb_le in Hle. rewrite iterations_step in Hn by done. done.
  - simpl. destruct (start <=? end_) eqn:Hle; [|done].
    apply Z.leb_le in Hle. f_equal. apply IH.
    rewrite iterations_step in Hn by done. by injection Hn.
Qed.

(** One day per started 24 hours between the two dates, both ends
    included. *)
Lemma buildDayList_length (start end_ : Z) :
  start <= end_ →
  length (buildDayList start end_) = Z.to_nat ((end_ - start) / msPerDay + 1).
Proof.
  unfold buildDayList.
  remember (Z.to_nat ((end_ - start) / msPerDay + 1)) as n eqn:Hn.
  revert start Hn. induction n as [|n IH]; intros start Hn Hle; [done|].
  simpl. rewrite (proj2 (Z.leb_le _ _) Hle). simpl. f_equal.
  rewrite iterations_step in Hn by done. injection Hn as Hn.
  destruct (Z_le_gt_dec (start + msPerDay) end_) as [Hle'|Hgt]; [by apply IH|].
  assert ((end_ - (start + msPerDay)) / msPerDay + 1 <= 0).
  { assert ((end_ - (start + msPerDay)) / msPerDay < 0); [|lia].
    apply Z.div_lt_upper_bound; [done|lia]. }
  assert (n = 0%nat) as -> by lia. done.
Qed.

Example leap_year_duration :
  length (buildDayList 1704067200000 1735689600000) = 367%nat.
Proof. by rewrite buildDayList_length. Qed.
End day_list.

Section runtime_examples.
Import Backtest.

Example isoDate_epoch : isoDate 0 = "1970-01-01"%string.
Proof. reflexivity. Qed.
Example isoDate_leap_day : isoDate 1709164800000 = "2024-02-29"%string.
Proof. reflexivity. Qed.
Example isoDate_last_millisecond : isoDate 1767225599999 = "2025-12-31"%string.
Proof. reflexivity. Qed.
Example toLowerCase_vDOT : toLowerCase "vDOT" = "vdot"%string.
Proof. reflexivity. Qed.
Example uniq_keeps_first :
  uniq ["a"; "b"; "a"; "c"; "b"]%string = ["a"; "b"; "c"]%string.
Proof. reflexivity. Qed.
Example buildDayList_january_2026 :
  length (buildDayList 1767225600000 1769904000000) = 32%nat
  ∧ head (buildDayList 1767225600000 1769904000000) = Some "2026-01-01"%string
  ∧ last (buildDayList 1767225600000 1769904000000) = Some "2026-02-01"%string.
Proof. vm_compute. done. Qed.
End runtime_examples.

Section getApyForDay_policy.
Import Backtest Spec.
Local Open Scope R_scope.

Lemma elem_of_keys (map : gmap string R) (k : string) :
  k ∈ keys map ↔ is_Some (map !! k).
Proof.
  unfold keys. rewrite list_elem_of_fmap. split.
  - intros [[k' v] [-> Hin]]. apply elem_of_map_to_list in Hin. by exists v.
  - intros [v Hv]. exists (k, v). split; [done|]. by apply elem_of_map_to_list.
Qed.

Lemma elem_of_sorted_keys (map : gmap string R) (k : string) :
  k ∈ merge_sort String.le (keys map) ↔ is_Some (map !! k).
Proof. by rewrite merge_sort_Permutation, elem_of_keys. Qed.

Lemma sorted_keys_nil (map : gmap string R) :
  merge_sort String.le (keys map) = [] → map = ∅.
Proof.
  intros Hnil. apply map_eq. intros k. rewrite lookup_empty.
  destruct (map !! k) eqn:Hk; [|done].
  assert (k ∈ merge_sort String.le (keys map)) as Hin
    by (apply elem_of_sorted_keys; eauto).
  rewrite Hnil in Hin. by apply elem_of_nil in Hin.
Qed.

Lemma sorted_keys_sorted (map : gmap string R) :
  StronglySorted String.le (merge_sort String.le (keys map)).
Proof. apply StronglySorted_merge_sort; apply _. Qed.

(** C2: the yield of a day is the value stored for that exact date if
    there is one; otherwise the value of the latest earlier date that has
    data; otherwise, when no earlier date has data, the value of the
    earliest date that has data; and it is the fallback 0 only when the
    map holds no date at all. *)
Theorem getApyForDay_policy (map : gmap string R) (dateStr : string)
    (allDays : list string) :
  match map !! dateStr with
  | Some v => getApyForDay map dateStr allDays = v
  | None =>
      (∃ k v, latestPast map dateStr k ∧ map !! k = Some v
              ∧ getApyForDay map dateStr allDays = v)
      ∨ ((∀ k, is_Some (map !! k) → ¬ String.le k dateStr)
         ∧ ∃ k v, earliestKey map k ∧ map !! k = Some v
                  ∧ getApyForDay map dateStr allDays = v)
      ∨ (map = ∅ ∧ getApyForDay map dateStr allDays = 0)
  end.
Proof.
  unfold getApyForDay. destruct (map !! dateStr) as [v|] eqn:Hd; [done|].
  pose proof (sorted_keys_sorted map) as Hsort.
  pose proof (elem_of_sorted_keys map) as Hmem.
  destruct (merge_sort String.le (keys map)) as [|first rest] eqn:Hks.
  { right; right. split; [|done]. by apply sorted_keys_nil. }
  destruct (last (filter _ (first :: rest))) as [k|] eqn:Hlast.
  - left. apply last_filter_Some in Hlast as Hsplit.
    destruct Hsplit as (l1 & l2 & Hl & Hl2).
    apply last_Some_elem_of, list_elem_of_filter in Hlast as [Hkd Hkin].
    apply Hmem in Hkin as Hsome. destruct Hsome as [v Hv].
    exists k, v. split; [|split; [done|by apply lookup_total_correct]].
    split; [by eauto|]. split; [done|].
    intros k' Hk' Hk'd. apply Hmem in Hk'. rewrite Hl in Hk'.
    apply elem_of_app in Hk' as [Hin|Hin].
    + rewrite Hl in Hsort.
      eapply StronglySorted_app_1_elem_of; [exact Hsort|exact Hin|]. left.
    + apply elem_of_cons in Hin as [->|Hin]; [done|].
      rewrite Forall_forall in Hl2. by destruct (Hl2 _ Hin).
  - right; left. apply last_None in Hlast.
    assert (is_Some (map !! first)) as [v Hv] by (apply Hmem; left).
    split.
    + intros k Hk Hkd. apply Hmem in Hk.
      assert (k ∈ filter (λ k, String.le k dateStr) (first :: rest)) as Hin
        by (by apply list_elem_of_filter).
      rewrite Hlast in Hin. by apply elem_of_nil in Hin.
    + exists first, v. split; [|split; [done|by apply lookup_total_correct]].
      split; [by eauto|]. intros k' Hk'. apply Hmem in Hk'.
      apply StronglySorted_cons in Hsort as [Hall _].
      apply elem_of_cons in Hk' as [->|Hin]; [done|].
      rewrite Forall_forall in Hall. by apply Hall.
Qed.
End getApyForDay_policy.

Section day_loop.
Import Backtest Spec.
Local Open Scope R_scope.

Lemma dayLoop_app r f days i l1 l2 st :
  dayLoop r f days i (l1 ++ l2) st
  = dayLoop r f days (i + length l1) l2 (dayLoop r f days i l1 st).
Proof.
  revert i st. induction l1 as [|d l1 IH]; intros i st; simpl.
  - by rewrite Nat.add_0_r.
  - rewrite IH. f_equal. lia.
Qed.

(** Day [k] of a run is one [dayStep] on the variables left by the days
    before it. *)
Lemma afterDays_S dto fetch k d :
  daysOf dto !! k = Some d →
  afterDays dto fetch (S k)
  = dayStep (rebalanceIntervalDaysOf dto) (xcmFeeUsdOf dto) (daysOf dto)
      k d (afterDays dto fetch k).
Proof.
  intros Hk. unfold afterDays.
  rewrite (take_S_r _ _ _ Hk), dayLoop_app. simpl.
  rewrite length_take_le; [done|]. apply lookup_lt_Some in Hk. lia.
Qed.

Lemma afterDays_0 dto fetch : afterDays dto fetch 0 = setup dto fetch.
Proof. done. Qed.

(** The run ends in the variables left by all of its days. *)
Lemma simulate_afterDays dto fetch :
  simulate dto fetch = afterDays dto fetch (length (daysOf dto)).
Proof. unfold simulate, afterDays. by rewrite firstn_all. Qed.

Lemma isRebalanceDay_0 r : isRebalanceDay r 0 = false.
Proof. unfold isRebalanceDay. simpl. by rewrite andb_false_r. Qed.

Lemma isRebalanceDay_spec r k :
  isRebalanceDay r k = true ↔
  0 < r ∧ (0 < k)%nat ∧ ∃ m : Z, (0 < m)%Z ∧ INR k = IZR m * r.
Proof.
  unfold isRebalanceDay. rewrite !andb_true_iff, Rgtb_true, Nat.ltb_lt, Reqb_true.
  split.
  - intros [[Hr Hk] Hm]. split; [done|]. split; [done|].
    apply fmod_zero_iff in Hm as [m Hm]; [|apply pos_INR|done].
    exists m. split; [|done].
    apply lt_0_INR in Hk. rewrite Hm in Hk.
    destruct (Z_lt_le_dec 0 m) as [|Hle]; [done|].
    apply IZR_le in Hle. nra.
  - intros (Hr & Hk & m & _ & Hm). split; [done|].
    apply fmod_zero_iff; [apply pos_INR|done|by exists m].
Qed.

Lemma applyGrowth_protocol i d days s :
  protocol (applyGrowth i d days s) = protocol s.
Proof. unfold applyGrowth. by destruct (0 <? i)%nat. Qed.
Lemma applyGrowth_percentage i d days s :
  percentage (applyGrowth i d days s) = percentage s.
Proof. unfold applyGrowth. by destruct (0 <? i)%nat. Qed.

Lemma applyGrowth_valueUsd i d days s :
  valueUsd (applyGrowth i d days s)
  = if (i =? 0)%nat then valueUsd s
    else valueUsd s * (1 + getApyForDay (apyHistory s) d days / 100 / 365).
Proof. unfold applyGrowth. by destruct i. Qed.

(** C1: on every day [k] of the day sequence of a run and for every
    allocation, the growth step leaves the value unchanged when [k] is 0
    and multiplies it by 1 + (resolved yield percent / 100) / 365 when
    [k > 0]; on a day that is no rebalance day these grown states are the
    states the day ends with, so day 0 ends with the initial values. *)
Theorem compounding_from_day_one dto fetch k dateStr :
  daysOf dto !! k = Some dateStr →
  Forall2
    (λ before grown,
       valueUsd grown =
         if (k =? 0)%nat then valueUsd before
         else valueUsd before
              * (1 + getApyForDay (apyHistory before) dateStr (daysOf dto) / 100 / 365))
    (allocStates (afterDays dto fetch k))
    (grownOn dto fetch k dateStr)
  ∧ (isRebalanceDay (rebalanceIntervalDaysOf dto) k = false →
     allocStates (afterDays dto fetch (S k)) = grownOn dto fetch k dateStr)
  ∧ (k = 0%nat →
     map valueUsd (allocStates (afterDays dto fetch 1))
     = map valueUsd (allocStates (setup dto fetch))).
Proof.
  intros Hk.
  assert (isRebalanceDay (rebalanceIntervalDaysOf dto) k = false →
          allocStates (afterDays dto fetch (S k)) = grownOn dto fetch k dateStr)
    as Hquiet.
  { intros Hno. rewrite (afterDays_S _ _ _ _ Hk). unfold dayStep. simpl.
    by rewrite Hno. }
  split; [|split; [exact Hquiet|]].
  - unfold grownOn. apply Forall2_fmap_r, Forall_Forall2_diag, Forall_forall.
    intros s _. apply applyGrowth_valueUsd.
  - intros ->. rewrite Hquiet by apply isRebalanceDay_0.
    unfold grownOn. rewrite afterDays_0, map_map. apply map_ext.
    intros s. apply applyGrowth_valueUsd.
Qed.
End day_loop.

Section rebalancing.
Import Backtest Spec.
Local Open Scope R_scope.


Lemma grow_protocol i d days states :
  map protocol (map (applyGrowth i d days) states) = map protocol states.
Proof. rewrite map_map. apply map_ext. intros. apply applyGrowth_protocol. Qed.
Lemma grow_percentage i d days states :
  map percentage (map (applyGrowth i d days) states) = map percentage states.
Proof. rewrite map_map. apply map_ext. intros. apply applyGrowth_percentage. Qed.






End rebalancing.

(** Checks the class-validator rules on a concrete request. *)
Ltac dto_rules :=
  unfold BacktestController.validDto, BacktestController.validAllocation;
  simpl; rewrite !(proj2 (Rleb_true _ _)) by lra; done.

Section validation.
Import Backtest Spec.
Local Open Scope R_scope.

Lemma sum_check_rejects (total : R) :
  Rabs (total - 100) > 0.01 →
  (Rgtb total 100.01 || Rltb total 99.99) && Rgtb (Rabs (total - 100)) 0.01 = true.
Proof.
  intros Habs. apply andb_true_iff. split; [|by apply Rgtb_true].
  apply orb_true_iff. rewrite Rgtb_true, Rltb_true.
  unfold Rabs in Habs. destruct (Rcase_abs (total - 100)); [right|left]; lra.
Qed.

Lemma runBacktest_accepts dto fetch :
  Rabs (sumBy Dto.percentage (Dto.allocations dto) - 100) <= 0.01 →
  (Dto.fromDate dto < Dto.toDate dto)%Z →
  Backtest.runBacktest dto fetch
  = {| fetched := uniq (map Dto.protocol (Dto.allocations dto));
       outcome := Returned (report dto (simulate dto fetch)) |}.
Proof.
  intros Hsum Hdate. unfold Backtest.runBacktest.
  apply Rgtb_false in Hsum. rewrite Hsum, andb_false_r.
  assert ((Dto.fromDate dto >=? Dto.toDate dto)%Z = false) as ->; [|done].
  rewrite Z.geb_leb. apply Z.leb_gt. lia.
Qed.

Lemma runBacktest_Returned dto fetch result :
  outcome (Backtest.runBacktest dto fetch) = Returned result →
  result = report dto (simulate dto fetch).
Proof.
  unfold Backtest.runBacktest.
  destruct (_ && _); [done|]. destruct (_ >=? _)%Z; [done|].
  simpl. by intros [= <-].
Qed.

(** The service refuses a wrong sum or a wrong date order before it
    fetches anything. *)
Lemma service_rejects dto fetch :
  Rabs (sumBy Dto.percentage (Dto.allocations dto) - 100) > 0.01
  ∨ (Dto.toDate dto <= Dto.fromDate dto)%Z →
  ∃ why, Backtest.runBacktest dto fetch
         = {| fetched := []; outcome := Rejected why |}.
Proof.
  intros H. unfold Backtest.runBacktest.
  destruct ((Rgtb _ 100.01 || Rltb _ 99.99) && Rgtb _ 0.01) eqn:Hsum; [by eexists|].
  destruct H as [H|H].
  - apply sum_check_rejects in H. congruence.
  - apply Z.geb_le in H. rewrite H. by eexists.
Qed.

(** C7: a request whose percentages are not within 0.01 of 100, whose
    start date is not strictly before its end date, or whose initial
    amount is not positive is answered with a rejection and without any
    history having been fetched: the endpoint never returns a result for
    it. *)
Theorem invalid_request_rejected_before_fetch dto fetch :
  Rabs (sumBy Dto.percentage (Dto.allocations dto) - 100) > 0.01
  ∨ (Dto.toDate dto <= Dto.fromDate dto)%Z
  ∨ Dto.initialAmountUsd dto <= 0 →
  ∃ why, BacktestController.runBacktest dto fetch
         = {| fetched := []; outcome := Rejected why |}.
Proof.
  intros H. unfold BacktestController.runBacktest.
  destruct (BacktestController.validDto dto) eqn:Hvalid; [|by eexists].
  destruct H as [H|[H|H]]; [apply service_rejects; by left
                           |apply service_rejects; by right|].
  unfold BacktestController.validDto in Hvalid.
  rewrite !andb_true_iff in Hvalid. destruct Hvalid as [[[[Hamt _] _] _] _].
  apply Rleb_true in Hamt. lra.
Qed.
End validation.

Section drawdown.
Import Backtest Spec.
Local Open Scope R_scope.

Lemma afterDays_beyond dto fetch k :
  (length (daysOf dto) <= k)%nat →
  afterDays dto fetch (S k) = afterDays dto fetch k.
Proof. intros Hk. unfold afterDays. by rewrite !take_ge by lia. Qed.

(** What one day does to the peak and to the maximum drawdown. *)
Lemma dayStep_drawdown r f days i d st :
  let st' := dayStep r f days i d st in
  let dd := (peakValue st' - prevTotalValue st') / peakValue st' * 100 in
  maxDrawdown st <= maxDrawdown st'
  ∧ dd <= maxDrawdown st'
  ∧ (maxDrawdown st' = maxDrawdown st ∨ maxDrawdown st' = dd)
  ∧ peakValue st <= peakValue st'
  ∧ prevTotalValue st' <= peakValue st'.
Proof.
  unfold dayStep. simpl.
  set (total := sumBy valueUsd _).
  destruct (Rgtb total (peakValue st)) eqn:Hpk;
    [apply Rgtb_true in Hpk|apply Rgtb_false in Hpk];
    match goal with |- context [Rgtb ?a ?b] => destruct (Rgtb a b) eqn:Hdd end;
    try apply Rgtb_true in Hdd; try apply Rgtb_false in Hdd;
    repeat split; auto; lra.
Qed.

Lemma afterDays_peak_ge dto fetch k :
  Dto.initialAmountUsd dto <= peakValue (afterDays dto fetch k)
  ∧ (∀ i, (i < k)%nat → (i < length (daysOf dto))%nat →
       0 < Dto.initialAmountUsd dto → 0 <= drawdownOn dto fetch i).
Proof.
  induction k as [|k [IHp IHd]].
  - split; [simpl; lra|]. intros i Hi. lia.
  - destruct (daysOf dto !! k) as [d|] eqn:Hk.
    + pose proof (dayStep_drawdown (rebalanceIntervalDaysOf dto) (xcmFeeUsdOf dto)
                    (daysOf dto) k d (afterDays dto fetch k)) as Hstep.
      rewrite <- (afterDays_S _ _ _ _ Hk) in Hstep. simpl in Hstep.
      destruct Hstep as (_ & _ & _ & Hpk & Htot).
      split; [lra|]. intros i Hi Hlen Hpos.
      destruct (decide (i = k)) as [->|Hne]; [|apply IHd; [lia|done..]].
      unfold drawdownOn.
      apply Rmult_le_pos; [|lra]. apply Rmult_le_pos; [lra|].
      left. apply Rinv_0_lt_compat. lra.
    + apply lookup_ge_None in Hk. rewrite afterDays_beyond by done.
      split; [done|]. intros i Hi Hlen. apply IHd; [lia|done].
Qed.

Lemma afterDays_maxDrawdown dto fetch k :
  0 <= maxDrawdown (afterDays dto fetch k)
  ∧ maxDrawdown (afterDays dto fetch k) <= maxDrawdown (afterDays dto fetch (S k))
  ∧ (∀ i, (i < k)%nat → (i < length (daysOf dto))%nat →
       drawdownOn dto fetch i <= maxDrawdown (afterDays dto fetch k))
  ∧ (maxDrawdown (afterDays dto fetch k) = 0
     ∨ ∃ i, (i < k)%nat ∧ (i < length (daysOf dto))%nat
            ∧ maxDrawdown (afterDays dto fetch k) = drawdownOn dto fetch i).
Proof.
  assert (∀ k, maxDrawdown (afterDays dto fetch k)
               <= maxDrawdown (afterDays dto fetch (S k))) as Hmono.
  { intros j. destruct (daysOf dto !! j) as [d|] eqn:Hj.
    - rewrite (afterDays_S _ _ _ _ Hj). apply dayStep_drawdown.
    - apply lookup_ge_None in Hj. rewrite afterDays_beyond by done. lra. }
  split; [|split; [apply Hmono|]].
  { induction k as [|k IH]; [simpl; lra|]. specialize (Hmono k). lra. }
  induction k as [|k [IHub IHat]].
  { split; [intros i Hi; lia|]. by left. }
  destruct (daysOf dto !! k) as [d|] eqn:Hk.
  - pose proof (dayStep_drawdown (rebalanceIntervalDaysOf dto) (xcmFeeUsdOf dto)
                  (daysOf dto) k d (afterDays dto fetch k)) as Hstep.
    rewrite <- (afterDays_S _ _ _ _ Hk) in Hstep. simpl in Hstep.
    fold (drawdownOn dto fetch k) in Hstep.
    destruct Hstep as (Hle & Hdd & Hcase & _).
    apply lookup_lt_Some in Hk. split.
    + intros i Hi Hlen. destruct (decide (i = k)) as [->|Hne]; [done|].
      specialize (IHub i). etrans; [apply IHub; [lia|done]|done].
    + destruct Hcase as [Heq|Heq].
      * rewrite Heq. destruct IHat as [?|(i & ? & ? & ?)]; [by left|].
        right. exists i. split; [lia|done].
      * right. exists k. split; [lia|done].
  - apply lookup_ge_None in Hk. rewrite afterDays_beyond by done. split.
    + intros i Hi Hlen. apply IHub; [lia|done].
    + destruct IHat as [?|(i & ? & ? & ?)]; [by left|].
      right. exists i. split; [lia|done].
Qed.

(** C6: after any number [k] of days the tracked maximum drawdown is
    non-negative and is not above its value one day later.  When the
    initial amount is positive, the drawdown of every day so far is
    non-negative and at most the tracked maximum, and once a day has
    passed the tracked maximum is the drawdown of one of those days.  The
    summary of a run that returns reports it negated and rounded to four
    decimals, hence never as a positive number. *)
Theorem max_drawdown_never_decreases dto fetch k :
  let maxDD := λ n, maxDrawdown (afterDays dto fetch n) in
  0 <= maxDD k
  ∧ maxDD k <= maxDD (S k)
  ∧ (0 < Dto.initialAmountUsd dto →
     (∀ i, (i < k)%nat → (i < length (daysOf dto))%nat →
        0 <= drawdownOn dto fetch i <= maxDD k)
     ∧ ((0 < k)%nat → (0 < length (daysOf dto))%nat →
        ∃ i, (i < k)%nat ∧ (i < length (daysOf dto))%nat
             ∧ maxDD k = drawdownOn dto fetch i))
  ∧ (∀ result,
       outcome (Backtest.runBacktest dto fetch) = Returned result →
       Result.maxDrawdownPercent (Result.summary result)
         = toFixed4 (- maxDD (length (daysOf dto)))
       ∧ Result.maxDrawdownPercent (Result.summary result) <= 0).
Proof.
  intros maxDD. unfold maxDD.
  destruct (afterDays_maxDrawdown dto fetch k) as (Hpos & Hmono & Hub & Hat).
  repeat (split; [done|]). split.
  - intros Hinit.
    destruct (afterDays_peak_ge dto fetch k) as [_ Hdd]. split.
    + intros i Hi Hlen. split; [by apply Hdd|by apply Hub].
    + intros Hk Hlen. destruct Hat as [Hz|Hat]; [|done].
      exists 0%nat. split; [done|]. split; [done|].
      specialize (Hdd 0%nat Hk Hlen Hinit). specialize (Hub 0%nat Hk Hlen). lra.
  - intros result Hrun. apply runBacktest_Returned in Hrun as ->. split.
    + simpl. by rewrite simulate_afterDays.
    + simpl. apply toFixed4_nonpos.
      rewrite simulate_afterDays.
      destruct (afterDays_maxDrawdown dto fetch (length (daysOf dto))) as [H _].
      lra.
Qed.
End drawdown.

Section sharpe.
Import Backtest Spec.
Local Open Scope R_scope.


Lemma sumBy_ext {A} (f g : A → R) (l : list A) :
  (∀ a, f a = g a) → sumBy f l = sumBy g l.
Proof.
  intros Hfg. unfold sumBy. generalize 0.
  induction l as [|a l IH]; intros acc; simpl; [done|]. by rewrite Hfg, IH.
Qed.

Lemma dayStep_dates r f days i d st :
  map date (timeSeries (dayStep r f days i d st))
  = map date (timeSeries st) ++ [d].
Proof. unfold dayStep. simpl. by rewrite map_app. Qed.

Lemma dayLoop_dates r f days i l st :
  map date (timeSeries (dayLoop r f days i l st))
  = map date (timeSeries st) ++ l.
Proof.
  revert i st. induction l as [|d l IH]; intros i st; simpl.
  - by rewrite app_nil_r.
  - by rewrite IH, dayStep_dates, <- app_assoc.
Qed.

(** The run records one point per day, in the order of the days. *)
Lemma simulate_dates dto fetch :
  map date (timeSeries (simulate dto fetch)) = daysOf dto.
Proof. unfold simulate. by rewrite dayLoop_dates. Qed.
End sharpe.


Section sums.
Local Open Scope R_scope.

Lemma sumBy_acc {A} (f : A → R) (l : list A) (acc : R) :
  fold_left (λ s a, s + f a) l acc = acc + sumBy f l.
Proof.
  unfold sumBy. revert acc. induction l as [|a l IH]; intros acc; simpl; [lra|].
  rewrite (IH (acc + f a)), (IH (0 + f a)). lra.
Qed.

Lemma sumBy_cons {A} (f : A → R) (a : A) (l : list A) :
  sumBy f (a :: l) = f a + sumBy f l.
Proof. unfold sumBy at 1. simpl. rewrite sumBy_acc. lra. Qed.

Lemma sumBy_nil {A} (f : A → R) : sumBy f [] = 0.
Proof. done. Qed.

Lemma sumBy_map {A B} (f : B → R) (g : A → B) (l : list A) :
  sumBy f (map g l) = sumBy (λ a, f (g a)) l.
Proof.
  induction l as [|a l IH]; [done|]. simpl map.
  by rewrite !sumBy_cons, IH.
Qed.

Lemma sumBy_scale {A} (c : R) (f : A → R) (l : list A) :
  sumBy (λ a, c * f a) l = c * sumBy f l.
Proof.
  induction l as [|a l IH]; [rewrite !sumBy_nil; lra|].
  rewrite !sumBy_cons, IH. lra.
Qed.

(** A sum is determined by the list of its terms. *)
Lemma sumBy_terms {A B} (f : A → R) (g : B → R) (l : list A) (l' : list B) :
  map f l = map g l' → sumBy f l = sumBy g l'.
Proof.
  revert l'. induction l as [|a l IH]; intros [|b l'] Heq; try done.
  simpl in Heq. injection Heq as Hab Heq.
  rewrite !sumBy_cons, Hab. f_equal. by apply IH.
Qed.

End sums.

Section sharpe_in_binary64.
Import PrimFloat Binary64 Binary64Inputs.
Local Open Scope float_scope.
Local Set Warnings "-inexact-float".

(** What the runtime prints for these roundings and remainders. *)
Example parseFixed4_nearest_double :
  parseFixed4 274 = 0.0274 ∧ parseFixed4 1 = 0.0001
  ∧ parseFixed4 12345678901234567890 = 1234567890123456.789.
Proof. vm_compute. done. Qed.
Example toFixed4_examples :
  toFixed4 0.027397260273972601 = 0.0274
  ∧ toFixed4 0.00005 = 0.0001 ∧ toFixed4 0.000025 = 0
  ∧ toFixed4 (-100) = -100
  ∧ toFixed4 neg_infinity = neg_infinity ∧ toFixed4 nan = nan.
Proof. vm_compute. done. Qed.
Example fmod_examples :
  fmod 5 1 = 0 ∧ fmod 7 2 = 1 ∧ fmod 5.5 2 = 1.5
  ∧ fmod 10 0.3 = 0.10000000000000037.
Proof. vm_compute. done. Qed.

Example toReal_examples :
  toReal 1 = 1%R ∧ toReal (-0.75) = (-3 / 4)%R ∧ toReal 10000 = 10000%R
  ∧ toReal 0 = 0%R.
Proof.
  unfold toReal.
  replace (FloatOps.Prim2SF 1)
    with (SpecFloat.S754_finite false 4503599627370496 (-52))
    by (vm_compute; reflexivity).
  replace (FloatOps.Prim2SF (-0.75))
    with (SpecFloat.S754_finite true 6755399441055744 (-53))
    by (vm_compute; reflexivity).
  replace (FloatOps.Prim2SF 10000)
    with (SpecFloat.S754_finite false 5497558138880000 (-39))
    by (vm_compute; reflexivity).
  replace (FloatOps.Prim2SF 0) with (SpecFloat.S754_zero false)
    by (vm_compute; reflexivity).
  repeat split; try (unfold powerRZ; simpl; field).
Qed.

(** Fewer than two samples give 0. *)
Lemma calcSharpe_few_samples (dailyReturns : list float) :
  (length dailyReturns < 2)%nat → calcSharpe dailyReturns = 0.
Proof.
  intros Hlen. unfold calcSharpe.
  by apply Nat.ltb_lt in Hlen as ->.
Qed.

(** Three equal samples: the mean of the three is not the sample, so the
    deviation is not 0 and the guard does not apply. *)
Lemma calcSharpe_three_equal_samples :
  sumBy (λ r, r) [0.1; 0.1; 0.1] / 3 = 0.10000000000000002
  ∧ calcSharpe [0.1; 0.1; 0.1] = 1.1224971010725416e17.
Proof. vm_compute. done. Qed.

(** Equal samples have a sample standard deviation of 0. *)
Lemma sampleStdDev_repeat (c : R) (n : nat) :
  Spec.sampleStdDev (repeat c n) = 0%R.
Proof.
  assert (∀ (f : R → R) k,
            JsNum.sumBy f (repeat c k) = (INR k * f c)%R) as Hsum.
  { intros f k. induction k as [|k IH].
    - change (repeat c 0) with (@nil R). rewrite sumBy_nil. simpl. lra.
    - change (repeat c (S k)) with (c :: repeat c k).
      rewrite sumBy_cons, IH, S_INR. lra. }
  unfold Spec.sampleStdDev. rewrite repeat_length, !Hsum.
  replace (INR n * ((c - INR n * id c / INR n) * (c - INR n * id c / INR n))
           / (INR n - 1))%R with 0%R; [apply sqrt_0|].
  destruct n as [|n].
  - simpl. unfold Rdiv. lra.
  - assert (INR (S n) ≠ 0)%R as Hn by (apply not_0_INR; lia).
    replace (INR (S n) * id c / INR (S n))%R with c
      by (unfold id; field; exact Hn).
    unfold Rdiv. lra.
Qed.

(** C5: the request of one thousand days at a steady 10% passes the
    rules of the DTO and of the service; each of its 999 daily returns
    after day 0 is recorded as 0.0274 percent, so that the samples are one
    and the same number and their sample standard deviation, taken of the
    real numbers that they are, is 0; and the Sharpe ratio that the
    summary reports is 1149114701506922.25, not 0. *)
Theorem steady_yield_reports_huge_sharpe :
  validDto thousandDays = true
  ∧ ∃ answer,
      runBacktest thousandDays = Some answer
      ∧ length (series answer) = 1000%nat
      ∧ map dailyReturnPct (drop 1 (series answer)) = repeat 0.0274 999
      ∧ dailyReturnsOf (series answer) = repeat (0.0274 / 100) 999
      ∧ Spec.sampleStdDev (map toReal (dailyReturnsOf (series answer))) = 0%R
      ∧ sharpeRatio answer = 1149114701506922.25.
Proof.
  split; [by vm_compute|].
  eexists. split; [vm_compute; reflexivity|].
  match goal with
  | |- context [dailyReturnsOf ?s] =>
      assert (dailyReturnsOf s = repeat (0.0274 / 100) 999) as Hequal
        by (vm_compute; reflexivity)
  end.
  split; [by vm_compute|]. split; [by vm_compute|]. split; [exact Hequal|].
  split; [|by vm_compute].
  rewrite Hequal, map_repeat. apply sampleStdDev_repeat.
Qed.

(** A portfolio that the fees bring to 0 records a daily return of
    minus infinity on the next day, and the reported Sharpe ratio is
    [NaN]. *)
Lemma drained_portfolio_reports_nan :
  validDto drained = true
  ∧ ∃ answer,
      runBacktest drained = Some answer
      ∧ map totalValueUsd (series answer) = [1; 0; -1; -2]
      ∧ map dailyReturnPct (series answer) = [0; -100; neg_infinity; 100]
      ∧ sharpeRatio answer = nan.
Proof.
  split; [by vm_compute|].
  eexists. split; [vm_compute; reflexivity|].
  vm_compute. repeat split.
Qed.
End sharpe_in_binary64.

Section zero_yield.
Import Backtest Spec.
Local Open Scope R_scope.

(** A field that neither growth nor redistribution writes keeps its
    value through the loop. *)
Lemma dayStep_keeps {B} (proj : AllocState → B) r f days i d st :
  (∀ s apy, proj (push_apySample s apy) = proj s) →
  (∀ s v, proj (set_valueUsd s v) = proj s) →
  map proj (allocStates (dayStep r f days i d st)) = map proj (allocStates st).
Proof.
  intros Hpush Hset.
  assert (∀ s, proj (applyGrowth i d days s) = proj s) as Hgrow.
  { intros s. unfold applyGrowth. destruct (0 <? i)%nat; by rewrite ?Hset, Hpush. }
  unfold dayStep. simpl. destruct (isRebalanceDay r i); unfold redistribute;
    rewrite !map_map; apply map_ext; intros s; by rewrite ?Hset, Hgrow.
Qed.

Lemma afterDays_keeps {B} (proj : AllocState → B) dto fetch k :
  (∀ s apy, proj (push_apySample s apy) = proj s) →
  (∀ s v, proj (set_valueUsd s v) = proj s) →
  map proj (allocStates (afterDays dto fetch k))
  = map proj (allocStates (setup dto fetch)).
Proof.
  intros Hpush Hset. unfold afterDays.
  generalize (setup dto fetch) as st, 0%nat as i.
  induction (take k (daysOf dto)) as [|d l IH]; intros st i; simpl; [done|].
  by rewrite IH, dayStep_keeps.
Qed.

Lemma applyGrowth_zero i d days s :
  getApyForDay (apyHistory s) d days = 0 →
  valueUsd (applyGrowth i d days s) = valueUsd s
  ∧ apySamples (applyGrowth i d days s) = apySamples s ++ [0].
Proof.
  intros Hz. unfold applyGrowth. rewrite Hz.
  destruct (0 <? i)%nat; simpl; split; try done. lra.
Qed.

Lemma zeroYield_later dto fetch k s d :
  zeroYield dto fetch →
  s ∈ allocStates (afterDays dto fetch k) → d ∈ daysOf dto →
  getApyForDay (apyHistory s) d (daysOf dto) = 0.
Proof.
  intros Hzero Hs Hd.
  apply (list_elem_of_fmap_2 apyHistory) in Hs.
  change (apyHistory <$> allocStates (afterDays dto fetch k))
    with (map apyHistory (allocStates (afterDays dto fetch k))) in Hs.
  rewrite (afterDays_keeps apyHistory) in Hs by done.
  apply list_elem_of_fmap in Hs as (s0 & -> & Hs0). by apply Hzero.
Qed.

Lemma percent_sum (initial : R) (allocs : list Dto.BacktestAllocation) :
  sumBy (λ a, initial * (Dto.percentage a / 100)) allocs
  = initial * (sumBy Dto.percentage allocs / 100).
Proof.
  rewrite sumBy_scale. f_equal.
  rewrite (sumBy_ext _ (λ a, / 100 * Dto.percentage a)) by (intros; lra).
  rewrite sumBy_scale. lra.
Qed.

Lemma setup_values dto fetch :
  map valueUsd (allocStates (setup dto fetch))
  = map (λ a, Dto.initialAmountUsd dto * (Dto.percentage a / 100))
        (Dto.allocations dto).
Proof. unfold setup. simpl. by rewrite map_map. Qed.

Lemma setup_percentages dto fetch :
  map percentage (allocStates (setup dto fetch))
  = map Dto.percentage (Dto.allocations dto).
Proof. unfold setup. simpl. by rewrite map_map. Qed.

Lemma setup_protocols dto fetch :
  map protocol (allocStates (setup dto fetch))
  = map Dto.protocol (Dto.allocations dto).
Proof. unfold setup. simpl. by rewrite map_map. Qed.

Lemma dayStep_fees r f days i d st :
  xcmFeesPaidUsd (dayStep r f days i d st)
  = xcmFeesPaidUsd st
    + (if isRebalanceDay r i
       then f * countCrossChainHops (map (applyGrowth i d days) (allocStates st))
       else 0)
  ∧ rebalanceCount (dayStep r f days i d st)
    = if isRebalanceDay r i then S (rebalanceCount st) else rebalanceCount st.
Proof.
  unfold dayStep. simpl. destruct (isRebalanceDay r i); (split; [|done]).
  - done.
  - lra.
Qed.

(** The fees paid are the fee of one rebalance times the rebalances. *)
Lemma fees_paid dto fetch k :
  xcmFeesPaidUsd (afterDays dto fetch k)
  = INR (rebalanceCount (afterDays dto fetch k)) * rebalanceFee dto.
Proof.
  induction k as [|k IH]; [simpl; lra|].
  destruct (daysOf dto !! k) as [d|] eqn:Hd.
  - rewrite (afterDays_S _ _ _ _ Hd).
    destruct (dayStep_fees (rebalanceIntervalDaysOf dto) (xcmFeeUsdOf dto)
                (daysOf dto) k d (afterDays dto fetch k)) as [-> ->].
    rewrite IH. destruct (isRebalanceDay _ k); [|lra].
    unfold countCrossChainHops.
    rewrite grow_protocol, (afterDays_keeps protocol), setup_protocols by done.
    rewrite S_INR. unfold rebalanceFee. lra.
  - apply lookup_ge_None in Hd. by rewrite afterDays_beyond.
Qed.


(** With zero yield and an exact 100%, the portfolio is worth the
    initial amount less the fees paid, after every day, and every
    sample is 0. *)
Lemma zero_run_invariant dto fetch k :
  zeroYield dto fetch →
  sumBy Dto.percentage (Dto.allocations dto) = 100 →
  (k <= length (daysOf dto))%nat →
  sumBy valueUsd (allocStates (afterDays dto fetch k))
    = Dto.initialAmountUsd dto - xcmFeesPaidUsd (afterDays dto fetch k)
  ∧ Forall (λ s, Forall (λ x, x = 0) (apySamples s))
           (allocStates (afterDays dto fetch k)).
Proof.
  intros Hzero Hsum. induction k as [|k IH]; intros Hk.
  { split.
    - rewrite afterDays_0, (sumBy_terms _ _ _ _ (setup_values dto fetch)).
      rewrite percent_sum, Hsum. simpl. lra.
    - unfold afterDays, setup. simpl.
      apply Forall_forall. intros s Hs.
      apply list_elem_of_fmap in Hs as (a & -> & _). simpl. constructor. }
  destruct IH as [IHv IHs]; [lia|].
  destruct (lookup_lt_is_Some_2 (daysOf dto) k) as [d Hd]; [lia|].
  assert (d ∈ daysOf dto) as Hdin by (by eapply list_elem_of_lookup_2).
  rewrite (afterDays_S _ _ _ _ Hd). unfold dayStep. simpl.
  set (states := allocStates (afterDays dto fetch k)) in *.
  set (grown := map (applyGrowth k d (daysOf dto)) states).
  assert (∀ s, s ∈ states →
            valueUsd (applyGrowth k d (daysOf dto) s) = valueUsd s
            ∧ apySamples (applyGrowth k d (daysOf dto) s) = apySamples s ++ [0])
    as Hgrow.
  { intros s Hs. apply applyGrowth_zero. by eapply zeroYield_later. }
  assert (sumBy valueUsd grown = sumBy valueUsd states) as Hgv.
  { apply sumBy_terms. unfold grown. rewrite map_map. apply map_ext_in.
    intros s Hs. apply list_elem_of_In in Hs. by destruct (Hgrow s Hs). }
  assert (Forall (λ s, Forall (λ x, x = 0) (apySamples s)) grown) as Hgs.
  { unfold grown. apply Forall_fmap, Forall_forall. intros s Hs. simpl.
    destruct (Hgrow s Hs) as [_ ->]. apply Forall_app. split; [|by constructor].
    rewrite Forall_forall in IHs. by apply IHs. }
  destruct (isRebalanceDay (rebalanceIntervalDaysOf dto) k) eqn:Hreb.
  - assert (map percentage grown = map Dto.percentage (Dto.allocations dto)) as Hgq.
    { unfold grown. rewrite grow_percentage. unfold states.
      by rewrite (afterDays_keeps percentage), setup_percentages. }
    split.
    + unfold redistribute. rewrite sumBy_map. simpl.
      rewrite sumBy_scale.
      rewrite (sumBy_ext (λ s, percentage s / 100) (λ s, / 100 * percentage s))
        by (intros; lra).
      rewrite sumBy_scale.
      rewrite (sumBy_terms percentage Dto.percentage grown (Dto.allocations dto))
        by done.
      rewrite Hsum, Hgv, IHv. lra.
    + unfold redistribute. apply Forall_fmap.
      eapply Forall_impl; [exact Hgs|]. done.
  - split; [by rewrite Hgv|done].
Qed.
End zero_yield.

Section zero_yield_report.
Import Backtest Spec.
Local Open Scope R_scope.




End zero_yield_report.

Section without_rebalancing.
Import Backtest Spec.
Local Open Scope R_scope.


Lemma elem_of_uniq (x : string) (l : list string) : x ∈ uniq l ↔ x ∈ l.
Proof.
  induction l as [|y l IH]; simpl; [done|].
  rewrite !elem_of_cons, list_elem_of_filter, IH.
  destruct (decide (x = y)) as [->|Hne]; [by split; left|].
  split; [intros [?|[_ ?]]; [done|by right]|intros [?|?]; [done|by right]].
Qed.

Lemma buildCache_lookup fetch (protos : list string) (p : string) :
  p ∈ protos → buildCache fetch protos !! p = Some (fetchRecords (fetch p)).
Proof.
  unfold buildCache. induction protos as [|q protos IH] using rev_ind.
  { intros Hin. by apply elem_of_nil in Hin. }
  intros Hin. rewrite fold_left_app. simpl.
  destruct (decide (q = p)) as [->|Hne]; [by rewrite lookup_insert_eq|].
  rewrite lookup_insert_ne by done. apply IH.
  apply elem_of_app in Hin as [Hin| ->%list_elem_of_singleton]; done.
Qed.

Lemma initAllocState_own initial fetch protos alloc :
  Dto.protocol alloc ∈ protos →
  initAllocState initial (buildCache fetch protos) alloc
  = initAllocState initial
      {[ Dto.protocol alloc := fetchRecords (fetch (Dto.protocol alloc)) ]} alloc.
Proof.
  intros Hin. unfold initAllocState.
  by rewrite (buildCache_lookup fetch protos _ Hin), lookup_singleton_eq.
Qed.


Lemma getApyForDay_empty d days : getApyForDay ∅ d days = 0.
Proof. unfold getApyForDay. by rewrite lookup_empty. Qed.

End without_rebalancing.

Section fee_run.
Import Backtest Spec Inputs.
Local Open Scope R_scope.

Lemma feeDto_days : daysOf feeDto = ["1970-01-01"; "1970-01-02"]%string.
Proof. reflexivity. Qed.

Lemma feeDto_zeroYield : zeroYield feeDto noHistory.
Proof.
  intros s d Hs _. unfold setup in Hs. simpl in Hs.
  repeat (apply elem_of_cons in Hs as [->|Hs]; [apply getApyForDay_empty|]).
  by apply elem_of_nil in Hs.
Qed.

End fee_run.

Section zero_yield_claim.
Import Backtest Spec Inputs.
Local Open Scope R_scope.



Lemma feeDto_rebalanceFee : rebalanceFee feeDto = 0.5.
Proof.
  unfold rebalanceFee. simpl. unfold xcmFeeUsdOf. simpl.
  rewrite Rmax_right by lra. lra.
Qed.

Lemma feeDto_rebalances_once : rebalanceCount (simulate feeDto noHistory) = 1%nat.
Proof.
  rewrite simulate_afterDays, feeDto_days. simpl length.
  rewrite (afterDays_S feeDto noHistory 1 "1970-01-02") by reflexivity.
  rewrite (afterDays_S feeDto noHistory 0 "1970-01-01") by reflexivity.
  rewrite afterDays_0.
  destruct (dayStep_fees (rebalanceIntervalDaysOf feeDto) (xcmFeeUsdOf feeDto)
              (daysOf feeDto) 1 "1970-01-02"
              (dayStep (rebalanceIntervalDaysOf feeDto) (xcmFeeUsdOf feeDto)
                 (daysOf feeDto) 0 "1970-01-01" (setup feeDto noHistory)))
    as [_ ->].
  destruct (dayStep_fees (rebalanceIntervalDaysOf feeDto) (xcmFeeUsdOf feeDto)
              (daysOf feeDto) 0 "1970-01-01" (setup feeDto noHistory))
    as [_ ->].
  rewrite isRebalanceDay_0.
  assert (isRebalanceDay (rebalanceIntervalDaysOf feeDto) 1 = true) as ->; [|done].
  apply isRebalanceDay_spec. unfold rebalanceIntervalDaysOf. simpl.
  split; [lra|]. split; [lia|]. exists 1%Z. split; [lia|lra].
Qed.

End zero_yield_claim.

Section fee_run_allocation.
Import Backtest Spec Inputs.
Local Open Scope R_scope.

(** On a rebalance day of a zero-yield run with an exact 100%, every
    allocation is reset to its share of what is left after the fees. *)
Lemma zero_run_rebalanced_values dto fetch k d :
  zeroYield dto fetch →
  sumBy Dto.percentage (Dto.allocations dto) = 100 →
  daysOf dto !! k = Some d →
  isRebalanceDay (rebalanceIntervalDaysOf dto) k = true →
  map valueUsd (allocStates (afterDays dto fetch (S k)))
  = map (λ a, (Dto.initialAmountUsd dto
               - xcmFeesPaidUsd (afterDays dto fetch (S k)))
              * (Dto.percentage a / 100))
        (Dto.allocations dto).
Proof.
  intros Hzero Hsum Hd Hreb.
  destruct (zero_run_invariant dto fetch (S k) Hzero Hsum) as [Hv _].
  { apply lookup_lt_Some in Hd. lia. }
  rewrite <- Hv. clear Hv.
  rewrite (afterDays_S _ _ _ _ Hd). unfold dayStep. simpl. rewrite Hreb.
  set (grown := map _ (allocStates (afterDays dto fetch k))).
  set (t := sumBy valueUsd grown - _).
  assert (map percentage grown = map Dto.percentage (Dto.allocations dto)) as Hgq.
  { unfold grown. by rewrite grow_percentage, (afterDays_keeps percentage),
      setup_percentages. }
  assert (sumBy valueUsd (redistribute t grown) = t) as ->.
  { unfold redistribute. rewrite sumBy_map. simpl. rewrite sumBy_scale.
    rewrite (sumBy_ext (λ s, percentage s / 100) (λ s, / 100 * percentage s))
      by (intros; lra).
    rewrite sumBy_scale.
    rewrite (sumBy_terms percentage Dto.percentage grown (Dto.allocations dto))
      by done.
    rewrite Hsum. lra. }
  unfold redistribute. rewrite map_map. simpl.
  rewrite <- (map_map percentage (λ p, t * (p / 100)) grown).
  by rewrite Hgq, map_map.
Qed.

Lemma feeDto_values :
  map valueUsd (allocStates (simulate feeDto noHistory)) = [49.75; 49.75].
Proof.
  rewrite simulate_afterDays, feeDto_days. simpl length.
  rewrite (zero_run_rebalanced_values feeDto noHistory 1 "1970-01-02").
  - rewrite fees_paid.
    change (afterDays feeDto noHistory 2)
      with (afterDays feeDto noHistory (length ["1970-01-01"; "1970-01-02"]%string)).
    rewrite <- feeDto_days, <- simulate_afterDays.
    rewrite feeDto_rebalances_once, feeDto_rebalanceFee. simpl.
    f_equal; [lra|]. f_equal. lra.
  - apply feeDto_zeroYield.
  - unfold sumBy. simpl. lra.
  - reflexivity.
  - apply isRebalanceDay_spec. unfold rebalanceIntervalDaysOf. simpl.
    split; [lra|]. split; [lia|]. exists 1%Z. split; [lia|lra].
Qed.

(** The first allocation of that run, which has no upstream record, does
    not end at its allocated value. *)
Lemma feeDto_first_allocation :
  ∃ b, Result.breakdown (report feeDto (simulate feeDto noHistory)) !! 0%nat
       = Some b
       ∧ Result.hasHistoricalData b = false
       ∧ Result.allocatedUsd b = 50
       ∧ Result.finalUsd b = 49.75.
Proof.
  pose proof feeDto_values as Hv.
  pose proof (afterDays_keeps percentage feeDto noHistory
                (length (daysOf feeDto)) (λ _ _, eq_refl) (λ _ _, eq_refl)) as Hp.
  pose proof (afterDays_keeps apyHistory feeDto noHistory
                (length (daysOf feeDto)) (λ _ _, eq_refl) (λ _ _, eq_refl)) as Hh.
  rewrite <- simulate_afterDays in Hp, Hh.
  assert (Result.breakdown (report feeDto (simulate feeDto noHistory))
          = map (breakdownOf 100) (allocStates (simulate feeDto noHistory)))
    as -> by reflexivity.
  destruct (allocStates (simulate feeDto noHistory)) as [|s states]; [done|].
  injection Hv as Hv _. injection Hp as Hp _. injection Hh as Hh _.
  exists (breakdownOf 100 s). split; [reflexivity|].
  unfold breakdownOf. cbn [Result.hasHistoricalData Result.allocatedUsd Result.finalUsd].
  rewrite Hv, Hp, Hh. split; [reflexivity|]. split.
  - replace (100 * (50 / 100)) with (IZR 500000 / 10000) by lra.
    rewrite toFixed4_decimal. lra.
  - replace 49.75 with (IZR 497500 / 10000) by lra.
    rewrite toFixed4_decimal. lra.
Qed.
End fee_run_allocation.

Section downsampling.
Import Backtest Spec.

Lemma strideLoop_indices {A B} (l : list A) (l' : list B) fuel i step :
  length l = length l' →
  (strideLoop fuel l i step).*1 = (strideLoop fuel l' i step).*1.
Proof.
  intros Hlen. revert i. induction fuel as [|fuel IH]; intros i; simpl; [done|].
  destruct (l !! i) as [a|] eqn:Ha.
  - destruct (lookup_lt_is_Some_2 l' i) as [b Hb].
    { rewrite <- Hlen. by eapply lookup_lt_Some. }
    rewrite Hb. simpl. by rewrite IH.
  - apply lookup_ge_None in Ha. rewrite Hlen in Ha.
    apply lookup_ge_None in Ha. by rewrite Ha.
Qed.

(** How many points are returned depends on how many are given. *)
Lemma downsample_length_by_length {A B} (l : list A) (l' : list B) m :
  length l = length l' →
  length (downsampleTimeSeries l m) = length (downsampleTimeSeries l' m).
Proof.
  intros Hlen. unfold downsampleTimeSeries. rewrite <- Hlen.
  destruct (length l <=? m)%nat; [done|].
  pose proof (strideLoop_indices l l' (length l) 0
                (ceilDiv (length l) m) Hlen) as Hix.
  set (r := strideLoop (length l) l 0 _) in *.
  set (r' := strideLoop (length l) l' 0 _) in *.
  assert (length r = length r') as Hr
    by (by rewrite <- (length_fmap fst r), Hix, length_fmap).
  assert (fst <$> last r = fst <$> last r') as Hlast
    by (by rewrite <- !fmap_last, Hix).
  destruct (last r) as [[j a]|], (last r') as [[j' b]|]; simplify_eq/=.
  - destruct (l !! (length l - 1)%nat) as [p|] eqn:Hp.
    + destruct (lookup_lt_is_Some_2 l' (length l - 1)%nat) as [p' Hp'].
      { rewrite <- Hlen. by eapply lookup_lt_Some. }
      rewrite Hp'. destruct (j' =? length l - 1)%nat;
        rewrite ?length_app, !length_fmap; simpl; lia.
    + apply lookup_ge_None in Hp.
      assert (l' !! (length l - 1)%nat = None) as ->
        by (apply lookup_ge_None; lia).
      by rewrite !length_fmap.
  - by rewrite !length_fmap.
Qed.

Example downsample_small_unchanged :
  downsampleTimeSeries [10; 20; 30]%nat 500 = [10; 20; 30]%nat.
Proof. reflexivity. Qed.

Example downsample_keeps_final_point :
  downsampleTimeSeries (seq 0 7) 3 = [0; 3; 6]%nat
  ∧ downsampleTimeSeries (seq 0 8) 3 = [0; 3; 6; 7]%nat.
Proof. split; reflexivity. Qed.

Lemma downsample_1000_indices :
  length (downsampleTimeSeries (seq 0 1000) 500) = 501%nat.
Proof. vm_compute. reflexivity. Qed.
End downsampling.

Section yield_derivation.
Import Apy Spec.
Local Open Scope R_scope.

Lemma Rpower_gt_1 (x e : R) : 1 < x → 0 < e → 1 < Rpower x e.
Proof.
  intros Hx He. rewrite <- (Rpower_O x) by lra. by apply Rpower_lt.
Qed.

Lemma Math_pow_pos_base (x y : R) : 0 < x → Math_pow x y = Rpower x y.
Proof. intros Hx. unfold Math_pow. apply Rltb_true in Hx. by rewrite Hx. Qed.

Lemma findAtOrBefore_Some rates symbol t r :
  findAtOrBefore rates symbol t = Some r →
  r ∈ rates ∧ tokenSymbol r = symbol ∧ (timestamp r <= t)%Z.
Proof.
  unfold findAtOrBefore. intros Hhd.
  apply head_Some_elem_of in Hhd. rewrite merge_sort_Permutation in Hhd.
  apply list_elem_of_filter in Hhd as [[Hsym Hle] Hin]. done.
Qed.

Lemma ratio_gt_1 (c r : R) : 0 < r → r < c → 1 < c / r.
Proof.
  intros Hr Hc. replace 1 with (r * / r) by (field; lra).
  apply Rmult_lt_compat_r; [by apply Rinv_0_lt_compat|done].
Qed.

Lemma annualized_pos (current ref : VTokenExchangeRate) :
  (timestamp ref < timestamp current)%Z →
  0 < exchangeRateHuman ref →
  exchangeRateHuman ref < exchangeRateHuman current →
  0 < annualized current ref.
Proof.
  intros Hts Hpos Hgt. unfold annualized.
  assert (1 < 1 + (exchangeRateHuman current / exchangeRateHuman ref - 1)).
  { pose proof (ratio_gt_1 _ _ Hpos Hgt). lra. }
  assert (0 < 365 / (IZR (timestamp current - timestamp ref) / IZR msPerDay)).
  { apply Rdiv_lt_0_compat; [lra|]. apply Rdiv_lt_0_compat.
    - apply IZR_lt. lia.
    - apply IZR_lt. done. }
  assert (1 < Rpower (1 + (exchangeRateHuman current / exchangeRateHuman ref - 1))
                (365 / (IZR (timestamp current - timestamp ref) / IZR msPerDay)))
    by (by apply Rpower_gt_1).
  lra.
Qed.

(** The block of [computeApyForAsset] for one window. *)
Lemma window_block (current : VTokenExchangeRate) (ref : option VTokenExchangeRate) :
  match ref with
  | Some r =>
      if Rgtb (exchangeRateHuman r) 0
         && Rgtb (exchangeRateHuman current) (exchangeRateHuman r)
      then
        Math_pow (1 + (exchangeRateHuman current / exchangeRateHuman r - 1))
          (365 / (IZR (timestamp current - timestamp r) / (1000 * 60 * 60 * 24))) - 1
      else 0
  | None => 0
  end = windowFigure current ref.
Proof.
  destruct ref as [r|]; [|done]. unfold windowFigure.
  destruct (decide _) as [[Hpos Hgt]|Hno].
  - apply Rgtb_true in Hpos as Hpos'. apply Rgtb_true in Hgt as Hgt'.
    rewrite Hpos', Hgt'. simpl. unfold annualized.
    rewrite Math_pow_pos_base.
    + do 3 f_equal. unfold msPerDay. rewrite !mult_IZR. done.
    + pose proof (ratio_gt_1 _ _ Hpos Hgt). lra.
  - destruct (Rgtb (exchangeRateHuman r) 0) eqn:H1; [|done].
    destruct (Rgtb (exchangeRateHuman current) (exchangeRateHuman r)) eqn:H2; [|done].
    apply Rgtb_true in H1, H2. tauto.
Qed.

Lemma windowFigure_nonneg rates symbol current t :
  (t < timestamp current)%Z →
  0 <= windowFigure current (findAtOrBefore rates symbol t).
Proof.
  intros Ht. destruct (findAtOrBefore rates symbol t) as [r|] eqn:Hr; [|simpl; lra].
  apply findAtOrBefore_Some in Hr as (_ & _ & Hle). simpl.
  destruct (decide _) as [[Hpos Hgt]|_]; [|lra].
  left. apply annualized_pos; [lia|done..].
Qed.

(** C4: the 7-day and the 30-day figure are each the annualized
    (1 + current / reference - 1) ^ (365 / actual days between) - 1 when
    the reference observation exists, its rate is positive and the
    current rate is strictly above it, and exactly 0 otherwise; such a
    figure is positive when it applies and never negative; and the
    staking yield percent is 100 times the 7-day figure when that is
    positive, else 100 times the 30-day figure when that is positive,
    else 0. *)
Theorem staking_yield_prefers_seven_days rates symbol latest :
  let f := computeFigures rates symbol latest in
  let window := λ days : Z,
    findAtOrBefore rates symbol (timestamp latest - days * msPerDay)%Z in
  fig_apy7d f = windowFigure latest (window 7%Z)
  ∧ fig_apy30d f = windowFigure latest (window 30%Z)
  ∧ (∀ days ref,
       window days = Some ref → (0 < days)%Z →
       0 < exchangeRateHuman ref →
       exchangeRateHuman ref < exchangeRateHuman latest →
       0 < windowFigure latest (window days))
  ∧ 0 <= fig_apy7d f
  ∧ 0 <= fig_apy30d f
  ∧ fig_stakingApyPercent f =
      if decide (0 < fig_apy7d f) then 100 * fig_apy7d f
      else if decide (0 < fig_apy30d f) then 100 * fig_apy30d f
      else 0.
Proof.
  intros f window.
  assert (fig_apy7d f = windowFigure latest (window 7%Z)) as H7
    by apply window_block.
  assert (fig_apy30d f = windowFigure latest (window 30%Z)) as H30
    by apply window_block.
  assert (0 <= fig_apy7d f) as Hn7.
  { rewrite H7. apply windowFigure_nonneg. unfold msPerDay. lia. }
  assert (0 <= fig_apy30d f) as Hn30.
  { rewrite H30. apply windowFigure_nonneg. unfold msPerDay. lia. }
  repeat (split; [done|]). split.
  - intros days ref Href Hdays Hpos Hgt. rewrite Href. simpl.
    rewrite decide_True by done.
    apply findAtOrBefore_Some in Href as (_ & _ & Hle).
    apply annualized_pos; [unfold msPerDay in Hle; lia|done..].
  - repeat (split; [done|]).
    change (fig_stakingApyPercent f) with (jsOr (fig_apy7d f) (fig_apy30d f) * 100).
    unfold jsOr. destruct (Reqb (fig_apy7d f) 0) eqn:Hz.
    + apply Reqb_true in Hz. rewrite Hz.
      rewrite decide_False by lra.
      destruct (decide (0 < fig_apy30d f)); lra.
    + apply Reqb_false in Hz. rewrite decide_True by lra. lra.
Qed.
End yield_derivation.

Section reference_lookup.
Import Apy.
Local Open Scope Z_scope.

#[global] Instance byTimestampAsc_trans : Transitive byTimestampAsc.
Proof. intros a b c. unfold byTimestampAsc. lia. Qed.
#[global] Instance byTimestampAsc_total : Total byTimestampAsc.
Proof. intros a b. unfold byTimestampAsc. lia. Qed.
#[global] Instance byTimestampDesc_trans : Transitive byTimestampDesc.
Proof. intros a b c. unfold byTimestampDesc. lia. Qed.
#[global] Instance byTimestampDesc_total : Total byTimestampDesc.
Proof. intros a b. unfold byTimestampDesc. lia. Qed.

(** Observations with distinct timestamps are told apart by them. *)
Lemma timestamp_inj (l : list VTokenExchangeRate) (x y : VTokenExchangeRate) :
  NoDup (timestamp <$> l) → x ∈ l → y ∈ l → timestamp x = timestamp y → x = y.
Proof.
  induction l as [|a l IH]; intros Hnd Hx Hy Heq; [by apply elem_of_nil in Hx|].
  rewrite fmap_cons in Hnd. apply NoDup_cons in Hnd as [Hna Hnd].
  apply elem_of_cons in Hx as [->|Hx]; apply elem_of_cons in Hy as [->|Hy];
    [done| | |by apply IH].
  - exfalso. apply Hna. rewrite Heq. by apply list_elem_of_fmap_2.
  - exfalso. apply Hna. rewrite <- Heq. by apply list_elem_of_fmap_2.
Qed.

(** The last element that satisfies [P] in an ascending list is the
    greatest one that does. *)
Lemma last_filter_sorted (P : VTokenExchangeRate → Prop)
    `{∀ x, Decision (P x)} (l : list VTokenExchangeRate) :
  StronglySorted byTimestampAsc l →
  match last (filter P l) with
  | Some x => x ∈ l ∧ P x ∧ ∀ y, y ∈ l → P y → timestamp y <= timestamp x
  | None => ∀ y, y ∈ l → ¬ P y
  end.
Proof.
  intros Hsort. destruct (last (filter P l)) as [x|] eqn:Hlast.
  - apply last_filter_Some in Hlast as Hsplit.
    destruct Hsplit as (l1 & l2 & -> & Hl2).
    apply last_Some_elem_of, list_elem_of_filter in Hlast as [HP Hin].
    split; [done|]. split; [done|]. intros y Hy HPy.
    apply elem_of_app in Hy as [Hy|Hy].
    + eapply (StronglySorted_app_1_elem_of byTimestampAsc); [exact Hsort|done|left].
    + apply elem_of_cons in Hy as [->|Hy]; [done|].
      rewrite Forall_forall in Hl2. by destruct (Hl2 _ Hy).
  - apply last_None in Hlast. intros y Hy HPy.
    assert (y ∈ filter P l) as Hin by (by apply list_elem_of_filter).
    rewrite Hlast in Hin. by apply elem_of_nil in Hin.
Qed.

(** The head of a descending list is its greatest element. *)
Lemma head_sorted_desc (l : list VTokenExchangeRate) :
  match head (merge_sort byTimestampDesc l) with
  | Some x => x ∈ l ∧ ∀ y, y ∈ l → timestamp y <= timestamp x
  | None => l = []
  end.
Proof.
  pose proof (StronglySorted_merge_sort byTimestampDesc l) as Hsort.
  pose proof (merge_sort_Permutation byTimestampDesc l) as Hperm.
  destruct (merge_sort byTimestampDesc l) as [|x s]; simpl.
  - by apply Permutation_nil_l in Hperm.
  - split; [rewrite <- Hperm; left|].
    intros y Hy. rewrite <- Hperm in Hy.
    apply StronglySorted_cons in Hsort as [Hall _].
    apply elem_of_cons in Hy as [->|Hy]; [done|].
    rewrite Forall_forall in Hall. by apply Hall.
Qed.

(** Filtering the ascending result in memory finds what the store finds
    with a descending query. *)
Lemma reference_agrees rates symbol t :
  NoDup (timestamp <$> filter (λ r, tokenSymbol r = symbol) rates) →
  last (filter (λ r, timestamp r <= t) (findAllAsc rates symbol))
  = findAtOrBefore rates symbol t.
Proof.
  intros Hnd. unfold findAllAsc, findAtOrBefore.
  set (own := filter (λ r, tokenSymbol r = symbol) rates) in *.
  pose proof (last_filter_sorted (λ r, timestamp r <= t)
                (merge_sort byTimestampAsc own)
                (StronglySorted_merge_sort byTimestampAsc own)) as Hl.
  pose proof (head_sorted_desc
                (filter (λ r, tokenSymbol r = symbol ∧ timestamp r <= t) rates)) as Hh.
  assert (∀ y, y ∈ filter (λ r, tokenSymbol r = symbol ∧ timestamp r <= t) rates
               ↔ y ∈ merge_sort byTimestampAsc own ∧ timestamp y <= t) as Hsame.
  { intros y. rewrite merge_sort_Permutation. unfold own.
    rewrite !list_elem_of_filter. tauto. }
  destruct (last _) as [x|], (head _) as [x'|]; simpl in *.
  - f_equal. destruct Hl as (Hx & Hxt & Hxmax), Hh as (Hx' & Hx'max).
    apply Hsame in Hx' as [Hx'in Hx't].
    apply (timestamp_inj own); [done|by rewrite <- merge_sort_Permutation..|].
    apply Z.le_antisymm.
    + apply Hx'max. apply Hsame. done.
    + by apply Hxmax.
  - destruct Hl as (Hx & Hxt & _).
    assert (x ∈ filter (λ r, tokenSymbol r = symbol ∧ timestamp r <= t) rates) as Hin
      by (by apply Hsame).
    rewrite Hh in Hin. by apply elem_of_nil in Hin.
  - destruct Hh as [Hx' _]. apply Hsame in Hx' as [Hx'in Hx't].
    by destruct (Hl x').
  - done.
Qed.
End reference_lookup.

Section daily_map.
Import Apy.
Local Open Scope Z_scope.

Lemma mapSet_keys_old key r m :
  key ∈ m.*1 → (mapSet key r m).*1 = m.*1.
Proof.
  induction m as [|[k v] m IH]; intros Hin; [by apply elem_of_nil in Hin|].
  simpl. destruct (decide (k = key)) as [->|Hne]; [done|].
  rewrite !fmap_cons. f_equal. apply IH.
  rewrite fmap_cons in Hin. apply elem_of_cons in Hin as [Heq|Hin]; [|done].
  simpl in Heq. congruence.
Qed.

Lemma mapSet_keys_new key r m :
  key ∉ m.*1 → (mapSet key r m).*1 = m.*1 ++ [key].
Proof.
  induction m as [|[k v] m IH]; intros Hnin; [done|].
  rewrite fmap_cons in Hnin. apply not_elem_of_cons in Hnin as [Hne Hnin].
  simpl in Hne. simpl. rewrite decide_False by congruence.
  rewrite !fmap_cons. simpl. f_equal. by apply IH.
Qed.

Lemma mapSet_NoDup key r m : NoDup m.*1 → NoDup (mapSet key r m).*1.
Proof.
  intros Hnd. destruct (decide (key ∈ m.*1)) as [Hin|Hnin].
  - by rewrite mapSet_keys_old.
  - rewrite mapSet_keys_new by done.
    apply NoDup_app. split; [done|]. split; [|apply NoDup_singleton].
    intros x Hx ->%list_elem_of_singleton. done.
Qed.

Lemma mapSet_elem key r m k v :
  NoDup m.*1 →
  (k, v) ∈ mapSet key r m ↔ (k = key ∧ v = r) ∨ (k ≠ key ∧ (k, v) ∈ m).
Proof.
  induction m as [|[k0 v0] m IH]; intros Hnd; simpl.
  - rewrite list_elem_of_singleton, elem_of_nil.
    split; [intros [= -> ->]; by left|intros [[-> ->]|[_ []]]; done].
  - rewrite fmap_cons in Hnd. apply NoDup_cons in Hnd as [Hk0 Hnd]. simpl in Hk0.
    destruct (decide (k0 = key)) as [->|Hne].
    + rewrite !elem_of_cons. split.
      * intros [Heq|Hin]; [left; by simplify_eq|].
        right. split; [|by right]. intros ->. apply Hk0.
        by apply (list_elem_of_fmap_2 fst) in Hin.
      * intros [[-> ->]|[Hne [Heq|Hin]]]; [by left|by simplify_eq|by right].
    + rewrite !elem_of_cons, (IH Hnd). split.
      * intros [Heq|[?|[? ?]]]; [simplify_eq|by left|].
        -- right. split; [done|by left].
        -- right. split; [done|by right].
      * intros [?|[? [?|?]]]; [right; by left|by left|right; by right].
Qed.

(** The entries of [dailyMap] after the rates of an ascending list were
    set: one per calendar day, each the latest rate of its day. *)
Lemma dailyMap_invariant (l : list VTokenExchangeRate) :
  StronglySorted byTimestampAsc l →
  let dailyMap := fold_left (λ m r, mapSet (isoDate (timestamp r)) r m) l [] in
  NoDup dailyMap.*1
  ∧ (∀ k v, (k, v) ∈ dailyMap →
       v ∈ l ∧ isoDate (timestamp v) = k
       ∧ ∀ x, x ∈ l → isoDate (timestamp x) = k → timestamp x <= timestamp v)
  ∧ (∀ x, x ∈ l → isoDate (timestamp x) ∈ dailyMap.*1).
Proof.
  induction l as [|r l IH] using rev_ind; intros Hsort; simpl.
  { split; [apply NoDup_nil_2|].
    split; [intros k v Hin|intros x Hin]; by apply elem_of_nil in Hin. }
  apply StronglySorted_app in Hsort as (Hlr & Hl & _).
  destruct (IH Hl) as (Hnd & Hval & Hcov). clear IH.
  rewrite fold_left_app. simpl.
  set (m := fold_left _ l []) in *.
  split; [by apply mapSet_NoDup|]. split.
  - intros k v Hin. apply mapSet_elem in Hin as [[-> ->]|[Hne Hin]]; [| |done].
    + split; [apply elem_of_app; right; left|]. split; [done|].
      intros x Hx _. apply elem_of_app in Hx as [Hx| ->%list_elem_of_singleton]; [|done].
      apply (Hlr x r); [done|left].
    + destruct (Hval k v Hin) as (Hv & Hk & Hmax).
      split; [apply elem_of_app; by left|]. split; [done|].
      intros x Hx Hxk. apply elem_of_app in Hx as [Hx| ->%list_elem_of_singleton].
      * by apply Hmax.
      * done.
  - intros x Hx.
    destruct (decide (isoDate (timestamp r) ∈ m.*1)) as [Hin|Hnin].
    + rewrite mapSet_keys_old by done.
      apply elem_of_app in Hx as [Hx| ->%list_elem_of_singleton]; [by apply Hcov|done].
    + rewrite mapSet_keys_new by done. apply elem_of_app.
      apply elem_of_app in Hx as [Hx| ->%list_elem_of_singleton];
        [left; by apply Hcov|right; left].
Qed.

Lemma dailyRatesOf_spec (l : list VTokenExchangeRate) :
  StronglySorted byTimestampAsc l →
  NoDup ((isoDate ∘ timestamp) <$> dailyRatesOf l)
  ∧ (∀ c, c ∈ dailyRatesOf l →
       c ∈ l ∧ ∀ x, x ∈ l → isoDate (timestamp x) = isoDate (timestamp c) →
                    timestamp x <= timestamp c)
  ∧ (∀ x, x ∈ l → ∃ c, c ∈ dailyRatesOf l
                       ∧ isoDate (timestamp c) = isoDate (timestamp x)).
Proof.
  intros Hsort. destruct (dailyMap_invariant l Hsort) as (Hnd & Hval & Hcov).
  unfold dailyRatesOf. set (m := fold_left _ l []) in *.
  assert ((isoDate ∘ timestamp) <$> m.*2 = m.*1) as Hkeys.
  { rewrite <- list_fmap_compose. apply list_eq_Forall2, Forall2_fmap.
    apply Forall_Forall2_diag, Forall_forall. intros [k v] Hin. simpl.
    by destruct (Hval k v Hin) as (_ & ? & _). }
  split; [by rewrite Hkeys|]. split.
  - intros c Hc. apply list_elem_of_fmap in Hc as [[k v] [-> Hin]]. simpl.
    destruct (Hval k v Hin) as (Hv & Hk & Hmax). split; [done|].
    intros x Hx Hxk. apply Hmax; [done|congruence].
  - intros x Hx. specialize (Hcov x Hx).
    apply list_elem_of_fmap in Hcov as [[k v] [Hk Hin]]. simpl in Hk. subst k.
    exists v. split; [by apply (list_elem_of_fmap_2 snd) in Hin|].
    by destruct (Hval _ v Hin) as (_ & ? & _).
Qed.
End daily_map.

Section backfill.
Import Apy Spec.
Local Open Scope R_scope.

Lemma matches_ByTimestamp a t g doc :
  matches (ByTimestamp a t g) doc = true ↔ snapshotKey doc = (a, t, g).
Proof.
  unfold matches, snapshotKey.
  rewrite !andb_true_iff, !bool_decide_eq_true. split.
  - intros [[-> ->] ->]. done.
  - intros [= -> -> ->]. done.
Qed.

Lemma updateOne_keys_old op repo :
  keyedByTimestamp op →
  snapshotKey (opSet op) ∈ snapshotKey <$> repo →
  snapshotKey <$> updateOne op repo = snapshotKey <$> repo.
Proof.
  intros Hop. induction repo as [|doc repo IH]; intros Hin.
  { by apply elem_of_nil in Hin. }
  simpl. destruct (matches (opFilter op) doc) eqn:Hm.
  - rewrite Hop in Hm. apply matches_ByTimestamp in Hm.
    rewrite !fmap_cons. f_equal. by rewrite Hm.
  - rewrite !fmap_cons. f_equal. apply IH.
    rewrite fmap_cons in Hin. apply elem_of_cons in Hin as [Heq|Hin]; [|done].
    rewrite Hop in Hm. apply not_true_iff_false in Hm.
    exfalso. apply Hm. apply matches_ByTimestamp. by rewrite <- Heq.
Qed.

Lemma updateOne_keys_new op repo :
  keyedByTimestamp op →
  snapshotKey (opSet op) ∉ snapshotKey <$> repo →
  snapshotKey <$> updateOne op repo
  = (snapshotKey <$> repo) ++ [snapshotKey (opSet op)].
Proof.
  intros Hop. induction repo as [|doc repo IH]; intros Hnin; [done|].
  rewrite fmap_cons in Hnin. apply not_elem_of_cons in Hnin as [Hne Hnin].
  simpl. destruct (matches (opFilter op) doc) eqn:Hm.
  - rewrite Hop in Hm. apply matches_ByTimestamp in Hm. by rewrite Hm in Hne.
  - rewrite !fmap_cons. simpl. f_equal. by apply IH.
Qed.

Lemma updateOne_NoDup op repo :
  keyedByTimestamp op →
  NoDup (snapshotKey <$> repo) → NoDup (snapshotKey <$> updateOne op repo).
Proof.
  intros Hop Hnd.
  destruct (decide (snapshotKey (opSet op) ∈ snapshotKey <$> repo)) as [Hin|Hnin].
  - by rewrite updateOne_keys_old.
  - rewrite updateOne_keys_new by done.
    apply NoDup_app. split; [done|]. split; [|apply NoDup_singleton].
    intros x Hx ->%list_elem_of_singleton. done.
Qed.

Lemma bulkWrite_NoDup ops repo :
  Forall keyedByTimestamp ops →
  NoDup (snapshotKey <$> repo) → NoDup (snapshotKey <$> bulkWrite ops repo).
Proof.
  unfold bulkWrite. intros Hops. revert repo.
  induction Hops as [|op ops Hop _ IH]; intros repo Hnd; simpl; [done|].
  apply IH. by apply updateOne_NoDup.
Qed.

Lemma backfillOp_Some allRates symbol price now current op :
  backfillOp allRates symbol price now current = Some op →
  keyedByTimestamp op
  ∧ opFilter op = ByTimestamp symbol (timestamp current) "hourly".
Proof.
  unfold backfillOp. destruct (Rgtb _ 0); [|done]. intros [= <-]. done.
Qed.

Lemma backfillOps_keyed rates symbol price now :
  Forall keyedByTimestamp (backfillOps rates symbol price now).
Proof.
  apply Forall_forall. intros op Hop. unfold backfillOps in Hop.
  apply list_elem_of_omap in Hop as (c & _ & Hc).
  by apply backfillOp_Some in Hc as [? _].
Qed.

Lemma omap_filters_NoDup allRates symbol price now (l : list VTokenExchangeRate) :
  NoDup (timestamp <$> l) →
  NoDup (opFilter <$> omap (backfillOp allRates symbol price now) l).
Proof.
  induction l as [|c l IH]; intros Hnd; [apply NoDup_nil_2|].
  rewrite fmap_cons in Hnd. apply NoDup_cons in Hnd as [Hc Hnd].
  simpl. destruct (backfillOp allRates symbol price now c) as [op|] eqn:Hop;
    [|by apply IH].
  rewrite fmap_cons. apply NoDup_cons. split; [|by apply IH].
  intros Hin. apply Hc.
  apply list_elem_of_fmap in Hin as (op' & Heq & Hin').
  apply list_elem_of_omap in Hin' as (c' & Hc' & Hop').
  apply backfillOp_Some in Hop as [_ Hf].
  apply backfillOp_Some in Hop' as [_ Hf'].
  rewrite Hf, Hf' in Heq. injection Heq as Heq.
  rewrite Heq. by apply list_elem_of_fmap_2.
Qed.

Lemma findAtOrBefore_truncated rates symbol t bound :
  (t <= bound)%Z →
  findAtOrBefore (filter (λ r, (timestamp r <= bound)%Z) rates) symbol t
  = findAtOrBefore rates symbol t.
Proof.
  intros Hle. unfold findAtOrBefore. do 2 f_equal.
  apply list_filter_filter_l. intros r [_ Hr]. lia.
Qed.

(** The figures for [current] do not depend on anything observed after
    it. *)
Lemma computeFigures_truncated rates symbol current :
  computeFigures (filter (λ r, (timestamp r <= timestamp current)%Z) rates)
    symbol current
  = computeFigures rates symbol current.
Proof.
  unfold computeFigures. by rewrite !findAtOrBefore_truncated by lia.
Qed.

Lemma findAllAsc_elem rates symbol r :
  r ∈ findAllAsc rates symbol ↔ r ∈ rates ∧ tokenSymbol r = symbol.
Proof.
  unfold findAllAsc. rewrite merge_sort_Permutation, list_elem_of_filter. tauto.
Qed.

Lemma findAllAsc_NoDup rates symbol :
  NoDup (timestamp <$> filter (λ r, tokenSymbol r = symbol) rates) →
  NoDup (timestamp <$> findAllAsc rates symbol).
Proof. unfold findAllAsc. by rewrite merge_sort_Permutation. Qed.

Lemma dailyRates_timestamps_NoDup (l : list VTokenExchangeRate) :
  StronglySorted byTimestampAsc l → NoDup (timestamp <$> dailyRatesOf l).
Proof.
  intros Hsort. destruct (dailyRatesOf_spec l Hsort) as (Hnd & _).
  rewrite list_fmap_compose in Hnd. by apply NoDup_fmap_1 in Hnd.
Qed.

(** C9, as amended: for the observation [current] the backfill retains
    for a calendar day (the latest of its day), the figures the backfill
    derives are those of the single-point derivation taking [current] as
    the latest observation, and they do not depend on later observations.
    When the staking yield is not positive the backfill writes nothing
    for that day; when it is positive it writes one upsert, filtered by
    (asset, timestamp, granularity), whose document has the key and the
    values of the single-point document, the chain being the one of the
    observation.  No two upserts of a backfill share a filter, and a
    repository without duplicate keys has none after the backfill. *)
Theorem backfill_agrees_where_it_writes rates symbol price now current :
  NoDup (timestamp <$> filter (λ r, tokenSymbol r = symbol) rates) →
  current ∈ dailyRatesOf (findAllAsc rates symbol) →
  let allRates := findAllAsc rates symbol in
  let single := snapshotOp rates symbol current price now in
  (current ∈ rates ∧ tokenSymbol current = symbol
   ∧ ∀ r, r ∈ rates → tokenSymbol r = symbol →
          isoDate (timestamp r) = isoDate (timestamp current) →
          (timestamp r <= timestamp current)%Z)
  ∧ backfillFigures allRates current = computeFigures rates symbol current
  ∧ computeFigures (filter (λ r, (timestamp r <= timestamp current)%Z) rates)
      symbol current
    = computeFigures rates symbol current
  ∧ (fig_stakingApyPercent (computeFigures rates symbol current) <= 0 →
     backfillOp allRates symbol price now current = None)
  ∧ (0 < fig_stakingApyPercent (computeFigures rates symbol current) →
     ∃ op, backfillOp allRates symbol price now current = Some op
           ∧ op ∈ backfillOps rates symbol price now
           ∧ opFilter op = ByTimestamp symbol (timestamp current) "hourly"
           ∧ opSet op = withChain (opSet single) (chain current)
           ∧ snapshotKey (opSet op) = snapshotKey (opSet single)
           ∧ (chain current = BIFROST_CHAIN → opSet op = opSet single))
  ∧ NoDup (opFilter <$> backfillOps rates symbol price now)
  ∧ (∀ apyRepo,
       NoDup (snapshotKey <$> apyRepo) →
       NoDup (snapshotKey
                <$> (backfillApyHistory rates symbol price now apyRepo).2)).
Proof.
  intros Hnd Hcur allRates single.
  assert (StronglySorted byTimestampAsc allRates) as Hsort
    by (apply StronglySorted_merge_sort; apply _).
  destruct (dailyRatesOf_spec allRates Hsort) as (_ & Hlatest & _).
  destruct (Hlatest current Hcur) as [Hin Hmax].
  apply findAllAsc_elem in Hin as [Hin Hsym].
  assert (backfillFigures allRates current = computeFigures rates symbol current)
    as Hfig.
  { unfold backfillFigures, computeFigures, allRates.
    by rewrite !reference_agrees by done. }
  split; [|split; [done|split; [apply computeFigures_truncated|]]].
  { split; [done|]. split; [done|]. intros r Hr Hrs Hday.
    apply Hmax; [by apply findAllAsc_elem|done]. }
  split; [|split; [|split]].
  - intros Hle. unfold backfillOp. rewrite Hfig.
    apply Rgtb_false in Hle. by rewrite Hle.
  - intros Hpos. unfold backfillOp. rewrite Hfig.
    apply Rgtb_true in Hpos as Hpos'. rewrite Hpos'. eexists. split; [done|].
    split; [|repeat split; intros Hchain; simpl; by rewrite Hchain].
    unfold backfillOps. apply list_elem_of_omap. exists current.
    split; [done|]. unfold backfillOp. fold allRates. rewrite Hfig.
    by rewrite Hpos'.
  - unfold backfillOps. apply omap_filters_NoDup.
    by apply dailyRates_timestamps_NoDup.
  - intros apyRepo Hrepo. unfold backfillApyHistory. simpl.
    destruct (0 <? _)%nat; [|done].
    apply bulkWrite_NoDup; [apply backfillOps_keyed|done].
Qed.
End backfill.

Section first_day.
Import Apy Spec Inputs.
Local Open Scope R_scope.

Lemma jsOr_0_0 : jsOr 0 0 = 0.
Proof. unfold jsOr. by destruct (Reqb 0 0). Qed.

(** C9 as stated fails: the only day of the history is retained, the
    single-point derivation writes its snapshot, the backfill writes
    none. *)
Lemma backfill_skips_day_without_yield :
  dailyRatesOf (findAllAsc [firstRate] "vDOT") = [firstRate]
  ∧ backfillApyHistory [firstRate] "vDOT" 7 0 [] = (0%nat, [])
  ∧ ∃ doc, computeApyForAsset [firstRate] "vDOT" 7 0 [] = [doc]
           ∧ Snapshot.timestamp doc = timestamp firstRate
           ∧ Snapshot.stakingApyPercent doc = 0.
Proof.
  assert (dailyRatesOf (findAllAsc [firstRate] "vDOT") = [firstRate]) as Hdaily
    by reflexivity.
  split; [done|]. split.
  - unfold backfillApyHistory, backfillOps. rewrite Hdaily.
    assert (backfillOp (findAllAsc [firstRate] "vDOT") "vDOT" 7 0 firstRate = None)
      as Hop.
    { unfold backfillOp.
      assert (fig_stakingApyPercent
                (backfillFigures (findAllAsc [firstRate] "vDOT") firstRate)
              = jsOr 0 0 * 100) as -> by reflexivity.
      rewrite jsOr_0_0. rewrite (proj2 (Rgtb_false _ _)) by lra. done. }
    simpl. rewrite Hop. done.
  - eexists. split; [reflexivity|]. split; [done|].
    change (toFixed4 (jsOr 0 0 * 100) = 0).
    rewrite jsOr_0_0. replace (0 * 100) with 0 by lra. apply toFixed4_0.
Qed.
End first_day.

Section downsampling_of_a_run.
Import Backtest Spec Inputs.
Local Open Scope R_scope.

Lemma strideLoop_points {A} (series : list A) fuel i step j p :
  (j, p) ∈ strideLoop fuel series i step → series !! j = Some p.
Proof.
  revert i. induction fuel as [|fuel IH]; intros i Hin; simpl in Hin.
  { by apply elem_of_nil in Hin. }
  destruct (series !! i) as [q|] eqn:Hq; [|by apply elem_of_nil in Hin].
  apply elem_of_cons in Hin as [[= -> ->]|Hin]; [done|by eapply IH].
Qed.

(** The loop ends because the index leaves the series, never because
    the fuel ran out: more fuel gives the same points. *)
Lemma strideLoop_fuel {A} (series : list A) (fuel extra i step : nat) :
  (1 <= step)%nat → (length series <= i + fuel)%nat →
  strideLoop (fuel + extra) series i step = strideLoop fuel series i step.
Proof.
  intros Hstep. revert i. induction fuel as [|fuel IH]; intros i Hlen.
  - assert (series !! i = None) as Hi by (apply lookup_ge_None; lia).
    destruct extra; [done|]. simpl. by rewrite Hi.
  - simpl. destruct (series !! i); [|done]. f_equal. apply IH. lia.
Qed.

(** The points are taken at [i], [i + step], [i + 2 step], ... *)
Lemma strideLoop_stride {A} (series : list A) (fuel i step j ix : nat) (p : A) :
  strideLoop fuel series i step !! j = Some (ix, p) →
  ix = (i + j * step)%nat ∧ series !! ix = Some p.
Proof.
  revert i j. induction fuel as [|fuel IH]; intros i j Hj; [done|].
  simpl in Hj. destruct (series !! i) as [q|] eqn:Hq; [|done].
  destruct j as [|j]; simpl in Hj.
  - injection Hj as <- <-. split; [lia|done].
  - apply IH in Hj as [-> Hp]. split; [lia|done].
Qed.

Lemma ceilDiv_covers (n m : nat) : (1 <= m)%nat → (n <= ceilDiv n m * m)%nat.
Proof.
  intros Hm. unfold ceilDiv.
  pose proof (Nat.div_mod (n + m - 1) m ltac:(lia)) as Hdm.
  pose proof (Nat.mod_upper_bound (n + m - 1) m ltac:(lia)) as Hub.
  nia.
Qed.

(** At most one point more than the cap is returned. *)
Lemma downsample_length_bound {A} (series : list A) (maxPoints : nat) :
  (1 <= maxPoints)%nat →
  (length (downsampleTimeSeries series maxPoints) <= maxPoints + 1)%nat.
Proof.
  intros Hm. unfold downsampleTimeSeries.
  destruct (length series <=? maxPoints)%nat eqn:Hle.
  { apply Nat.leb_le in Hle. lia. }
  apply Nat.leb_gt in Hle.
  set (step := ceilDiv (length series) maxPoints).
  set (result := strideLoop (length series) series 0 step).
  assert (length result <= maxPoints)%nat as Hres.
  { destruct (length result) as [|c] eqn:Hc; [lia|].
    destruct (lookup_lt_is_Some_2 result c) as [[ix p] Hix]; [lia|].
    apply strideLoop_stride in Hix as [-> Hp].
    apply lookup_lt_Some in Hp.
    pose proof (ceilDiv_covers (length series) maxPoints Hm) as Hcov.
    fold step in Hcov. nia. }
  destruct (last result) as [[j pj]|]; [|by rewrite length_fmap; lia].
  destruct (series !! (length series - 1)%nat); [|by rewrite length_fmap; lia].
  destruct (j =? length series - 1)%nat;
    rewrite ?length_app, !length_fmap; simpl; lia.
Qed.
(** A series within the cap is returned as it is. *)
Lemma downsample_within_cap {A} (series : list A) (maxPoints : nat) :
  (length series <= maxPoints)%nat →
  downsampleTimeSeries series maxPoints = series.
Proof.
  intros Hle. unfold downsampleTimeSeries.
  by rewrite (proj2 (Nat.leb_le _ _) Hle).
Qed.

(** A longer series keeps its first and its final point. *)
Lemma downsample_keeps_ends {A} (series : list A) (maxPoints : nat) :
  (maxPoints < length series)%nat →
  head (downsampleTimeSeries series maxPoints) = head series
  ∧ last (downsampleTimeSeries series maxPoints) = last series.
Proof.
  intros Hlt. unfold downsampleTimeSeries.
  rewrite (proj2 (Nat.leb_gt _ _) Hlt).
  destruct series as [|p0 series]; [simpl in Hlt; lia|].
  set (all := p0 :: series) in *.
  set (step := ceilDiv (length all) maxPoints).
  assert (∃ rest, strideLoop (length all) all 0 step = (0%nat, p0) :: rest)
    as [rest Hres] by (by eexists).
  rewrite Hres.
  assert (last all = all !! (length all - 1)%nat) as Hlast
    by (rewrite last_lookup; f_equal; lia).
  destruct (lookup_lt_is_Some_2 all (length all - 1)%nat) as [pl Hpl];
    [simpl; lia|].
  rewrite Hpl in *.
  destruct (last ((0%nat, p0) :: rest)) as [[j pj]|] eqn:Hl;
    [|by apply last_None in Hl].
  destruct (j =? length all - 1)%nat eqn:Hj.
  - split; [done|]. apply Nat.eqb_eq in Hj. subst j.
    rewrite Hlast, fmap_last, Hl. simpl. f_equal.
    apply last_Some_elem_of in Hl. rewrite <- Hres in Hl.
    apply strideLoop_points in Hl. congruence.
  - split; [done|]. by rewrite last_snoc.
Qed.

(** C10 fails on a series of 1000 points: the run from 2020-01-01 to
    2022-09-26 has 1000 days, it is accepted, and the series it returns
    has 501 points, one more than the cap of 500. *)
Theorem thousand_days_return_501_points :
  ∃ result,
    outcome (BacktestController.runBacktest thousandDaysDto noHistory)
    = Returned result
    ∧ length (daysOf thousandDaysDto) = 1000%nat
    ∧ length (Result.timeSeries result) = 501%nat.
Proof.
  assert (length (daysOf thousandDaysDto) = 1000%nat) as Hdays
    by (vm_compute; reflexivity).
  exists (report thousandDaysDto (simulate thousandDaysDto noHistory)).
  split; [|split; [done|]].
  - unfold BacktestController.runBacktest.
    assert (BacktestController.validDto thousandDaysDto = true) as ->
      by dto_rules.
    rewrite runBacktest_accepts; [done| |simpl; lia].
    unfold sumBy. simpl. rewrite Rabs_right; lra.
  - change (Result.timeSeries (report thousandDaysDto
                                 (simulate thousandDaysDto noHistory)))
      with (downsampleTimeSeries
              (timeSeries (simulate thousandDaysDto noHistory)) 500).
    rewrite (downsample_length_by_length _ (seq 0 1000)).
    + apply downsample_1000_indices.
    + rewrite length_seq, <- Hdays, <- (simulate_dates thousandDaysDto noHistory).
      by rewrite length_map.
Qed.
End downsampling_of_a_run.

(* ===================================================================== *)
(** ** The theorems at concrete inputs *)
(* ===================================================================== *)

Section at_concrete_inputs.
Import Backtest Spec Inputs.
Local Open Scope R_scope.

(** The second day of the two-day run compounds the value of the day
    before. *)
Lemma compounding_from_day_one_witness :
  daysOf feeDto !! 1%nat = Some "1970-01-02"%string
  ∧ Forall2
      (λ before grown,
         valueUsd grown
         = valueUsd before
           * (1 + getApyForDay (apyHistory before) "1970-01-02" (daysOf feeDto)
                  / 100 / 365))
      (allocStates (afterDays feeDto noHistory 1))
      (grownOn feeDto noHistory 1 "1970-01-02").
Proof.
  split; [reflexivity|].
  apply (compounding_from_day_one feeDto noHistory 1 "1970-01-02"). reflexivity.
Defined.


(** A rate that grew from 1 to 1.01 in eight days gives a positive 7-day
    figure. *)
Lemma staking_yield_prefers_seven_days_witness :
  Apy.findAtOrBefore [firstRate; laterRate] "vDOT"
    (Apy.timestamp laterRate - 7 * msPerDay)%Z = Some firstRate
  ∧ 0 < windowFigure laterRate
          (Apy.findAtOrBefore [firstRate; laterRate] "vDOT"
             (Apy.timestamp laterRate - 7 * msPerDay)%Z).
Proof.
  split; [reflexivity|].
  destruct (staking_yield_prefers_seven_days [firstRate; laterRate] "vDOT" laterRate)
    as (_ & _ & Hpos & _).
  apply (Hpos 7%Z firstRate); [reflexivity|lia|simpl; lra|simpl; lra].
Defined.

(** After the first day of the two-day run the maximum drawdown is the
    drawdown of that day. *)
Lemma max_drawdown_never_decreases_witness :
  0 < Dto.initialAmountUsd feeDto
  ∧ (0 < length (daysOf feeDto))%nat
  ∧ ∃ i, (i < 1)%nat ∧ (i < length (daysOf feeDto))%nat
         ∧ maxDrawdown (afterDays feeDto noHistory 1)
           = drawdownOn feeDto noHistory i.
Proof.
  assert (0 < Dto.initialAmountUsd feeDto) as Hpos by (simpl; lra).
  assert (0 < length (daysOf feeDto))%nat as Hlen by (simpl; lia).
  split; [exact Hpos|]. split; [exact Hlen|].
  destruct (max_drawdown_never_decreases feeDto noHistory 1)
    as (_ & _ & Hmax & _).
  destruct (Hmax Hpos) as [_ Hattained].
  apply Hattained; [lia|exact Hlen].
Defined.

(** Percentages that sum to 90 are refused before anything is fetched. *)
Lemma invalid_request_rejected_before_fetch_witness :
  Rabs (sumBy Dto.percentage (Dto.allocations shortDto) - 100) > 0.01
  ∧ ∃ why, BacktestController.runBacktest shortDto noHistory
           = {| fetched := []; outcome := Rejected why |}.
Proof.
  assert (Rabs (sumBy Dto.percentage (Dto.allocations shortDto) - 100) > 0.01)
    as Hsum by (unfold sumBy; simpl; rewrite Rabs_left; lra).
  split; [exact Hsum|].
  apply (invalid_request_rejected_before_fetch shortDto noHistory). by left.
Defined.


(** For the later of two observations, eight days apart, the backfill
    derives the figures of the single-point derivation. *)
Lemma backfill_agrees_where_it_writes_witness :
  NoDup (Apy.timestamp
           <$> filter (λ r, Apy.tokenSymbol r = "vDOT"%string)
                      [firstRate; laterRate])
  ∧ laterRate ∈ Apy.dailyRatesOf (Apy.findAllAsc [firstRate; laterRate] "vDOT")
  ∧ Apy.backfillFigures (Apy.findAllAsc [firstRate; laterRate] "vDOT") laterRate
    = Apy.computeFigures [firstRate; laterRate] "vDOT" laterRate.
Proof.
  assert (NoDup (Apy.timestamp
                   <$> filter (λ r, Apy.tokenSymbol r = "vDOT"%string)
                              [firstRate; laterRate])) as Hnd.
  { change (NoDup [0%Z; 691200000%Z]). apply NoDup_cons. split.
    - intros Hin. apply list_elem_of_singleton in Hin. discriminate.
    - apply NoDup_singleton. }
  assert (laterRate
            ∈ Apy.dailyRatesOf (Apy.findAllAsc [firstRate; laterRate] "vDOT"))
    as Hin.
  { change (laterRate ∈ [firstRate; laterRate]). right. left. }
  split; [exact Hnd|]. split; [exact Hin|].
  destruct (backfill_agrees_where_it_writes [firstRate; laterRate] "vDOT" 7 0
              laterRate Hnd Hin) as (_ & Hfig & _).
  exact Hfig.
Defined.
End at_concrete_inputs.

(* ===================================================================== *)
(** ** Further properties of backtest.service.ts *)
(* ===================================================================== *)

Section apy_map.
Import PoolsClient Backtest Spec.
Local Open Scope R_scope.

Lemma buildApyMap_snoc (records : list PoolHistoryRecord) (rec : PoolHistoryRecord) :
  buildApyMap (records ++ [rec])
  = <[ slice0 10 (dataTimestamp rec) := effectiveApy rec ]> (buildApyMap records).
Proof. unfold buildApyMap. by rewrite fold_left_app. Qed.

(** What the map holds for a date: the yield of the last record of
    that date. *)
Lemma buildApyMap_lookup (records : list PoolHistoryRecord) (d : string) :
  buildApyMap records !! d
  = effectiveApy
      <$> last (filter (λ r, slice0 10 (dataTimestamp r) = d) records).
Proof.
  induction records as [|rec records IH] using rev_ind; [done|].
  rewrite buildApyMap_snoc, filter_app, filter_cons, filter_nil.
  destruct (decide (slice0 10 (dataTimestamp rec) = d)) as [<-|Hne].
  - by rewrite lookup_insert_eq, last_snoc.
  - by rewrite lookup_insert_ne, app_nil_r.
Qed.

Lemma buildApyMap_nonempty (records : list PoolHistoryRecord) :
  records ≠ [] → buildApyMap records ≠ ∅.
Proof.
  destruct records as [|r0 records] using rev_ind; [done|]. intros _.
  rewrite buildApyMap_snoc. apply insert_non_empty.
Qed.

(** X1: [buildApyMap] files every record under the first ten characters
    of its timestamp; for each date the map holds the effective yield of
    the last record of that date in the input ("last wins"), a date without
    a record has no entry, and the map is empty only for no records. *)
Theorem buildApyMap_last_record_wins (records : list PoolHistoryRecord) :
  (∀ d, buildApyMap records !! d
        = effectiveApy
            <$> last (filter (λ r, slice0 10 (dataTimestamp r) = d) records))
  ∧ (∀ d, is_Some (buildApyMap records !! d)
          ↔ ∃ rec, rec ∈ records ∧ slice0 10 (dataTimestamp rec) = d)
  ∧ (buildApyMap records = ∅ ↔ records = []).
Proof.
  split; [apply buildApyMap_lookup|]. split.
  - intros d. rewrite buildApyMap_lookup, fmap_is_Some. split.
    + intros [rec Hrec]. exists rec.
      apply last_Some_elem_of, list_elem_of_filter in Hrec. tauto.
    + intros (rec & Hin & Hd).
      destruct (last (filter _ records)) as [r|] eqn:Hlast; [done|].
      apply last_None in Hlast.
      assert (rec ∈ filter (λ r, slice0 10 (dataTimestamp r) = d) records) as Hf
        by (by apply list_elem_of_filter).
      rewrite Hlast in Hf. by apply elem_of_nil in Hf.
  - split; [|by intros ->].
    intros Hempty. destruct records as [|r records]; [done|].
    by apply buildApyMap_nonempty in Hempty.
Qed.

(** The yield of a day is a value the map holds, unless the map is
    empty. *)
Lemma getApyForDay_stored (map : gmap string R) (d : string) (days : list string) :
  map ≠ ∅ → ∃ k, map !! k = Some (getApyForDay map d days).
Proof.
  intros Hne. unfold getApyForDay.
  destruct (map !! d) as [v|] eqn:Hd; [by exists d|].
  destruct (merge_sort String.le (keys map)) as [|first rest] eqn:Hkeys.
  { by apply sorted_keys_nil in Hkeys. }
  assert (∀ k, k ∈ first :: rest → map !! k = Some (map !!! k)) as Hin.
  { intros k Hk. rewrite <- Hkeys in Hk. apply elem_of_sorted_keys in Hk as [v Hv].
    by rewrite (lookup_total_correct _ _ _ Hv). }
  destruct (last (filter _ (first :: rest))) as [k|] eqn:Hlast.
  - exists k. apply Hin. apply last_Some_elem_of in Hlast.
    by apply list_elem_of_filter in Hlast as [_ ?].
  - exists first. apply Hin. left.
Qed.

Lemma getApyForDay_record
    (records : list PoolHistoryRecord) (d : string) (days : list string) :
  records ≠ [] →
  ∃ rec, rec ∈ records
         ∧ getApyForDay (buildApyMap records) d days = effectiveApy rec.
Proof.
  intros Hne.
  destruct (getApyForDay_stored (buildApyMap records) d days) as [k Hk];
    [by apply buildApyMap_nonempty|].
  rewrite buildApyMap_lookup in Hk.
  destruct (last _) as [rec|] eqn:Hlast; [|done].
  exists rec. split.
  - apply last_Some_elem_of in Hlast. by apply list_elem_of_filter in Hlast as [_ ?].
  - by injection Hk.
Qed.

(** X2: the yield [getApyForDay] resolves from the map built of some
    records is, for every date, the effective yield of one of those
    records; it is 0 only by way of such a record or when there is no
    record at all.  No yield is invented or interpolated. *)
Theorem getApyForDay_from_records
    (records : list PoolHistoryRecord) (d : string) (days : list string) :
  (records = [] → getApyForDay (buildApyMap records) d days = 0)
  ∧ (records ≠ [] →
     ∃ rec, rec ∈ records
            ∧ getApyForDay (buildApyMap records) d days = effectiveApy rec).
Proof.
  split; [|apply getApyForDay_record].
  intros ->. apply getApyForDay_empty.
Qed.
End apy_map.

Section day_entries.
Import Backtest.
Local Open Scope Z_scope.

Lemma buildDayList_loop_lookup (fuel i : nat) (cursor end_ : Z) :
  (i < fuel)%nat →
  buildDayList_loop fuel cursor end_ !! i
  = if cursor + Z.of_nat i * msPerDay <=? end_
    then Some (isoDate (cursor + Z.of_nat i * msPerDay)) else None.
Proof.
  revert i cursor. induction fuel as [|fuel IH]; intros i cursor Hi; [lia|].
  cbn [buildDayList_loop]. destruct (cursor <=? end_) eqn:Hle.
  - destruct i as [|i].
    + replace (cursor + Z.of_nat 0 * msPerDay) with cursor by lia.
      by rewrite Hle.
    + replace (cursor + Z.of_nat (S i) * msPerDay)
        with (cursor + msPerDay + Z.of_nat i * msPerDay) by lia.
      rewrite <- IH by lia. done.
  - apply Z.leb_gt in Hle. rewrite lookup_nil.
    assert ((cursor + Z.of_nat i * msPerDay <=? end_) = false) as ->; [|done].
    apply Z.leb_gt. unfold msPerDay in *. lia.
Qed.

(** Entry [i] of the day list is the date [i] days after the start, as
    long as that moment is not after the end. *)
Lemma buildDayList_lookup (start end_ : Z) (i : nat) :
  buildDayList start end_ !! i
  = if start + Z.of_nat i * msPerDay <=? end_
    then Some (isoDate (start + Z.of_nat i * msPerDay)) else None.
Proof.
  destruct (start + Z.of_nat i * msPerDay <=? end_) eqn:Hle.
  - apply Z.leb_le in Hle.
    rewrite <- (buildDayList_fuel (S i)), buildDayList_loop_lookup by lia.
    by rewrite (proj2 (Z.leb_le _ _) Hle).
  - apply Z.leb_gt in Hle. apply lookup_ge_None.
    destruct (Z_le_gt_dec start end_) as [Hse|Hse].
    + rewrite buildDayList_length by done.
      assert ((end_ - start) / msPerDay < Z.of_nat i); [|lia].
      apply Z.div_lt_upper_bound; [done|]. lia.
    + unfold buildDayList.
      assert ((end_ - start) / msPerDay < 0).
      { apply Z.div_lt_upper_bound; [done|lia]. }
      replace (Z.to_nat _) with 0%nat by lia. simpl. lia.
Qed.

(** X3: [buildDayList start end] lists, in order, the dates of [start],
    [start] + 1 day, [start] + 2 days, ... for as long as the moment is
    not after [end]: entry [i] exists exactly when [start] + [i] days
    <= [end].  The list is empty when [end] is before [start], and
    otherwise begins with the date of [start]. *)
Theorem buildDayList_entries (start end_ : Z) :
  (∀ i, buildDayList start end_ !! i
        = if start + Z.of_nat i * msPerDay <=? end_
          then Some (isoDate (start + Z.of_nat i * msPerDay)) else None)
  ∧ (end_ < start → buildDayList start end_ = [])
  ∧ (start <= end_ → head (buildDayList start end_) = Some (isoDate start)).
Proof.
  split; [apply buildDayList_lookup|]. split.
  - intros Hlt. apply (proj1 (head_None _)). rewrite head_lookup, buildDayList_lookup.
    by rewrite (proj2 (Z.leb_gt _ _)) by lia.
  - intros Hle. rewrite head_lookup, buildDayList_lookup.
    replace (start + Z.of_nat 0 * msPerDay) with start by lia.
    by rewrite (proj2 (Z.leb_le _ _) Hle).
Qed.
End day_entries.

Section hops.
Import Backtest Spec.
Local Open Scope R_scope.

Lemma uniq_NoDup (l : list string) : NoDup (uniq l).
Proof.
  induction l as [|x l IH]; simpl; [constructor|].
  apply NoDup_cons. split.
  - intros Hin. by apply list_elem_of_filter in Hin as [? _].
  - by apply NoDup_filter.
Qed.

Lemma uniq_size (l : list string) :
  length (uniq l) = size (list_to_set l : gset string).
Proof.
  rewrite <- (size_list_to_set (C := gset string) (uniq l)) by apply uniq_NoDup.
  f_equal. apply set_eq. intros x.
  by rewrite !elem_of_list_to_set, elem_of_uniq.
Qed.

(** X4: [countCrossChainHops] is the number of distinct protocols among
    the allocation states less one, and 0 for no state: it does not
    depend on the order of the states or on how often a protocol occurs,
    and it is 0 exactly when all states are on one protocol. *)
Theorem countCrossChainHops_distinct_protocols (states : list AllocState) :
  countCrossChainHops states
  = INR (size (list_to_set (protocol <$> states) : gset string) - 1)
  ∧ (countCrossChainHops states = 0 ↔
     ∀ s s', s ∈ states → s' ∈ states → protocol s = protocol s').
Proof.
  assert (countCrossChainHops states
          = INR (size (list_to_set (protocol <$> states) : gset string) - 1))
    as Hcount.
  { unfold countCrossChainHops. rewrite uniq_size.
    change (map protocol states) with (protocol <$> states).
    destruct (size _) as [|n].
    - simpl. apply Rmax_left. lra.
    - rewrite S_INR. replace (S n - 1)%nat with n by lia.
      rewrite Rmax_right; [lra|]. pose proof (pos_INR n). lra. }
  split; [exact Hcount|]. rewrite Hcount. split.
  - intros Hzero s s' Hs Hs'.
    assert (size (list_to_set (protocol <$> states) : gset string) ≤ 1)%nat as Hsz.
    { destruct (size _) as [|[|n]]; [lia|lia|].
      replace (S (S n) - 1)%nat with (S n) in Hzero by lia.
      rewrite S_INR in Hzero. pose proof (pos_INR n). lra. }
    assert (protocol s ∈ (list_to_set (protocol <$> states) : gset string)) as Hin
      by (apply elem_of_list_to_set, list_elem_of_fmap; eauto).
    assert (protocol s' ∈ (list_to_set (protocol <$> states) : gset string)) as Hin'
      by (apply elem_of_list_to_set, list_elem_of_fmap; eauto).
    assert (size (list_to_set (protocol <$> states) : gset string) = 1%nat) as Hone.
    { assert (size (list_to_set (protocol <$> states) : gset string) ≠ 0%nat); [|lia].
      intros Hempty. apply size_empty_inv in Hempty. apply Hempty in Hin.
      by apply not_elem_of_empty in Hin. }
    exact (size_singleton_inv _ _ _ Hone Hin Hin').
  - intros Hsame.
    assert (size (list_to_set (protocol <$> states) : gset string) ≤ 1)%nat as Hsz.
    { destruct states as [|s0 states].
      { rewrite fmap_nil. change (size (∅ : gset string) ≤ 1)%nat.
        rewrite size_empty. lia. }
      assert (list_to_set (protocol <$> s0 :: states) ≡@{gset string} {[ protocol s0 ]})
        as ->; [|by rewrite size_singleton].
      intros p. rewrite elem_of_list_to_set, list_elem_of_fmap, elem_of_singleton.
      split.
      - intros (s & -> & Hs). apply Hsame; [done|left].
      - intros ->. exists s0. split; [done|left]. }
    destruct (size _) as [|[|n]]; [done|done|lia].
Qed.
End hops.

Section impermanent_loss.
Import Backtest Spec.
Local Open Scope R_scope.




End impermanent_loss.

Section price_ratio.
Import Backtest Spec.
Local Open Scope R_scope.


Lemma estimatePriceRatio_bounds (days : nat) (apySamples : list R) :
  1 <= estimatePriceRatio days apySamples <= 1.3.
Proof.
  unfold estimatePriceRatio.
  destruct (length apySamples <? 2)%nat; [lra|].
  set (variance := sumBy _ apySamples / INR (length apySamples)).
  pose proof (sqrt_pos variance) as Hsd.
  pose proof (Rmin_l 0.3 (sqrt variance / 100 * 0.3)).
  assert (0 <= Rmin 0.3 (sqrt variance / 100 * 0.3)); [|lra].
  apply Rmin_glb; lra.
Qed.

End price_ratio.

Section impermanent_loss_applied.
Import Backtest Spec.
Local Open Scope R_scope.

(** Between ratio 1 and ratio 1.3 the loss stays below one percent. *)
Lemma calculateIL_small (r : R) : 1 <= r <= 1.3 → -0.01 <= calculateIL r <= 0.
Proof.
  intros [Hlo Hhi].
  unfold calculateIL. rewrite (proj2 (Rleb_false r 0)) by lra.
  assert (0 < r) as Hpos by lra.
  pose proof (sqrt_lt_R0 r Hpos) as Hs.
  pose proof (sqrt_sqrt r (Rlt_le _ _ Hpos)) as Hsq.
  remember (sqrt r) as s eqn:Hsdef.
  assert (1 <= s) as Hs1.
  { destruct (Rle_lt_dec 1 s) as [?|Hlt]; [done|].
    assert (s * s < 1 * 1) by (apply Rmult_le_0_lt_compat; lra). lra. }
  assert (s <= 1.15) as Hs2.
  { destruct (Rle_lt_dec s 1.15) as [?|Hgt]; [done|].
    assert (1.15 * 1.15 < s * s) by (apply Rmult_le_0_lt_compat; lra). lra. }
  assert (0 <= (s - 1) * (1.15 - s)) as Hprod by (apply Rmult_le_pos; lra).
  assert (0 <= (s - 1) * (s - 1)) as Hsqr by apply (Rle_0_sqr (s - 1)).
  assert (0 < 1 + r) as Hden by lra.
  split.
  - apply Rmult_le_reg_r with (1 + r); [done|].
    replace ((2 * s / (1 + r) - 1) * (1 + r)) with (2 * s - (1 + r)) by (field; lra).
    rewrite <- Hsq. lra.
  - apply Rmult_le_reg_r with (1 + r); [done|].
    replace ((2 * s / (1 + r) - 1) * (1 + r)) with (2 * s - (1 + r)) by (field; lra).
    rewrite <- Hsq. lra.
Qed.

(** X8: the impermanent-loss step of [runBacktest] never adds value and
    never takes more than one percent: an allocation that is worth a
    non-negative amount keeps between 99% and 100% of it, and an
    allocation whose pool type is neither "dex" nor "farming" is left
    as it is. *)
Theorem applyIL_bounded_loss (state : AllocState) :
  0 <= valueUsd state →
  valueUsd state * 0.99 <= valueUsd (applyIL state) <= valueUsd state
  ∧ (poolType state ≠ "dex"%string → poolType state ≠ "farming"%string →
     applyIL state = state).
Proof.
  intros Hv. unfold applyIL.
  destruct (bool_decide (poolType state = "dex"%string)
            || bool_decide (poolType state = "farming"%string)) eqn:Hpool.
  - split.
    + simpl.
      pose proof (estimatePriceRatio_bounds (length (apySamples state))
                    (apySamples state)) as Hrange.
      pose proof (calculateIL_small _ Hrange) as [Hlo Hhi].
      rewrite Rabs_left1 by done.
      set (il := calculateIL _) in *. nra.
    + intros Hdex Hfarm. apply orb_true_iff in Hpool as [H|H];
        apply bool_decide_eq_true in H; done.
  - split; [lra|done].
Qed.
End impermanent_loss_applied.

Section downsampling_selects.
Import Backtest Spec.

Lemma sublist_singleton {A} (x : A) (l : list A) : x ∈ l → sublist [x] l.
Proof.
  intros Hin. apply list_elem_of_split in Hin as (l1 & l2 & ->).
  apply sublist_inserts_l. apply sublist_skip. apply sublist_nil_l.
Qed.

Lemma drop_lookup_elem {A} (l : list A) (i k : nat) (p : A) :
  (i <= k)%nat → l !! k = Some p → p ∈ drop i l.
Proof.
  intros Hik Hk. apply list_elem_of_lookup. exists (k - i)%nat.
  rewrite lookup_drop. by replace (i + (k - i))%nat with k by lia.
Qed.

Lemma drop_sublist_drop {A} (l : list A) (i j : nat) :
  (i <= j)%nat → sublist (drop j l) (drop i l).
Proof.
  intros Hij. replace j with (i + (j - i))%nat by lia.
  rewrite <- drop_drop. apply sublist_drop.
Qed.

(** The points the stride loop keeps, in the order of the series; a
    later point of the series may follow them. *)
Lemma strideLoop_sublist {A} (series : list A) (fuel i step : nat) :
  (1 <= step)%nat →
  sublist (strideLoop fuel series i step).*2 (drop i series)
  ∧ ∀ j q k p,
      last (strideLoop fuel series i step) = Some (j, q) →
      (j < k)%nat → series !! k = Some p →
      sublist ((strideLoop fuel series i step).*2 ++ [p]) (drop i series).
Proof.
  intros Hstep. revert i. induction fuel as [|fuel IH]; intros i.
  { split; [apply sublist_nil_l|done]. }
  simpl. destruct (series !! i) as [pi|] eqn:Hi.
  2:{ split; [apply sublist_nil_l|done]. }
  rewrite (drop_S _ _ _ Hi). destruct (IH (i + step)%nat) as [IH1 IH2].
  split.
  - rewrite fmap_cons. apply sublist_skip.
    etrans; [exact IH1|]. apply drop_sublist_drop. lia.
  - intros j q k p Hlast Hjk Hk. rewrite fmap_cons. simpl. apply sublist_skip.
    destruct (strideLoop fuel series (i + step) step) as [|x rest] eqn:Hrest.
    + simpl in Hlast. injection Hlast as <- <-. simpl.
      apply sublist_singleton. apply (drop_lookup_elem _ _ k); [lia|done].
    + etrans; [|apply (drop_sublist_drop _ (S i) (i + step)); lia].
      apply (IH2 j q k p); [|done|done].
      by rewrite last_cons_cons in Hlast.
Qed.

(** The points [downsampleTimeSeries] returns are points of the series,
    in the order of the series. *)
Lemma downsample_sublist {A} (series : list A) (maxPoints : nat) :
  (1 <= maxPoints)%nat → sublist (downsampleTimeSeries series maxPoints) series.
Proof.
  intros Hm. unfold downsampleTimeSeries.
  destruct (length series <=? maxPoints)%nat eqn:Hle; [done|].
  apply Nat.leb_gt in Hle.
  assert (1 <= ceilDiv (length series) maxPoints)%nat as Hstep.
  { pose proof (ceilDiv_covers (length series) maxPoints Hm).
    destruct (ceilDiv (length series) maxPoints); lia. }
  destruct (strideLoop_sublist series (length series) 0 _ Hstep) as [Hsub Hsnoc].
  rewrite drop_0 in Hsub, Hsnoc.
  destruct (last _) as [[j q]|] eqn:Hlast; [|done].
  destruct (series !! (length series - 1)%nat) as [p|] eqn:Hp; [|done].
  destruct (j =? length series - 1)%nat eqn:Hj; [done|].
  apply Nat.eqb_neq in Hj.
  apply (Hsnoc j q (length series - 1)%nat p); [done| |done].
  apply last_Some_elem_of, strideLoop_points, lookup_lt_Some in Hlast. lia.
Qed.

Lemma downsample_ends {A} (series : list A) (maxPoints : nat) :
  head (downsampleTimeSeries series maxPoints) = head series
  ∧ last (downsampleTimeSeries series maxPoints) = last series.
Proof.
  destruct (Nat.le_gt_cases (length series) maxPoints) as [Hle|Hgt].
  - by rewrite downsample_within_cap.
  - by apply downsample_keeps_ends.
Qed.

(** X9: for a positive cap, [downsampleTimeSeries] only selects: the
    points it returns are points of the series in their original order,
    none repeated or invented; there are at most cap + 1 of them; and
    the first and the last point of the series are always kept. *)
Theorem downsampleTimeSeries_selects {A} (series : list A) (maxPoints : nat) :
  (1 <= maxPoints)%nat →
  sublist (downsampleTimeSeries series maxPoints) series
  ∧ (length (downsampleTimeSeries series maxPoints) <= maxPoints + 1)%nat
  ∧ head (downsampleTimeSeries series maxPoints) = head series
  ∧ last (downsampleTimeSeries series maxPoints) = last series.
Proof.
  intros Hm. split; [by apply downsample_sublist|].
  split; [by apply downsample_length_bound|]. apply downsample_ends.
Qed.
End downsampling_selects.
Section samples.
Import PoolsClient Backtest Spec.
Local Open Scope R_scope.

(** What a day adds to the samples of an allocation. *)
Lemma dayStep_samples r f days i d st :
  map (λ s, (apyHistory s, apySamples s)) (allocStates (dayStep r f days i d st))
  = map (λ s, (apyHistory s,
               apySamples s ++ [getApyForDay (apyHistory s) d days]))
        (allocStates st).
Proof.
  unfold dayStep. simpl. destruct (isRebalanceDay r i); unfold redistribute;
    rewrite !map_map; apply map_ext; intros s; unfold applyGrowth;
    by destruct (0 <? i)%nat.
Qed.

Lemma dayLoop_samples r f days i rest st :
  map (λ s, (apyHistory s, apySamples s)) (allocStates (dayLoop r f days i rest st))
  = map (λ s, (apyHistory s,
               apySamples s ++ map (λ d, getApyForDay (apyHistory s) d days) rest))
        (allocStates st).
Proof.
  revert i st. induction rest as [|d rest IH]; intros i st; simpl.
  - apply map_ext. intros s. by rewrite app_nil_r.
  - rewrite IH.
    transitivity
      (map (λ hs : DailyApyMap * list R,
              (hs.1, hs.2 ++ map (λ d0, getApyForDay hs.1 d0 days) rest))
           (map (λ s, (apyHistory s, apySamples s))
                (allocStates (dayStep r f days i d st)))).
    { by rewrite map_map. }
    rewrite dayStep_samples, map_map. apply map_ext. intros s. simpl.
    by rewrite <- app_assoc.
Qed.

Lemma simulate_samples dto fetch :
  map apySamples (allocStates (simulate dto fetch))
  = map (λ s, map (λ d, getApyForDay (apyHistory s) d (daysOf dto)) (daysOf dto))
        (allocStates (setup dto fetch)).
Proof.
  unfold simulate.
  pose proof (dayLoop_samples (rebalanceIntervalDaysOf dto) (xcmFeeUsdOf dto)
                (daysOf dto) 0 (daysOf dto) (setup dto fetch)) as H.
  apply (f_equal (map snd)) in H. rewrite !map_map in H. simpl in H.
  etrans; [exact H|]. unfold setup. simpl. rewrite !map_map. by apply map_ext.
Qed.

Lemma applyIL_keeps {B} (proj : AllocState → B) (s : AllocState) :
  (∀ s v, proj (set_valueUsd s v) = proj s) →
  (∀ s l, proj (set_ilLossUsd s l) = proj s) →
  proj (applyIL s) = proj s.
Proof.
  intros Hset Hil. unfold applyIL. destruct (_ || _); [|done].
  by rewrite Hset, Hil.
Qed.

(** The allocation states the report is built from. *)
Lemma report_breakdown dto loop :
  Result.breakdown (report dto loop)
  = map (breakdownOf (Dto.initialAmountUsd dto))
        (if includeILOf dto then map applyIL (allocStates loop)
         else allocStates loop).
Proof. done. Qed.

Lemma reported_keeps {B} (proj : AllocState → B) dto fetch :
  (∀ s apy, proj (push_apySample s apy) = proj s) →
  (∀ s v, proj (set_valueUsd s v) = proj s) →
  (∀ s l, proj (set_ilLossUsd s l) = proj s) →
  map proj (if includeILOf dto then map applyIL (allocStates (simulate dto fetch))
            else allocStates (simulate dto fetch))
  = map proj (allocStates (setup dto fetch)).
Proof.
  intros Hpush Hset Hil.
  rewrite <- (afterDays_keeps proj dto fetch (length (daysOf dto))) by done.
  rewrite <- simulate_afterDays.
  destruct (includeILOf dto); [|done].
  rewrite map_map. apply map_ext. intros s. by apply applyIL_keeps.
Qed.

(** X10: the breakdown of a returned result lists the allocations of
    the request in their order, each with its protocol, asset, pool
    type (or "unknown"), percentage and allocated amount; every entry has
    used one yield sample per calendar day of the run, day 0 included,
    and its average yield is the mean of the yields resolved for those
    days; the duration is the number of days less one. *)
Theorem breakdown_follows_request dto fetch result :
  outcome (Backtest.runBacktest dto fetch) = Returned result →
  Forall2
    (λ alloc b,
       Result.protocol b = Dto.protocol alloc
       ∧ Result.assetSymbol b = Dto.assetSymbol alloc
       ∧ Result.poolType b = default "unknown"%string (Dto.poolType alloc)
       ∧ Result.allocationPercent b = Dto.percentage alloc
       ∧ Result.allocatedUsd b
         = toFixed4 (Dto.initialAmountUsd dto * (Dto.percentage alloc / 100)))
    (Dto.allocations dto) (Result.breakdown result)
  ∧ Forall2
      (λ s b,
         Result.dataPointsUsed b = length (daysOf dto)
         ∧ Result.avgApyPercent b
           = toFixed4
               (sumBy (λ d, getApyForDay (apyHistory s) d (daysOf dto)) (daysOf dto)
                / INR (length (daysOf dto))))
      (allocStates (setup dto fetch)) (Result.breakdown result)
  ∧ Result.durationDays (Result.summary result)
    = (Z.of_nat (length (daysOf dto)) - 1)%Z
  ∧ (1 <= length (daysOf dto))%nat.
Proof.
  intros Hret.
  assert (1 <= length (daysOf dto))%nat as Hdays.
  { unfold Backtest.runBacktest in Hret.
    destruct (_ && _); [done|].
    destruct (Dto.fromDate dto >=? Dto.toDate dto)%Z eqn:Hd; [done|].
    rewrite Z.geb_leb in Hd. apply Z.leb_gt in Hd.
    unfold daysOf. rewrite buildDayList_length by lia.
    assert (0 <= (Dto.toDate dto - Dto.fromDate dto) / msPerDay)%Z
      by (apply Z.div_pos; [lia|done]).
    lia. }
  apply runBacktest_Returned in Hret as ->.
  rewrite report_breakdown.
  set (final := if includeILOf dto then _ else _).
  pose proof (reported_keeps
                (λ s, (protocol s, assetSymbol s, poolType s, percentage s))
                dto fetch (λ _ _, eq_refl) (λ _ _, eq_refl) (λ _ _, eq_refl))
    as Hnames.
  pose proof (reported_keeps apyHistory dto fetch
                (λ _ _, eq_refl) (λ _ _, eq_refl) (λ _ _, eq_refl)) as Hhist.
  assert (map apySamples final
          = map (λ s, map (λ d, getApyForDay (apyHistory s) d (daysOf dto))
                          (daysOf dto))
                (allocStates (setup dto fetch))) as Hsamples.
  { rewrite <- simulate_samples. unfold final.
    destruct (includeILOf dto); [|done].
    rewrite map_map. apply map_ext. intros s. by apply applyIL_keeps. }
  fold final in Hnames, Hhist.
  split; [|split; [|split; [done|done]]].
  - unfold setup in Hnames. simpl in Hnames. rewrite map_map in Hnames.
    apply Forall2_fmap_r. apply Forall2_same_length_lookup. split.
    { apply (f_equal length) in Hnames. by rewrite !length_map in Hnames. }
    intros i alloc s Ha Hs.
    apply (f_equal (λ l, l !! i)) in Hnames.
    rewrite !list_lookup_fmap, Ha, Hs in Hnames. simpl in Hnames.
    injection Hnames as H1 H2 H3 H4. unfold breakdownOf. simpl.
    by rewrite H1, H2, H3, H4.
  - apply Forall2_fmap_r. apply Forall2_same_length_lookup. split.
    { apply (f_equal length) in Hhist. by rewrite !length_map in Hhist. }
    intros i s0 s Hs0 Hs.
    apply (f_equal (λ l, l !! i)) in Hsamples.
    rewrite !list_lookup_fmap, Hs0, Hs in Hsamples. simpl in Hsamples.
    injection Hsamples as Hsamples.
    unfold breakdownOf. simpl. rewrite Hsamples, length_map. split; [done|].
    rewrite (proj2 (Nat.ltb_lt _ _)) by lia.
    by rewrite sumBy_map.
Qed.
End samples.


Section reported_series.
Import PoolsClient Backtest Spec.
Local Open Scope R_scope.

(** X11: the time series of a returned result spans the run: its dates
    are dates of the run's calendar days in their order, it begins with
    the first day and ends with the last day, it has at most 501 points,
    and a run of at most 500 days is reported day by day. *)
Theorem reported_series_spans_the_run dto fetch result :
  outcome (Backtest.runBacktest dto fetch) = Returned result →
  sublist (map date (Result.timeSeries result)) (daysOf dto)
  ∧ head (map date (Result.timeSeries result)) = head (daysOf dto)
  ∧ last (map date (Result.timeSeries result)) = last (daysOf dto)
  ∧ (length (Result.timeSeries result) <= 501)%nat
  ∧ ((length (daysOf dto) <= 500)%nat →
     map date (Result.timeSeries result) = daysOf dto).
Proof.
  intros Hret. apply runBacktest_Returned in Hret as ->.
  unfold report. simpl.
  set (series := timeSeries (simulate dto fetch)).
  assert (map date series = daysOf dto) as Hdates by apply simulate_dates.
  destruct (downsample_ends series 500) as [Hhead Hlast].
  change (map date ?l) with (date <$> l) in *.
  split; [|split; [|split; [|split]]].
  - rewrite <- Hdates. apply fmap_sublist, downsample_sublist. lia.
  - rewrite <- Hdates.
    assert (∀ l : list TimeSeriesPoint, head (date <$> l) = date <$> head l)
      as Hfh by (by intros [|? ?]).
    by rewrite !Hfh, Hhead.
  - by rewrite <- Hdates, !fmap_last, Hlast.
  - apply (downsample_length_bound series 500). lia.
  - intros Hlen. rewrite downsample_within_cap; [done|].
    by rewrite <- (length_fmap date), Hdates.
Qed.
End reported_series.

Section rebalance_count.
Import PoolsClient Backtest Spec.
Local Open Scope R_scope.





End rebalance_count.

Section fetches.
Import PoolsClient Backtest Spec.
Local Open Scope R_scope.

(** X13: [runBacktest] requests the history of each distinct protocol
    of the request once, and of no other protocol: the protocols it
    fetches are pairwise different, each is the protocol of some
    allocation, and when a result is returned the protocol of every
    allocation was fetched. *)
Theorem one_history_request_per_protocol dto fetch :
  NoDup (fetched (Backtest.runBacktest dto fetch))
  ∧ (∀ p, p ∈ fetched (Backtest.runBacktest dto fetch) →
          ∃ alloc, alloc ∈ Dto.allocations dto ∧ Dto.protocol alloc = p)
  ∧ (∀ result alloc,
       outcome (Backtest.runBacktest dto fetch) = Returned result →
       alloc ∈ Dto.allocations dto →
       Dto.protocol alloc ∈ fetched (Backtest.runBacktest dto fetch)).
Proof.
  unfold Backtest.runBacktest.
  destruct (_ && _).
  { simpl. split; [constructor|]. split; [|done].
    intros p Hp. by apply elem_of_nil in Hp. }
  destruct (_ >=? _)%Z.
  { simpl. split; [constructor|]. split; [|done].
    intros p Hp. by apply elem_of_nil in Hp. }
  simpl. split; [apply uniq_NoDup|]. split.
  - intros p Hp. apply (proj1 (elem_of_uniq _ _)) in Hp.
    change (map Dto.protocol (Dto.allocations dto))
      with (Dto.protocol <$> Dto.allocations dto) in Hp.
    apply list_elem_of_fmap in Hp as (alloc & -> & Hin). eauto.
  - intros _ alloc _ Hin. apply elem_of_uniq.
    by apply (list_elem_of_fmap_2 Dto.protocol) in Hin.
Qed.

Lemma setup_by_records dto f g :
  (∀ alloc, alloc ∈ Dto.allocations dto →
            fetchRecords (f (Dto.protocol alloc))
            = fetchRecords (g (Dto.protocol alloc))) →
  setup dto f = setup dto g.
Proof.
  intros Hsame. unfold setup. f_equal.
  apply map_ext_in. intros alloc Hin. apply list_elem_of_In in Hin.
  assert (Dto.protocol alloc ∈ uniq (map Dto.protocol (Dto.allocations dto))) as Hp.
  { apply elem_of_uniq. by apply (list_elem_of_fmap_2 Dto.protocol) in Hin. }
  by rewrite !initAllocState_own, Hsame.
Qed.

(** X14: the run depends on the external server only through the
    records it obtains for the protocols of the request: a request that
    throws, an answer without [data] and an answer with an empty list
    all give the same run (the same fetched protocols and the same
    result or rejection). *)
Theorem failed_fetch_counts_as_no_history dto f g :
  (∀ alloc, alloc ∈ Dto.allocations dto →
            fetchRecords (f (Dto.protocol alloc))
            = fetchRecords (g (Dto.protocol alloc))) →
  Backtest.runBacktest dto f = Backtest.runBacktest dto g.
Proof.
  intros Hsame. unfold Backtest.runBacktest, simulate.
  by rewrite (setup_by_records dto f g Hsame).
Qed.
End fetches.

Section rebalance_total.
Import PoolsClient Backtest Spec.
Local Open Scope R_scope.


End rebalance_total.

Section no_drawdown.
Import PoolsClient Backtest Spec.
Local Open Scope R_scope.




End no_drawdown.

Section constant_yield.
Import PoolsClient Backtest Spec.
Local Open Scope R_scope.





End constant_yield.

(* ===================================================================== *)
(** ** Further properties of apy-calculator.service.ts *)
(* ===================================================================== *)

Section upsert.
Import Apy Spec.
Local Open Scope R_scope.


(** After an upsert whose filter finds the document it sets, that
    document is the first one the filter finds. *)
Lemma updateOne_settles op repo :
  matches (opFilter op) (opSet op) = true →
  ∃ l1 l2, updateOne op repo = l1 ++ opSet op :: l2
           ∧ Forall (λ doc, matches (opFilter op) doc = false) l1.
Proof.
  intros Hself. induction repo as [|doc repo IH]; simpl.
  - by exists [], [].
  - destruct (matches (opFilter op) doc) eqn:Hm.
    + by exists [], repo.
    + destruct IH as (l1 & l2 & -> & Hl1).
      exists (doc :: l1), l2. split; [done|]. by constructor.
Qed.

Lemma updateOne_elem op repo :
  matches (opFilter op) (opSet op) = true → opSet op ∈ updateOne op repo.
Proof.
  intros Hself. destruct (updateOne_settles op repo Hself) as (l1 & l2 & -> & _).
  apply elem_of_app. right. left.
Qed.

Lemma updateOne_settled op repo :
  matches (opFilter op) (opSet op) = true →
  (∃ l1 l2, repo = l1 ++ opSet op :: l2
            ∧ Forall (λ doc, matches (opFilter op) doc = false) l1) →
  updateOne op repo = repo.
Proof.
  intros Hself (l1 & l2 & -> & Hl1).
  induction Hl1 as [|doc l1 Hdoc _ IH]; simpl.
  - by rewrite Hself.
  - by rewrite Hdoc, IH.
Qed.

Lemma updateOne_length op repo :
  length (updateOne op repo)
  = if existsb (matches (opFilter op)) repo then length repo
    else S (length repo).
Proof.
  induction repo as [|doc repo IH]; simpl; [done|].
  destruct (matches (opFilter op) doc); simpl; [done|].
  rewrite IH. by destruct (existsb _ repo).
Qed.

Lemma updateOne_frame op repo doc :
  doc ∈ repo → matches (opFilter op) doc = false → doc ∈ updateOne op repo.
Proof.
  intros Hin Hm. induction repo as [|d repo IH]; [by apply elem_of_nil in Hin|].
  simpl. apply elem_of_cons in Hin as [<-|Hin].
  - rewrite Hm. left.
  - destruct (matches (opFilter op) d); right; [done|by apply IH].
Qed.

Lemma snapshotOp_self rates symbol latest price now :
  matches (opFilter (snapshotOp rates symbol latest price now))
          (opSet (snapshotOp rates symbol latest price now)) = true.
Proof. simpl. by rewrite !bool_decide_eq_true_2. Qed.

(** X18: [computeApyForAsset] upserts by (asset, block, granularity):
    without an observation of the asset it leaves the snapshots as they
    are; otherwise it adds at most one document; running it again on the
    same observations adds none, whatever the price and the clock are
    then, and with the same price and clock it changes nothing. *)
Theorem computeApyForAsset_repeated rates symbol price now price' now' repo :
  let once := computeApyForAsset rates symbol price now repo in
  let twice := computeApyForAsset rates symbol price' now' once in
  (findLatest rates symbol = None → once = repo)
  ∧ (length repo <= length once <= S (length repo))%nat
  ∧ length twice = length once
  ∧ (price' = price → now' = now → twice = once).
Proof.
  intros once twice. unfold twice, once, computeApyForAsset.
  destruct (findLatest rates symbol) as [latest|]; [|repeat split; lia || done].
  split; [done|]. split; [|split].
  - rewrite updateOne_length. destruct (existsb _ repo); lia.
  - rewrite (updateOne_length _ (updateOne _ repo)).
    assert (existsb (matches (opFilter (snapshotOp rates symbol latest price' now')))
              (updateOne (snapshotOp rates symbol latest price now) repo) = true)
      as ->; [|done].
    apply existsb_exists. exists (opSet (snapshotOp rates symbol latest price now)).
    split.
    + apply list_elem_of_In.
      apply updateOne_elem, snapshotOp_self.
    + simpl. by rewrite !bool_decide_eq_true_2.
  - intros -> ->. apply updateOne_settled; [apply snapshotOp_self|].
    apply updateOne_settles, snapshotOp_self.
Qed.
End upsert.

Section latest.
Import Apy Spec.
Local Open Scope Z_scope.

#[global] Instance byBlockDesc_trans : Transitive byBlockDesc.
Proof. intros a b c. unfold byBlockDesc. lia. Qed.
#[global] Instance byBlockDesc_total : Total byBlockDesc.
Proof. intros a b. unfold byBlockDesc. lia. Qed.

(** What [findLatest] finds: an observation of the asset with the
    greatest block number, if the asset has any. *)
Lemma findLatest_spec rates symbol :
  match findLatest rates symbol with
  | Some latest =>
      latest ∈ rates ∧ tokenSymbol latest = symbol
      ∧ ∀ r, r ∈ rates → tokenSymbol r = symbol →
             blockNumber r <= blockNumber latest
  | None => ∀ r, r ∈ rates → tokenSymbol r ≠ symbol
  end.
Proof.
  unfold findLatest.
  set (l := filter (λ r, tokenSymbol r = symbol) rates).
  pose proof (StronglySorted_merge_sort byBlockDesc l) as Hsort.
  pose proof (merge_sort_Permutation byBlockDesc l) as Hperm.
  destruct (merge_sort byBlockDesc l) as [|x s]; simpl.
  - apply Permutation_nil_l in Hperm. intros r Hr Hsym.
    assert (r ∈ l) as Hin by (by apply list_elem_of_filter).
    rewrite <- Hperm in Hin. by apply elem_of_nil in Hin.
  - assert (x ∈ l) as Hx by (rewrite <- Hperm; left).
    apply list_elem_of_filter in Hx as [Hsym Hx].
    split; [done|]. split; [done|]. intros r Hr Hrs.
    assert (r ∈ x :: s) as Hin by (rewrite Hperm; by apply list_elem_of_filter).
    apply StronglySorted_cons in Hsort as [Hall _].
    apply elem_of_cons in Hin as [->|Hin]; [done|].
    rewrite Forall_forall in Hall. by apply Hall.
Qed.

(** X19: the snapshot [computeApyForAsset] writes belongs to the
    observation of the asset with the greatest block number: the
    document is in the collection afterwards and carries the asset, that
    observation's block, timestamp and exchange rate, the price it was
    given, the Bifrost chain and granularity "hourly".  When no
    observation has the asset, nothing is written. *)
Theorem computeApyForAsset_snapshots_latest_block rates symbol price now repo :
  ((∀ r, r ∈ rates → tokenSymbol r ≠ symbol)
   ∧ computeApyForAsset rates symbol price now repo = repo)
  ∨ ∃ latest doc,
      latest ∈ rates ∧ tokenSymbol latest = symbol
      ∧ (∀ r, r ∈ rates → tokenSymbol r = symbol →
              blockNumber r <= blockNumber latest)
      ∧ doc ∈ computeApyForAsset rates symbol price now repo
      ∧ Snapshot.asset doc = symbol
      ∧ Snapshot.blockNumber doc = blockNumber latest
      ∧ Snapshot.timestamp doc = timestamp latest
      ∧ Snapshot.exchangeRateHuman doc = exchangeRateHuman latest
      ∧ Snapshot.baseTokenPriceUsd doc = price
      ∧ Snapshot.chain doc = BIFROST_CHAIN
      ∧ Snapshot.granularity doc = "hourly"%string.
Proof.
  pose proof (findLatest_spec rates symbol) as Hspec.
  unfold computeApyForAsset.
  destruct (findLatest rates symbol) as [latest|]; [right|by left].
  destruct Hspec as (Hin & Hsym & Hmax).
  exists latest, (opSet (snapshotOp rates symbol latest price now)).
  split; [done|]. split; [done|]. split; [done|].
  split; [apply updateOne_elem, snapshotOp_self|]. done.
Qed.
End latest.

Section backfill_reference.
Import Apy Spec.
Local Open Scope R_scope.

Lemma findAllAsc_sorted rates symbol :
  StronglySorted byTimestampAsc (findAllAsc rates symbol).
Proof. unfold findAllAsc. apply StronglySorted_merge_sort; apply _. Qed.

Lemma jsOr_pos (a b : R) : 0 < jsOr a b * 100 → a ≠ 0 ∨ b ≠ 0.
Proof.
  unfold jsOr. destruct (Reqb a 0) eqn:Ha.
  - intros Hb. right. lra.
  - apply Reqb_false in Ha. by left.
Qed.

(** A window that contributes has a reference observation. *)
Lemma window_has_reference (allRates : list VTokenExchangeRate)
    (current : VTokenExchangeRate) (t : Z) :
  match last (filter (λ r, (timestamp r ≤ t)%Z) allRates) with
  | Some ref =>
      if Rgtb (exchangeRateHuman ref) 0
         && Rgtb (exchangeRateHuman current) (exchangeRateHuman ref)
      then
        Math_pow (1 + (exchangeRateHuman current / exchangeRateHuman ref - 1))
          (365 / (IZR (timestamp current - timestamp ref) / (1000 * 60 * 60 * 24)))
        - 1
      else 0
  | None => 0
  end ≠ 0 →
  ∃ ref, ref ∈ allRates ∧ (timestamp ref ≤ t)%Z
         ∧ 0 < exchangeRateHuman ref < exchangeRateHuman current.
Proof.
  destruct (last _) as [ref|] eqn:Hlast; [|done].
  destruct (Rgtb (exchangeRateHuman ref) 0) eqn:H0; [|done].
  destruct (Rgtb _ (exchangeRateHuman ref)) eqn:H1; [|done].
  intros _. apply Rgtb_true in H0, H1.
  apply last_Some_elem_of, list_elem_of_filter in Hlast as [Ht Hin].
  exists ref. repeat split; done.
Qed.

Lemma backfillOp_reference allRates symbol price now current op :
  backfillOp allRates symbol price now current = Some op →
  ∃ ref, ref ∈ allRates
         ∧ (timestamp ref ≤ timestamp current - 7 * msPerDay)%Z
         ∧ 0 < exchangeRateHuman ref < exchangeRateHuman current.
Proof.
  unfold backfillOp.
  destruct (Rgtb (fig_stakingApyPercent (backfillFigures allRates current)) 0)
    eqn:Hpos; [|done].
  intros _. apply Rgtb_true in Hpos. unfold backfillFigures in Hpos.
  cbn [fig_stakingApyPercent] in Hpos.
  apply jsOr_pos in Hpos as [H7|H30].
  - apply (window_has_reference allRates current) in H7 as (ref & Hin & Ht & Hr).
    exists ref. split; [done|]. split; [unfold msPerDay; lia|done].
  - apply (window_has_reference allRates current) in H30 as (ref & Hin & Ht & Hr).
    exists ref. split; [done|]. split; [unfold msPerDay; lia|done].
Qed.

(** X20: every upsert of the backfill is backed by an older
    observation: it is keyed by the timestamp of an observation of the
    asset, and the asset has another observation at least seven days
    before it whose rate is positive and smaller.  Hence an asset whose
    observations span less than seven days gets no snapshot: the
    backfill returns 0 and leaves the collection as it is. *)
Theorem backfill_needs_week_old_reference rates symbol price now repo :
  Forall
    (λ op, ∃ current ref,
       current ∈ rates ∧ ref ∈ rates
       ∧ tokenSymbol current = symbol ∧ tokenSymbol ref = symbol
       ∧ opFilter op = ByTimestamp symbol (timestamp current) "hourly"
       ∧ (timestamp ref ≤ timestamp current - 7 * msPerDay)%Z
       ∧ 0 < exchangeRateHuman ref < exchangeRateHuman current)
    (backfillOps rates symbol price now)
  ∧ ((∀ r r', r ∈ rates → r' ∈ rates →
              tokenSymbol r = symbol → tokenSymbol r' = symbol →
              (timestamp r' - timestamp r < 7 * msPerDay)%Z) →
     backfillApyHistory rates symbol price now repo = (0%nat, repo)).
Proof.
  assert (Forall
    (λ op, ∃ current ref,
       current ∈ rates ∧ ref ∈ rates
       ∧ tokenSymbol current = symbol ∧ tokenSymbol ref = symbol
       ∧ opFilter op = ByTimestamp symbol (timestamp current) "hourly"
       ∧ (timestamp ref ≤ timestamp current - 7 * msPerDay)%Z
       ∧ 0 < exchangeRateHuman ref < exchangeRateHuman current)
    (backfillOps rates symbol price now)) as Hall.
  { apply Forall_forall. intros op Hop. unfold backfillOps in Hop.
    apply list_elem_of_omap in Hop as (current & Hcur & Hop).
    destruct (dailyRatesOf_spec _ (findAllAsc_sorted rates symbol))
      as (_ & Hday & _).
    apply Hday in Hcur as [Hcur _]. apply findAllAsc_elem in Hcur as [Hcur Hsym].
    destruct (backfillOp_reference _ _ _ _ _ _ Hop) as (ref & Hin & Ht & Hr).
    apply findAllAsc_elem in Hin as [Hin Hrsym].
    apply backfillOp_Some in Hop as [_ Hf].
    exists current, ref. repeat split; done || lra. }
  split; [exact Hall|]. intros Hshort.
  unfold backfillApyHistory.
  destruct (backfillOps rates symbol price now) as [|op ops]; [done|].
  apply Forall_cons in Hall as [(current & ref & Hc & Hr & Hcs & Hrs & _ & Ht & _) _].
  specialize (Hshort ref current Hr Hc Hrs Hcs). lia.
Qed.
End backfill_reference.

Section backfill_again.
Import Apy Spec.
Local Open Scope R_scope.

Lemma updateOne_keeps_settled op op' repo :
  matches (opFilter op') (opSet op) = false →
  matches (opFilter op) (opSet op') = false →
  (∃ l1 l2, repo = l1 ++ opSet op :: l2
            ∧ Forall (λ doc, matches (opFilter op) doc = false) l1) →
  ∃ l1 l2, updateOne op' repo = l1 ++ opSet op :: l2
           ∧ Forall (λ doc, matches (opFilter op) doc = false) l1.
Proof.
  intros Hno Hno' (l1 & l2 & -> & Hl1).
  induction Hl1 as [|doc l1 Hdoc Hl1 IH]; simpl.
  - rewrite Hno. by exists [], (updateOne op' l2).
  - destruct (matches (opFilter op') doc).
    + exists (opSet op' :: l1), l2. split; [done|]. by constructor.
    + destruct IH as (k1 & k2 & -> & Hk1).
      exists (doc :: k1), k2. split; [done|]. by constructor.
Qed.

Lemma bulkWrite_snoc ops op repo :
  bulkWrite (ops ++ [op]) repo = updateOne op (bulkWrite ops repo).
Proof. unfold bulkWrite. by rewrite fold_left_app. Qed.

Lemma bulkWrite_settles ops repo :
  Forall (λ op, matches (opFilter op) (opSet op) = true) ops →
  NoDup (opFilter <$> ops) →
  (∀ op op', op ∈ ops → op' ∈ ops →
             matches (opFilter op') (opSet op) = true →
             opFilter op' = opFilter op) →
  ∀ op, op ∈ ops →
    ∃ l1 l2, bulkWrite ops repo = l1 ++ opSet op :: l2
             ∧ Forall (λ doc, matches (opFilter op) doc = false) l1.
Proof.
  induction ops as [|op' ops IH] using rev_ind; intros Hself Hnd Hsep op Hop.
  { by apply elem_of_nil in Hop. }
  rewrite bulkWrite_snoc.
  apply Forall_app in Hself as [Hself Hself'].
  rewrite Forall_singleton in Hself'.
  rewrite fmap_app in Hnd. apply NoDup_app in Hnd as (Hnd & Hdis & _).
  apply elem_of_app in Hop as [Hop| ->%list_elem_of_singleton].
  - assert (opFilter op ≠ opFilter op') as Hne.
    { intros Heq. apply (Hdis (opFilter op)).
      - by apply list_elem_of_fmap_2.
      - rewrite Heq. simpl. left. }
    apply updateOne_keeps_settled.
    + apply not_true_is_false. intros Hm. apply Hne. symmetry.
      apply (Hsep op op'); [set_solver|set_solver|done].
    + apply not_true_is_false. intros Hm. apply Hne.
      apply (Hsep op' op); [set_solver|set_solver|done].
    + apply IH; [done|done| |done].
      intros o o' Ho Ho'. apply Hsep; set_solver.
  - by apply updateOne_settles.
Qed.

Lemma bulkWrite_all_settled ops repo :
  Forall (λ op, matches (opFilter op) (opSet op) = true) ops →
  (∀ op, op ∈ ops →
     ∃ l1 l2, repo = l1 ++ opSet op :: l2
              ∧ Forall (λ doc, matches (opFilter op) doc = false) l1) →
  bulkWrite ops repo = repo.
Proof.
  intros Hself Hset. induction Hself as [|op ops Hop _ IH]; [done|].
  unfold bulkWrite. simpl.
  rewrite updateOne_settled; [|done|apply Hset; left].
  apply IH. intros o Ho. apply Hset. by right.
Qed.

(** X21: the backfill is idempotent: run again on the same
    observations, with the same price and clock, on the collection it
    left, it returns the same count and leaves the collection
    unchanged. *)
Theorem backfill_twice_changes_nothing rates symbol price now repo :
  backfillApyHistory rates symbol price now
    (backfillApyHistory rates symbol price now repo).2
  = backfillApyHistory rates symbol price now repo.
Proof.
  unfold backfillApyHistory. simpl.
  set (ops := backfillOps rates symbol price now).
  destruct (0 <? length ops)%nat; [|done]. f_equal.
  assert (Forall (λ op, matches (opFilter op) (opSet op) = true) ops) as Hself.
  { eapply Forall_impl; [apply backfillOps_keyed|].
    intros op Hop. rewrite Hop. by apply matches_ByTimestamp. }
  apply bulkWrite_all_settled; [done|].
  apply bulkWrite_settles; [done| |].
  - apply omap_filters_NoDup, dailyRates_timestamps_NoDup, findAllAsc_sorted.
  - intros op op' Hop Hop' Hm.
    pose proof (backfillOps_keyed rates symbol price now) as Hkeyed.
    rewrite Forall_forall in Hkeyed.
    pose proof (Hkeyed op Hop) as Hk. pose proof (Hkeyed op' Hop') as Hk'.
    rewrite Hk' in Hm. apply matches_ByTimestamp in Hm.
    rewrite Hk, Hk'. unfold snapshotKey in Hm. injection Hm as <- <- <-.
    unfold ops, backfillOps in Hop, Hop'.
    apply list_elem_of_omap in Hop as (c & _ & Hc).
    apply list_elem_of_omap in Hop' as (c' & _ & Hc').
    unfold backfillOp in Hc, Hc'.
    destruct (Rgtb _ 0); [|done]. destruct (Rgtb _ 0); [|done].
    injection Hc as <-. injection Hc' as <-. simpl. done.
Qed.
End backfill_again.
Section snapshot_history.
Import Apy ApyService.
Local Open Scope Z_scope.

#[global] Instance bySnapshotAsc_trans : Transitive bySnapshotAsc.
Proof. intros a b c. unfold bySnapshotAsc. lia. Qed.
#[global] Instance bySnapshotAsc_total : Total bySnapshotAsc.
Proof. intros a b. unfold bySnapshotAsc. lia. Qed.

Lemma dailySet_keys_old key s m :
  key ∈ m.*1 → (dailySet key s m).*1 = m.*1.
Proof.
  induction m as [|[k v] m IH]; intros Hin; [by apply elem_of_nil in Hin|].
  simpl. destruct (decide (k = key)) as [->|Hne]; [done|].
  rewrite !fmap_cons. f_equal. apply IH.
  rewrite fmap_cons in Hin. apply elem_of_cons in Hin as [Heq|Hin]; [|done].
  simpl in Heq. congruence.
Qed.

Lemma dailySet_keys_new key s m :
  key ∉ m.*1 → (dailySet key s m).*1 = m.*1 ++ [key].
Proof.
  induction m as [|[k v] m IH]; intros Hnin; [done|].
  rewrite fmap_cons in Hnin. apply not_elem_of_cons in Hnin as [Hne Hnin].
  simpl in Hne. simpl. rewrite decide_False by congruence.
  rewrite !fmap_cons. simpl. f_equal. by apply IH.
Qed.

Lemma dailySet_NoDup key s m : NoDup m.*1 → NoDup (dailySet key s m).*1.
Proof.
  intros Hnd. destruct (decide (key ∈ m.*1)) as [Hin|Hnin].
  - by rewrite dailySet_keys_old.
  - rewrite dailySet_keys_new by done.
    apply NoDup_app. split; [done|]. split; [|apply NoDup_singleton].
    intros x Hx ->%list_elem_of_singleton. done.
Qed.

Lemma dailySet_elem key s m k v :
  NoDup m.*1 →
  (k, v) ∈ dailySet key s m ↔ (k = key ∧ v = s) ∨ (k ≠ key ∧ (k, v) ∈ m).
Proof.
  induction m as [|[k0 v0] m IH]; intros Hnd; simpl.
  - rewrite list_elem_of_singleton, elem_of_nil.
    split; [intros [= -> ->]; by left|intros [[-> ->]|[_ []]]; done].
  - rewrite fmap_cons in Hnd. apply NoDup_cons in Hnd as [Hk0 Hnd]. simpl in Hk0.
    destruct (decide (k0 = key)) as [->|Hne].
    + rewrite !elem_of_cons. split.
      * intros [Heq|Hin]; [left; by simplify_eq|].
        right. split; [|by right]. intros ->. apply Hk0.
        by apply (list_elem_of_fmap_2 fst) in Hin.
      * intros [[-> ->]|[Hne [Heq|Hin]]]; [by left|by simplify_eq|by right].
    + rewrite !elem_of_cons, (IH Hnd). split.
      * intros [Heq|[?|[? ?]]]; [simplify_eq|by left|].
        -- right. split; [done|by left].
        -- right. split; [done|by right].
      * intros [?|[? [?|?]]]; [right; by left|by left|right; by right].
Qed.

(** The entries of [dailyMap] once the snapshots of an ascending list
    were set: one per calendar day, each the latest of its day. *)
Lemma snapshot_dailyMap (l : list ApySnapshot) :
  StronglySorted bySnapshotAsc l →
  let dailyMap :=
    fold_left (λ m s, dailySet (isoDate (Snapshot.timestamp s)) s m) l [] in
  NoDup dailyMap.*1
  ∧ (∀ k v, (k, v) ∈ dailyMap →
       v ∈ l ∧ isoDate (Snapshot.timestamp v) = k
       ∧ ∀ x, x ∈ l → isoDate (Snapshot.timestamp x) = k →
              Snapshot.timestamp x <= Snapshot.timestamp v)
  ∧ (∀ x, x ∈ l → isoDate (Snapshot.timestamp x) ∈ dailyMap.*1).
Proof.
  induction l as [|r l IH] using rev_ind; intros Hsort; simpl.
  { split; [apply NoDup_nil_2|].
    split; [intros k v Hin|intros x Hin]; by apply elem_of_nil in Hin. }
  apply StronglySorted_app in Hsort as (Hlr & Hl & _).
  destruct (IH Hl) as (Hnd & Hval & Hcov). clear IH.
  rewrite fold_left_app. simpl.
  set (m := fold_left _ l []) in *.
  split; [by apply dailySet_NoDup|]. split.
  - intros k v Hin. apply dailySet_elem in Hin as [[-> ->]|[Hne Hin]]; [| |done].
    + split; [apply elem_of_app; right; left|]. split; [done|].
      intros x Hx _. apply elem_of_app in Hx as [Hx| ->%list_elem_of_singleton]; [|done].
      apply (Hlr x r); [done|left].
    + destruct (Hval k v Hin) as (Hv & Hk & Hmax).
      split; [apply elem_of_app; by left|]. split; [done|].
      intros x Hx Hxk. apply elem_of_app in Hx as [Hx| ->%list_elem_of_singleton].
      * by apply Hmax.
      * done.
  - intros x Hx.
    destruct (decide (isoDate (Snapshot.timestamp r) ∈ m.*1)) as [Hin|Hnin].
    + rewrite dailySet_keys_old by done.
      apply elem_of_app in Hx as [Hx| ->%list_elem_of_singleton]; [by apply Hcov|done].
    + rewrite dailySet_keys_new by done. apply elem_of_app.
      apply elem_of_app in Hx as [Hx| ->%list_elem_of_singleton];
        [left; by apply Hcov|right; left].
Qed.

Lemma findInRange_elem apyRepo asset from to s :
  s ∈ findInRange apyRepo asset from to ↔
  s ∈ apyRepo ∧ Snapshot.asset s = asset
  ∧ Snapshot.granularity s = "hourly"%string
  ∧ from <= Snapshot.timestamp s <= to.
Proof.
  unfold findInRange. rewrite merge_sort_Permutation, list_elem_of_filter. tauto.
Qed.

Lemma findInRange_sorted apyRepo asset from to :
  StronglySorted bySnapshotAsc (findInRange apyRepo asset from to).
Proof. unfold findInRange. apply StronglySorted_merge_sort; apply _. Qed.

Lemma daily_snapshots apyRepo asset from to :
  let kept := filteredSnapshots apyRepo asset from to daily in
  NoDup ((isoDate ∘ Snapshot.timestamp) <$> kept)
  ∧ (∀ c, c ∈ kept →
       c ∈ findInRange apyRepo asset from to
       ∧ ∀ x, x ∈ findInRange apyRepo asset from to →
              isoDate (Snapshot.timestamp x) = isoDate (Snapshot.timestamp c) →
              Snapshot.timestamp x <= Snapshot.timestamp c)
  ∧ (∀ x, x ∈ findInRange apyRepo asset from to →
       ∃ c, c ∈ kept
            ∧ isoDate (Snapshot.timestamp c) = isoDate (Snapshot.timestamp x)).
Proof.
  destruct (snapshot_dailyMap _ (findInRange_sorted apyRepo asset from to))
    as (Hnd & Hval & Hcov).
  unfold filteredSnapshots. set (m := fold_left _ _ []) in *.
  assert ((isoDate ∘ Snapshot.timestamp) <$> m.*2 = m.*1) as Hkeys.
  { rewrite <- list_fmap_compose. apply list_eq_Forall2, Forall2_fmap.
    apply Forall_Forall2_diag, Forall_forall. intros [k v] Hin. simpl.
    by destruct (Hval k v Hin) as (_ & ? & _). }
  split; [by rewrite Hkeys|]. split.
  - intros c Hc. apply list_elem_of_fmap in Hc as [[k v] [-> Hin]]. simpl.
    destruct (Hval k v Hin) as (Hv & Hk & Hmax). split; [done|].
    intros x Hx Hxk. apply Hmax; [done|congruence].
  - intros x Hx. specialize (Hcov x Hx).
    apply list_elem_of_fmap in Hcov as [[k v] [Hk Hin]]. simpl in Hk. subst k.
    exists v. split; [by apply (list_elem_of_fmap_2 snd) in Hin|].
    by destruct (Hval _ v Hin) as (_ & ? & _).
Qed.

(** X22: with granularity "daily" [getApyHistory] answers one point per
    calendar day: no two points share a day; every point is the hourly
    snapshot of the asset inside [from, to] with the latest timestamp of
    its day; every day that has such a snapshot has its point; and there
    are never more daily points than hourly ones. *)
Theorem getApyHistory_daily_latest_of_each_day apyRepo asset from to :
  let inRange := λ s : ApySnapshot,
    s ∈ apyRepo ∧ Snapshot.asset s = asset
    ∧ Snapshot.granularity s = "hourly"%string
    ∧ from <= Snapshot.timestamp s <= to in
  let points := getApyHistory apyRepo asset from to daily in
  NoDup ((isoDate ∘ Point.timestamp) <$> points)
  ∧ (∀ p, p ∈ points →
       ∃ s, inRange s ∧ p = pointOf s
            ∧ ∀ x, inRange x →
                   isoDate (Snapshot.timestamp x) = isoDate (Snapshot.timestamp s) →
                   Snapshot.timestamp x <= Snapshot.timestamp s)
  ∧ (∀ x, inRange x →
       ∃ p, p ∈ points
            ∧ isoDate (Point.timestamp p) = isoDate (Snapshot.timestamp x))
  ∧ (length points
     <= length (getApyHistory apyRepo asset from to hourly))%nat.
Proof.
  intros inRange points.
  destruct (daily_snapshots apyRepo asset from to) as (Hnd & Hval & Hcov).
  unfold points, getApyHistory.
  change (map pointOf ?l) with (pointOf <$> l).
  split; [|split; [|split]].
  - rewrite <- list_fmap_compose.
    by replace ((isoDate ∘ Point.timestamp) ∘ pointOf)
      with (isoDate ∘ Snapshot.timestamp) by done.
  - intros p Hp. apply list_elem_of_fmap in Hp as (c & -> & Hc).
    destruct (Hval c Hc) as [Hin Hmax]. exists c.
    split; [by apply findInRange_elem|]. split; [done|].
    intros x Hx. apply Hmax. by apply findInRange_elem.
  - intros x Hx. destruct (Hcov x) as (c & Hc & Hday); [by apply findInRange_elem|].
    exists (pointOf c). split; [by apply list_elem_of_fmap_2|done].
  - rewrite !length_fmap. simpl.
    apply NoDup_fmap_1 in Hnd.
    apply submseteq_length, NoDup_submseteq; [done|].
    intros c Hc. by apply Hval.
Qed.

(** X23: with granularity "hourly" [getApyHistory] answers exactly the
    hourly snapshots of the asset whose timestamp lies in [from, to],
    ordered by timestamp; a range whose end is before its start gives
    no point. *)
Theorem getApyHistory_hourly_all_in_range apyRepo asset from to :
  let points := getApyHistory apyRepo asset from to hourly in
  (∀ p, p ∈ points ↔
        ∃ s, s ∈ apyRepo ∧ Snapshot.asset s = asset
             ∧ Snapshot.granularity s = "hourly"%string
             ∧ from <= Snapshot.timestamp s <= to ∧ p = pointOf s)
  ∧ StronglySorted (λ p q, Point.timestamp p <= Point.timestamp q) points
  ∧ (to < from → points = []).
Proof.
  intros points. unfold points, getApyHistory, filteredSnapshots.
  change (map pointOf ?l) with (pointOf <$> l).
  split; [|split].
  - intros p. rewrite list_elem_of_fmap. split.
    + intros (s & -> & Hs). apply findInRange_elem in Hs. exists s. tauto.
    + intros (s & H1 & H2 & H3 & H4 & ->). exists s. split; [done|].
      apply findInRange_elem. tauto.
  - pose proof (findInRange_sorted apyRepo asset from to) as Hsort.
    induction Hsort as [|s l _ IH Hall]; [constructor|].
    rewrite fmap_cons. constructor; [done|].
    rewrite Forall_fmap. eapply Forall_impl; [exact Hall|]. done.
  - intros Hlt.
    destruct (findInRange apyRepo asset from to) as [|s l] eqn:Hf; [done|].
    assert (s ∈ findInRange apyRepo asset from to) as Hs by (rewrite Hf; left).
    apply findInRange_elem in Hs. lia.
Qed.

Example getApyHistory_three_snapshots :
  map Point.timestamp
      (getApyHistory Samples.threeSnapshots "vDOT" 0 172800000 hourly)
    = [3600000; 82800000; 90000000]
  ∧ map Point.timestamp
        (getApyHistory Samples.threeSnapshots "vDOT" 0 172800000 daily)
    = [82800000; 90000000]
  ∧ getApyHistory Samples.threeSnapshots "vKSM" 0 172800000 daily = [].
Proof. repeat split; reflexivity. Qed.
End snapshot_history.

Section current_apy.
Import Apy ApyService ApyController.
Local Open Scope R_scope.



End current_apy.

Section token_price.
Import Apy ApyService.
Local Open Scope R_scope.

(** The four ways a call of [getTokenPrice] ends: a fresh cache entry,
    a price of DeFiLlama, a price of CoinGecko, the stored price. *)
Lemma getTokenPrice_cases w id st :
  let stale := ∀ c, priceCache st !! id = Some c →
                    (PRICE_CACHE_TTL_MS ≤ nowTested w - fetchedAt c)%Z in
  let unusable := λ srv : string → HttpAnswer,
    ∀ q, srv id = HttpAnswers (Some q) → q <= 0 in
  (∃ c, priceCache st !! id = Some c
        ∧ (nowTested w - fetchedAt c < PRICE_CACHE_TTL_MS)%Z
        ∧ getTokenPrice w id st = (price c, st))
  ∨ (stale ∧ ∃ p, defillama w id = HttpAnswers (Some p) ∧ 0 < p
       ∧ getTokenPrice w id st
         = (p, {| priceCache :=
                    <[ id := {| price := p; fetchedAt := nowCached w |} ]>
                      (priceCache st);
                  priceRepo :=
                    upsertPrice id (nowStored w / 3600000 * 3600000)%Z
                      p "defillama" (nowCreated w) (priceRepo st) |}))
  ∨ (stale ∧ unusable (defillama w)
     ∧ ∃ p, coingecko w id = HttpAnswers (Some p) ∧ 0 < p
       ∧ getTokenPrice w id st
         = (p, {| priceCache :=
                    <[ id := {| price := p; fetchedAt := nowCached w |} ]>
                      (priceCache st);
                  priceRepo := priceRepo st |}))
  ∨ (stale ∧ unusable (defillama w) ∧ unusable (coingecko w)
     ∧ getTokenPrice w id st
       = (match findLastPrice (priceRepo st) id with
          | Some lastPrice => Price.priceUsd lastPrice
          | None => 0
          end, st)).
Proof.
  intros stale unusable. unfold getTokenPrice.
  assert (∀ srv : string → HttpAnswer,
            (∃ p, srv id = HttpAnswers (Some p) ∧ 0 < p
                  ∧ match priceIn (srv id) with
                    | Some price => if Rgtb price 0 then Some price else None
                    | None => None
                    end = Some p)
            ∨ (unusable srv
               ∧ match priceIn (srv id) with
                 | Some price => if Rgtb price 0 then Some price else None
                 | None => None
                 end = None)) as Hsrv.
  { intros srv. unfold unusable. destruct (srv id) as [|[q|]]; simpl.
    - right. split; [done|done].
    - destruct (Rgtb q 0) eqn:Hq.
      + left. exists q. apply Rgtb_true in Hq. done.
      + right. apply Rgtb_false in Hq. split; [|done]. by intros ? [= <-].
    - right. split; [done|]. by rewrite (proj2 (Rgtb_false 0 0)) by lra. }
  assert ((∃ c, priceCache st !! id = Some c
                ∧ (nowTested w - fetchedAt c < PRICE_CACHE_TTL_MS)%Z)
          ∨ stale) as [(c & Hc & Hfresh)|Hstale].
  { unfold stale. destruct (priceCache st !! id) as [c|]; [|by right].
    destruct (Z_lt_le_dec (nowTested w - fetchedAt c) PRICE_CACHE_TTL_MS).
    - left. by exists c.
    - right. by intros ? [= <-]. }
  { left. exists c. by rewrite Hc, (proj2 (Z.ltb_lt _ _)). }
  right.
  assert (match priceCache st !! id with
          | Some cached =>
              if (nowTested w - fetchedAt cached <? PRICE_CACHE_TTL_MS)%Z
              then Some (price cached) else None
          | None => None
          end = None) as ->.
  { destruct (priceCache st !! id) as [c|]; [|done].
    by rewrite (proj2 (Z.ltb_ge _ _)) by (by apply Hstale). }
  destruct (Hsrv (defillama w)) as [(p & Hp & Hpos & ->)|[Hll ->]].
  { left. split; [done|]. by exists p. }
  right. destruct (Hsrv (coingecko w)) as [(p & Hp & Hpos & ->)|[Hcg ->]].
  { left. split; [done|]. split; [done|]. by exists p. }
  right. done.
Qed.

(** X25: a price obtained from a server is served from the cache for
    five minutes.  When the cache has no fresh entry and DeFiLlama, or
    failing it CoinGecko, answers a positive price, [getTokenPrice]
    returns that price; a call whose cache test happens less than five
    minutes after the price was cached returns it again and changes
    neither the cache nor the collection, whatever the servers answer
    then. *)
Theorem getTokenPrice_caches_upstream_price w w' coingeckoId st p :
  (∀ c, priceCache st !! coingeckoId = Some c →
        (PRICE_CACHE_TTL_MS ≤ nowTested w - fetchedAt c)%Z) →
  0 < p →
  defillama w coingeckoId = HttpAnswers (Some p)
  ∨ ((∀ q, defillama w coingeckoId = HttpAnswers (Some q) → q <= 0)
     ∧ coingecko w coingeckoId = HttpAnswers (Some p)) →
  (nowTested w' - nowCached w < PRICE_CACHE_TTL_MS)%Z →
  (getTokenPrice w coingeckoId st).1 = p
  ∧ getTokenPrice w' coingeckoId (getTokenPrice w coingeckoId st).2
    = (p, (getTokenPrice w coingeckoId st).2).
Proof.
  intros Hstale Hp Hup Hfresh.
  assert (∃ st', getTokenPrice w coingeckoId st = (p, st')
                 ∧ priceCache st' !! coingeckoId
                   = Some {| price := p; fetchedAt := nowCached w |})
    as (st' & -> & Hc).
  { destruct (getTokenPrice_cases w coingeckoId st)
      as [(c & Hc & Hlt & _)
         |[(_ & q & Hq & Hqpos & ->)
          |[(_ & Hll & q & Hq & _ & ->)|(_ & Hll & Hcg & _)]]].
    - specialize (Hstale c Hc). lia.
    - destruct Hup as [Hll|[Hll _]].
      + rewrite Hll in Hq. injection Hq as <-.
        eexists. split; [done|]. simpl. by rewrite lookup_insert_eq.
      + specialize (Hll q Hq). lra.
    - destruct Hup as [Hup|[_ Hcg]].
      + specialize (Hll p Hup). lra.
      + rewrite Hcg in Hq. injection Hq as <-.
        eexists. split; [done|]. simpl. by rewrite lookup_insert_eq.
    - destruct Hup as [Hup|[_ Hup]].
      + specialize (Hll p Hup). lra.
      + specialize (Hcg p Hup). lra. }
  simpl. split; [done|].
  unfold getTokenPrice. by rewrite Hc, (proj2 (Z.ltb_lt _ _)).
Qed.
(** X26: [getTokenPrice] caches positive server prices only: a cache
    of positive prices stays one, entries of other coins are untouched,
    and a call that returns a price that is not positive has changed
    nothing.  When the cache has no fresh entry and neither server has a
    positive price, the answer is the stored price with the latest
    timestamp, or 0 without one, and nothing is cached or stored. *)
Theorem getTokenPrice_never_caches_a_fallback w coingeckoId st :
  (∀ k c, priceCache st !! k = Some c → 0 < price c) →
  let answer := (getTokenPrice w coingeckoId st).1 in
  let st' := (getTokenPrice w coingeckoId st).2 in
  (∀ k c, priceCache st' !! k = Some c → 0 < price c)
  ∧ (∀ k, k ≠ coingeckoId → priceCache st' !! k = priceCache st !! k)
  ∧ (answer <= 0 → st' = st)
  ∧ ((∀ c, priceCache st !! coingeckoId = Some c →
           (PRICE_CACHE_TTL_MS ≤ nowTested w - fetchedAt c)%Z) →
     (∀ q, defillama w coingeckoId = HttpAnswers (Some q) → q <= 0) →
     (∀ q, coingecko w coingeckoId = HttpAnswers (Some q) → q <= 0) →
     st' = st
     ∧ answer = match findLastPrice (priceRepo st) coingeckoId with
                | Some lastPrice => Price.priceUsd lastPrice
                | None => 0
                end).
Proof.
  intros Hpos answer st'. unfold answer, st'.
  destruct (getTokenPrice_cases w coingeckoId st)
    as [(c & Hc & Hlt & ->)
       |[(Hstale & q & Hq & Hqpos & ->)
        |[(Hstale & Hll & q & Hq & Hqpos & ->)|(Hstale & Hll & Hcg & ->)]]];
    simpl.
  - split; [done|]. split; [done|]. split; [done|].
    intros Hst. specialize (Hst c Hc). lia.
  - split; [|split; [|split]].
    + intros k c Hk. apply lookup_insert_Some in Hk as [[_ <-]|[_ Hk]];
        [done|by apply (Hpos _ _ Hk)].
    + intros k Hk. by rewrite lookup_insert_ne.
    + lra.
    + intros _ Hno _. specialize (Hno q Hq). lra.
  - split; [|split; [|split]].
    + intros k c Hk. apply lookup_insert_Some in Hk as [[_ <-]|[_ Hk]];
        [done|by apply (Hpos _ _ Hk)].
    + intros k Hk. by rewrite lookup_insert_ne.
    + lra.
    + intros _ _ Hno. specialize (Hno q Hq). lra.
  - done.
Qed.
End token_price.

Section calendar.
Import Backtest.
Local Open Scope Z_scope.

(** The calendar repeats every 400 years, which are 146097 days. *)
Lemma civilFromDays_era (n k : Z) :
  civilFromDays (n + 146097 * k)
  = ((civilFromDays n).1.1 + 400 * k, (civilFromDays n).1.2, (civilFromDays n).2).
Proof.
  unfold civilFromDays.
  assert ((n + 146097 * k + 719468) / 146097 = (n + 719468) / 146097 + k) as ->.
  { replace (n + 146097 * k + 719468) with (n + 719468 + k * 146097) by ring.
    by rewrite Z.div_add. }
  replace (n + 146097 * k + 719468 - ((n + 719468) / 146097 + k) * 146097)
    with (n + 719468 - (n + 719468) / 146097 * 146097) by ring.
  cbv zeta. simpl fst. simpl snd. f_equal. f_equal. ring.
Qed.

(** A test that holds of the values of [f] at every number from [a] on
    and at its successor, [n] times. *)
Lemma iterated_test {A} (f : Z → A) (test : A → A → bool) (a : Z) (n : N) :
  (N.iter n
     (λ st : Z * A * bool,
        let next := f (st.1.1 + 1) in
        (st.1.1 + 1, next, st.2 && test st.1.2 next))
     (a, f a, true)).2 = true →
  ∀ i, a <= i < a + Z.of_N n → test (f i) (f (i + 1)) = true.
Proof.
  apply (N.iter_ind _
           (λ st : Z * A * bool,
              let next := f (st.1.1 + 1) in
              (st.1.1 + 1, next, st.2 && test st.1.2 next))
           (a, f a, true)
           (λ n st, st.1.1 = a + Z.of_N n ∧ st.1.2 = f (a + Z.of_N n)
                    ∧ (st.2 = true →
                       ∀ i, a <= i < a + Z.of_N n → test (f i) (f (i + 1)) = true))).
  - split; [simpl; lia|]. split; [simpl; f_equal; lia|]. intros _ i Hi. lia.
  - intros k [[c v] ok] (Hc & Hv & Hok). simpl in *. subst c v.
    split; [lia|]. split; [f_equal; lia|].
    intros [Hk Ht]%andb_true_iff i Hi.
    destruct (decide (i = a + Z.of_N k)) as [->|Hne]; [done|].
    apply Hok; [done|lia].
Qed.

(** Within the 400 years from 0000-03-01 every day has a month from 1
    to 12 and a day of the month from 1 to 31, and the day after it is a
    later date. *)
Lemma one_era_checked :
  (N.iter 146097
     (λ st : Z * (Z * Z * Z) * bool,
        let next := civilFromDays (st.1.1 + 1) in
        (st.1.1 + 1, next,
         st.2 &&
         (λ today tomorrow : Z * Z * Z,
            let '(y, m, d) := today in
            let '(y', m', d') := tomorrow in
            (0 <=? y) && (y <=? 400) && (1 <=? m) && (m <=? 12)
            && (1 <=? d) && (d <=? 31) && (1 <=? m') && (m' <=? 12)
            && (1 <=? d') && (d' <=? 31)
            && ((y <? y')
                || ((y =? y') && ((m <? m') || ((m =? m') && (d <? d'))))))
           st.1.2 next))
     (-719468, civilFromDays (-719468), true)).2 = true.
Proof. vm_cast_no_check (eq_refl true). Qed.

(** Every day has a valid month and day of the month, and the day
    after it is a later date. *)
Lemma next_day_later (n : Z) :
  ∃ y m d y' m' d',
    civilFromDays n = (y, m, d) ∧ civilFromDays (n + 1) = (y', m', d')
    ∧ 1 <= m <= 12 ∧ 1 <= d <= 31 ∧ 1 <= m' <= 12 ∧ 1 <= d' <= 31
    ∧ (y < y' ∨ (y = y' ∧ (m < m' ∨ (m = m' ∧ d < d')))).
Proof.
  set (k := (n + 719468) / 146097).
  set (n0 := n - 146097 * k).
  assert (-719468 <= n0 < -719468 + Z.of_N 146097) as Hn0.
  { unfold n0, k. pose proof (Z.mod_pos_bound (n + 719468) 146097 ltac:(lia)).
    pose proof (Z.div_mod (n + 719468) 146097 ltac:(lia)). lia. }
  pose proof
    (iterated_test civilFromDays
       (λ today tomorrow : Z * Z * Z,
          let '(y, m, d) := today in
          let '(y', m', d') := tomorrow in
          (0 <=? y) && (y <=? 400) && (1 <=? m) && (m <=? 12)
          && (1 <=? d) && (d <=? 31) && (1 <=? m') && (m' <=? 12)
          && (1 <=? d') && (d' <=? 31)
          && ((y <? y')
              || ((y =? y') && ((m <? m') || ((m =? m') && (d <? d'))))))
       (-719468) 146097%N one_era_checked n0 Hn0) as Hok.
  cbv beta in Hok.
  replace n with (n0 + 146097 * k) by (unfold n0; lia).
  replace (n0 + 146097 * k + 1) with (n0 + 1 + 146097 * k) by lia.
  rewrite !civilFromDays_era.
  destruct (civilFromDays n0) as [[y m] d].
  destruct (civilFromDays (n0 + 1)) as [[y' m'] d'].
  simpl. exists (y + 400 * k), m, d, (y' + 400 * k), m', d'.
  split; [done|]. split; [done|].
  rewrite !andb_true_iff, orb_true_iff, andb_true_iff, orb_true_iff,
    andb_true_iff in Hok.
  destruct Hok as [[[[[[[[[[H1 H2] H3] H4] H5] H6] H7] H8] H9] H10] H11].
  lia.
Qed.

(** Later days are later dates. *)
Lemma later_day_later (n n' : Z) :
  n < n' →
  ∃ y m d y' m' d',
    civilFromDays n = (y, m, d) ∧ civilFromDays n' = (y', m', d')
    ∧ 1 <= m <= 12 ∧ 1 <= d <= 31 ∧ 1 <= m' <= 12 ∧ 1 <= d' <= 31
    ∧ (y < y' ∨ (y = y' ∧ (m < m' ∨ (m = m' ∧ d < d')))).
Proof.
  intros Hlt. replace n' with (n + 1 + Z.of_nat (Z.to_nat (n' - n - 1))) by lia.
  induction (Z.to_nat (n' - n - 1)) as [|c IH].
  - replace (n + 1 + Z.of_nat 0) with (n + 1) by lia. apply next_day_later.
  - destruct IH as (y & m & d & y1 & m1 & d1 & Hn & Hn1 & Hm & Hd & Hm1 & Hd1 & Hlex).
    destruct (next_day_later (n + 1 + Z.of_nat c))
      as (y1' & m1' & d1' & y2 & m2 & d2 & Hn1' & Hn2 & _ & _ & Hm2 & Hd2 & Hlex').
    rewrite Hn1 in Hn1'. injection Hn1' as <- <- <-.
    replace (n + 1 + Z.of_nat (S c)) with (n + 1 + Z.of_nat c + 1) by lia.
    exists y, m, d, y2, m2, d2. repeat split; try done; lia.
Qed.

Lemma digit_compare (a b : Z) :
  Ascii.compare (digit a) (digit b) = (a mod 10 ?= b mod 10).
Proof.
  unfold digit.
  pose proof (Z.mod_pos_bound a 10 ltac:(lia)) as Ha.
  pose proof (Z.mod_pos_bound b 10 ltac:(lia)) as Hb.
  set (u := a mod 10) in *. set (v := b mod 10) in *.
  assert (u = 0 ∨ u = 1 ∨ u = 2 ∨ u = 3 ∨ u = 4 ∨ u = 5 ∨ u = 6 ∨ u = 7
          ∨ u = 8 ∨ u = 9) as Hu by lia.
  assert (v = 0 ∨ v = 1 ∨ v = 2 ∨ v = 3 ∨ v = 4 ∨ v = 5 ∨ v = 6 ∨ v = 7
          ∨ v = 8 ∨ v = 9) as Hv by lia.
  clearbody u v.
  destruct Hu as [->|[->|[->|[->|[->|[->|[->|[->|[->| ->]]]]]]]]];
    destruct Hv as [->|[->|[->|[->|[->|[->|[->|[->|[->| ->]]]]]]]]];
    reflexivity.
Qed.

(** Between the years 0000 and 9999 the text of a later date is
    greater, as strings compare. *)
Lemma isoDate_text_order (y m d y' m' d' : Z) :
  0 <= y <= 9999 → 0 <= y' <= 9999 →
  1 <= m <= 12 → 1 <= d <= 31 → 1 <= m' <= 12 → 1 <= d' <= 31 →
  y < y' ∨ (y = y' ∧ (m < m' ∨ (m = m' ∧ d < d'))) →
  String.compare
    (pad4 y +:+ "-" +:+ pad2 m +:+ "-" +:+ pad2 d)
    (pad4 y' +:+ "-" +:+ pad2 m' +:+ "-" +:+ pad2 d') = Lt.
Proof.
  intros Hy Hy' Hm Hd Hm' Hd' Hlex.
  unfold pad4, pad2. simpl. rewrite !digit_compare.
  assert (y = 1000 * ((y / 1000) mod 10) + 100 * ((y / 100) mod 10)
              + 10 * ((y / 10) mod 10) + y mod 10) as Ey
    by (Z.to_euclidean_division_equations; lia).
  assert (y' = 1000 * ((y' / 1000) mod 10) + 100 * ((y' / 100) mod 10)
               + 10 * ((y' / 10) mod 10) + y' mod 10) as Ey'
    by (Z.to_euclidean_division_equations; lia).
  assert (m = 10 * ((m / 10) mod 10) + m mod 10) as Em
    by (Z.to_euclidean_division_equations; lia).
  assert (m' = 10 * ((m' / 10) mod 10) + m' mod 10) as Em'
    by (Z.to_euclidean_division_equations; lia).
  assert (d = 10 * ((d / 10) mod 10) + d mod 10) as Ed
    by (Z.to_euclidean_division_equations; lia).
  assert (d' = 10 * ((d' / 10) mod 10) + d' mod 10) as Ed'
    by (Z.to_euclidean_division_equations; lia).
  pose proof (Z.mod_pos_bound (y / 1000) 10 ltac:(lia)).
  pose proof (Z.mod_pos_bound (y / 100) 10 ltac:(lia)).
  pose proof (Z.mod_pos_bound (y / 10) 10 ltac:(lia)).
  pose proof (Z.mod_pos_bound y 10 ltac:(lia)).
  pose proof (Z.mod_pos_bound (y' / 1000) 10 ltac:(lia)).
  pose proof (Z.mod_pos_bound (y' / 100) 10 ltac:(lia)).
  pose proof (Z.mod_pos_bound (y' / 10) 10 ltac:(lia)).
  pose proof (Z.mod_pos_bound y' 10 ltac:(lia)).
  pose proof (Z.mod_pos_bound (m / 10) 10 ltac:(lia)).
  pose proof (Z.mod_pos_bound m 10 ltac:(lia)).
  pose proof (Z.mod_pos_bound (m' / 10) 10 ltac:(lia)).
  pose proof (Z.mod_pos_bound m' 10 ltac:(lia)).
  pose proof (Z.mod_pos_bound (d / 10) 10 ltac:(lia)).
  pose proof (Z.mod_pos_bound d 10 ltac:(lia)).
  pose proof (Z.mod_pos_bound (d' / 10) 10 ltac:(lia)).
  pose proof (Z.mod_pos_bound d' 10 ltac:(lia)).
  generalize dependent ((y / 1000) mod 10). generalize dependent ((y / 100) mod 10).
  generalize dependent ((y / 10) mod 10). generalize dependent (y mod 10).
  generalize dependent ((y' / 1000) mod 10). generalize dependent ((y' / 100) mod 10).
  generalize dependent ((y' / 10) mod 10). generalize dependent (y' mod 10).
  generalize dependent ((m / 10) mod 10). generalize dependent (m mod 10).
  generalize dependent ((m' / 10) mod 10). generalize dependent (m' mod 10).
  generalize dependent ((d / 10) mod 10). generalize dependent (d mod 10).
  generalize dependent ((d' / 10) mod 10). generalize dependent (d' mod 10).
  intros.
  repeat match goal with
         | |- context [?a ?= ?b] =>
             destruct (Z.compare_spec a b); [|reflexivity|exfalso; lia]
         end.
  exfalso. lia.
Qed.

Lemma civilFromDays_year_range (n : Z) :
  -719528 <= n <= 2932896 → 0 <= (civilFromDays n).1.1 <= 9999.
Proof.
  intros [Hlo Hhi].
  assert (0 <= (civilFromDays n).1.1).
  { destruct (decide (n = -719528)) as [->|Hne]; [done|].
    destruct (later_day_later (-719528) n)
      as (y & m & d & y' & m' & d' & H0 & Hn & _ & _ & _ & _ & Hlex); [lia|].
    change (civilFromDays (-719528)) with (0, 1, 1) in H0.
    rewrite Hn. simpl. injection H0 as <- <- <-. lia. }
  assert ((civilFromDays n).1.1 <= 9999).
  { destruct (decide (n = 2932896)) as [->|Hne]; [done|].
    destruct (later_day_later n 2932896)
      as (y & m & d & y' & m' & d' & Hn & H1 & _ & _ & _ & _ & Hlex); [lia|].
    change (civilFromDays 2932896) with (9999, 12, 31) in H1.
    rewrite Hn. simpl. injection H1 as <- <- <-. lia. }
  lia.
Qed.

(** Between the years 0000 and 9999, a timestamp on a later calendar
    day has the greater date text. *)
Lemma isoDate_later (t t' : Z) :
  -62167219200000 <= t → t' < 253402300800000 → dayOf t < dayOf t' →
  String.compare (isoDate t) (isoDate t') = Lt.
Proof.
  intros Hlo Hhi Hlt.
  assert (-719528 <= dayOf t) as Hd.
  { unfold dayOf, msPerDay. apply Z.div_le_lower_bound; lia. }
  assert (dayOf t' <= 2932896) as Hd'.
  { unfold dayOf, msPerDay.
    assert (t' / (1000 * 60 * 60 * 24) < 2932897); [|lia].
    apply Z.div_lt_upper_bound; lia. }
  pose proof (civilFromDays_year_range (dayOf t) ltac:(lia)) as Hy.
  pose proof (civilFromDays_year_range (dayOf t') ltac:(lia)) as Hy'.
  destruct (later_day_later _ _ Hlt)
    as (y & m & d & y' & m' & d' & Hn & Hn' & Hm & Hdd & Hm' & Hdd' & Hlex).
  unfold isoDate. rewrite Hn, Hn' in *. simpl in Hy, Hy'.
  by apply isoDate_text_order.
Qed.

Lemma buildDayList_increasing (start end_ : Z) (i j : nat) (a b : string) :
  -62167219200000 <= start → end_ < 253402300800000 →
  (i < j)%nat →
  buildDayList start end_ !! i = Some a →
  buildDayList start end_ !! j = Some b →
  String.compare a b = Lt.
Proof.
  intros Hlo Hhi Hij Ha Hb.
  rewrite buildDayList_lookup in Ha, Hb.
  destruct (start + Z.of_nat i * msPerDay <=? end_) eqn:Hi; [|done].
  destruct (start + Z.of_nat j * msPerDay <=? end_) eqn:Hj; [|done].
  apply Z.leb_le in Hi, Hj. injection Ha as <-. injection Hb as <-.
  apply isoDate_later.
  - unfold msPerDay in *. lia.
  - lia.
  - unfold dayOf. rewrite !Z.div_add by done. lia.
Qed.

(** X27: for a run between the years 0000 and 9999 the day list is
    strictly increasing as text: a later entry is a greater string, so
    no date occurs twice and the string comparison [getApyForDay] uses
    on dates agrees with the order of the days. *)
Theorem buildDayList_chronological (start end_ : Z) (i j : nat) (a b : string) :
  -62167219200000 <= start → end_ < 253402300800000 →
  (i < j)%nat →
  buildDayList start end_ !! i = Some a →
  buildDayList start end_ !! j = Some b →
  String.le a b ∧ a ≠ b.
Proof.
  intros Hlo Hhi Hij Ha Hb.
  pose proof (buildDayList_increasing start end_ i j a b Hlo Hhi Hij Ha Hb) as Hlt.
  split.
  - unfold String.le, String.leb. by rewrite Hlt.
  - intros ->. pose proof (String.compare_antisym b b) as Hanti.
    rewrite Hlt in Hanti. done.
Qed.
End calendar.

(* ===================================================================== *)
(** ** The further theorems at concrete inputs *)
(* ===================================================================== *)

Section at_more_concrete_inputs.
Import PoolsClient Backtest Spec Inputs Samples.
Local Open Scope R_scope.

Lemma feeDto_returned :
  outcome (Backtest.runBacktest feeDto noHistory)
  = Returned (report feeDto (simulate feeDto noHistory)).
Proof.
  rewrite runBacktest_accepts; [reflexivity| |simpl; lia].
  unfold sumBy. simpl. rewrite Rabs_right; lra.
Qed.



(** A DEX allocation of 100 USD keeps at least 99 USD. *)
Lemma applyIL_bounded_loss_witness :
  0 <= valueUsd dexState
  ∧ valueUsd dexState * 0.99 <= valueUsd (applyIL dexState) <= valueUsd dexState.
Proof.
  assert (0 <= valueUsd dexState) as Hv by (simpl; lra).
  split; [exact Hv|].
  destruct (applyIL_bounded_loss dexState Hv) as [Hloss _]. exact Hloss.
Defined.

(** Eight points under a cap of three. *)
Lemma downsampleTimeSeries_selects_witness :
  (1 <= 3)%nat
  ∧ sublist (downsampleTimeSeries (seq 0 8) 3) (seq 0 8)
  ∧ (length (downsampleTimeSeries (seq 0 8) 3) <= 3 + 1)%nat
  ∧ head (downsampleTimeSeries (seq 0 8) 3) = head (seq 0 8)
  ∧ last (downsampleTimeSeries (seq 0 8) 3) = last (seq 0 8).
Proof. split; [lia|]. apply downsampleTimeSeries_selects. lia. Defined.

(** The two-day run has a duration of one day. *)
Lemma breakdown_follows_request_witness :
  outcome (Backtest.runBacktest feeDto noHistory)
  = Returned (report feeDto (simulate feeDto noHistory))
  ∧ Result.durationDays
      (Result.summary (report feeDto (simulate feeDto noHistory)))
    = (Z.of_nat (length (daysOf feeDto)) - 1)%Z.
Proof.
  split; [exact feeDto_returned|].
  destruct (breakdown_follows_request feeDto noHistory _ feeDto_returned)
    as (_ & _ & Hduration & _).
  exact Hduration.
Defined.

(** The series of the two-day run ends with its last day. *)
Lemma reported_series_spans_the_run_witness :
  outcome (Backtest.runBacktest feeDto noHistory)
  = Returned (report feeDto (simulate feeDto noHistory))
  ∧ last (map date (Result.timeSeries (report feeDto (simulate feeDto noHistory))))
    = last (daysOf feeDto).
Proof.
  split; [exact feeDto_returned|].
  destruct (reported_series_spans_the_run feeDto noHistory _ feeDto_returned)
    as (_ & _ & Hlast & _).
  exact Hlast.
Defined.


(** A server that throws and a server without data give the same run. *)
Lemma failed_fetch_counts_as_no_history_witness :
  (∀ alloc, alloc ∈ Dto.allocations feeDto →
            fetchRecords (noHistory (Dto.protocol alloc))
            = fetchRecords (emptyHistory (Dto.protocol alloc)))
  ∧ Backtest.runBacktest feeDto noHistory
    = Backtest.runBacktest feeDto emptyHistory.
Proof.
  assert (∀ alloc, alloc ∈ Dto.allocations feeDto →
            fetchRecords (noHistory (Dto.protocol alloc))
            = fetchRecords (emptyHistory (Dto.protocol alloc))) as Hsame
    by (intros alloc _; reflexivity).
  split; [exact Hsame|].
  exact (failed_fetch_counts_as_no_history feeDto noHistory emptyHistory Hsame).
Defined.









End at_more_concrete_inputs.

Section at_concrete_prices.
Import Apy ApyService Samples Backtest.
Local Open Scope R_scope.

(** A price of DeFiLlama is served again a minute later, with both
    servers down. *)
Lemma getTokenPrice_caches_upstream_price_witness :
  (∀ c, priceCache noPrices !! "polkadot"%string = Some c →
        (PRICE_CACHE_TTL_MS ≤ nowTested llamaAnswers - fetchedAt c)%Z)
  ∧ 0 < 7
  ∧ defillama llamaAnswers "polkadot" = HttpAnswers (Some 7)
  ∧ (nowTested serversDown - nowCached llamaAnswers < PRICE_CACHE_TTL_MS)%Z
  ∧ (getTokenPrice llamaAnswers "polkadot" noPrices).1 = 7
  ∧ getTokenPrice serversDown "polkadot"
      (getTokenPrice llamaAnswers "polkadot" noPrices).2
    = (7, (getTokenPrice llamaAnswers "polkadot" noPrices).2).
Proof.
  assert (∀ c, priceCache noPrices !! "polkadot"%string = Some c →
               (PRICE_CACHE_TTL_MS ≤ nowTested llamaAnswers - fetchedAt c)%Z)
    as Hstale.
  { intros c Hc. simpl in Hc. by rewrite lookup_empty in Hc. }
  assert (0 < 7) as Hpos by lra.
  assert (defillama llamaAnswers "polkadot" = HttpAnswers (Some 7)) as Hup
    by reflexivity.
  assert (nowTested serversDown - nowCached llamaAnswers < PRICE_CACHE_TTL_MS)%Z
    as Hfresh by (simpl; unfold PRICE_CACHE_TTL_MS; lia).
  split; [exact Hstale|]. split; [exact Hpos|]. split; [exact Hup|].
  split; [exact Hfresh|].
  exact (getTokenPrice_caches_upstream_price llamaAnswers serversDown "polkadot"
           noPrices 7 Hstale Hpos (or_introl Hup) Hfresh).
Defined.

(** With both servers down a cache of positive prices stays one. *)
Lemma getTokenPrice_never_caches_a_fallback_witness :
  (∀ k c, priceCache onePrice !! k = Some c → 0 < price c)
  ∧ (∀ k c, priceCache (getTokenPrice serversDown "kusama" onePrice).2 !! k
            = Some c → 0 < price c).
Proof.
  assert (∀ k c, priceCache onePrice !! k = Some c → 0 < price c) as Hpos.
  { intros k c Hk. simpl in Hk. apply lookup_singleton_Some in Hk as [_ <-].
    simpl. lra. }
  split; [exact Hpos|].
  destruct (getTokenPrice_never_caches_a_fallback serversDown "kusama" onePrice Hpos)
    as [Hkept _].
  exact Hkept.
Defined.

(** The two days from 1970-01-01. *)
Lemma buildDayList_chronological_witness :
  (-62167219200000 <= 0)%Z ∧ (86400000 < 253402300800000)%Z ∧ (0 < 1)%nat
  ∧ buildDayList 0 86400000 !! 0%nat = Some "1970-01-01"%string
  ∧ buildDayList 0 86400000 !! 1%nat = Some "1970-01-02"%string
  ∧ String.le "1970-01-01" "1970-01-02"
  ∧ "1970-01-01"%string ≠ "1970-01-02"%string.
Proof.
  split; [lia|]. split; [lia|]. split; [lia|].
  split; [reflexivity|]. split; [reflexivity|].
  apply (buildDayList_chronological 0 86400000 0 1); [lia|lia|lia|reflexivity..].
Defined.
End at_concrete_prices.
